(** * EOS: inverter energy dispatch and Akkudoktor load calibration

    A shallow embedding of

    - [akkudoktoreos/devices/inverter.py]  ([Inverter.process_energy]), and
    - [akkudoktoreos/prediction/loadakkudoktor.py]
      ([LoadAkkudoktor._calculate_adjustment], [LoadAkkudoktor.load_data]).

    Python floats are modelled twice.  In [Inverter] and
    [LoadAkkudoktor] they are exact rationals ([Q], compared with
    [==]); rounding, infinities and NaN are outside that model.  In
    [FloatInverter] the arithmetic of [process_energy] is a parameter:
    binary64 floats, on which the function is evaluated, and rationals
    whose sums and differences are rounded with a relative error of at
    most [u], on which the properties that depend on rounding are
    proved; exact arithmetic is the case [u = 0].  Raised exceptions
    are the [Err] side of [result]. *)

From Stdlib Require Import QArith Qabs Lqa ZArith Lia List Bool.
From Stdlib Require Floats.
From stdpp Require Import base list strings gmap.
Import ListNotations.

Local Open Scope Q_scope.

(** ** Python and numpy primitives used by the two files *)

Module Py.

(** The exception classes that can reach the two modelled functions. *)
Inductive exn : Type :=
| FileNotFoundError
| OSError
| KeyError
| TypeError
| ValueError
| IndexError
| ZeroDivisionError.

Inductive result (A : Type) : Type :=
| Ok (a : A)
| Err (e : exn).
Arguments Ok {A} a.
Arguments Err {A} e.

Definition bind {A B : Type} (m : result A) (k : A -> result B) : result B :=
  match m with
  | Ok a => k a
  | Err e => Err e
  end.

#[global] Instance result_ret : MRet result := @Ok.
#[global] Instance result_bind : MBind result :=
  fun A B k m => bind m k.

(** [a >= b], [a > b] and [a < b] on floats. *)
Definition ge (a b : Q) : bool := Qle_bool b a.
Definition gt (a b : Q) : bool := negb (Qle_bool a b).
Definition lt (a b : Q) : bool := negb (Qle_bool b a).

(** The builtins [max(a, b)] and [min(a, b)]: the first argument is kept
    unless the second is strictly larger (resp. smaller). *)
Definition max (a b : Q) : Q := if gt b a then b else a.
Definition min (a b : Q) : Q := if lt b a then b else a.

End Py.

(** ** devices/inverter.py *)

Module Inverter.

(** [Battery] as the inverter sees it: two methods that return a pair
    of floats and mutate the battery, here by returning its next state. *)
Class BatteryPort (B : Type) : Type := {
  charge_energy : B -> Q -> Z -> Q * Q * B;
  discharge_energy : B -> Q -> Z -> Q * Q * B
}.

(** The fields of [Inverter] that [process_energy] reads. *)
Record t (B : Type) : Type := mk {
  max_power_wh : Q;
  akku : B;
  self_consumption_predictor : Q -> Q -> Q
}.
Arguments mk {B}.
Arguments max_power_wh {B}.
Arguments akku {B}.
Arguments self_consumption_predictor {B}.

(** The returned tuple [(grid_export, grid_import, losses, self_consumption)]. *)
Definition flows : Type := Q * Q * Q * Q.

Definition grid_export (r : flows) : Q := let '(e, _, _, _) := r in e.
Definition grid_import (r : flows) : Q := let '(_, i, _, _) := r in i.
Definition losses (r : flows) : Q := let '(_, _, l, _) := r in l.
Definition self_consumption (r : flows) : Q := let '(_, _, _, s) := r in s.

Section ProcessEnergy.
Context {B : Type} `{BatteryPort B}.

Definition process_energy (self : t B) (generation consumption : Q) (hour : Z)
    : flows * B :=
  let losses := 0 in
  let grid_export := 0 in
  let grid_import := 0 in
  if Py.ge generation consumption then
    if Py.gt consumption (max_power_wh self) then
      let losses := losses + (generation - max_power_wh self) in
      let remaining_power := max_power_wh self - consumption in
      let grid_import := - remaining_power in
      let self_consumption := max_power_wh self in
      ((grid_export, grid_import, losses, self_consumption), akku self)
    else
      let scr := self_consumption_predictor self consumption generation in
      let remaining_power := (generation - consumption) * scr in
      let remaining_load_evq := (generation - consumption) * (1 - scr) in
      let '(from_battery, losses, grid_import, b) :=
        if Py.gt remaining_load_evq 0 then
          let '(from_battery, discharge_losses, b) :=
            discharge_energy (akku self) remaining_load_evq hour in
          let remaining_load_evq := remaining_load_evq - from_battery in
          let losses := losses + discharge_losses in
          if Py.gt remaining_load_evq 0 then
            (from_battery, losses, grid_import + remaining_load_evq, b)
          else
            (from_battery, losses, grid_import, b)
        else
          (0, losses, grid_import, akku self) in
      let '(grid_export, losses, b) :=
        if Py.gt remaining_power 0 then
          let '(charged_energie, charge_losses, b) :=
            charge_energy b remaining_power hour in
          let remaining_surplus :=
            remaining_power - (charged_energie + charge_losses) in
          let '(grid_export, losses) :=
            if Py.gt remaining_surplus (max_power_wh self - consumption) then
              let grid_export := max_power_wh self - consumption in
              (grid_export, losses + (remaining_surplus - grid_export))
            else
              (remaining_surplus, losses) in
          (grid_export, losses + charge_losses, b)
        else
          (grid_export, losses, b) in
      let self_consumption := consumption + from_battery in
      ((grid_export, grid_import, losses, self_consumption), b)
  else
    let shortfall := consumption - generation in
    let available_ac_power := Py.max (max_power_wh self - generation) 0 in
    let '(battery_discharge, discharge_losses, b) :=
      discharge_energy (akku self) (Py.min shortfall available_ac_power) hour in
    let losses := losses + discharge_losses in
    let grid_import := shortfall - battery_discharge in
    let self_consumption := generation + battery_discharge in
    ((grid_export, grid_import, losses, self_consumption), b).

(** The two halves of the surplus branch as functions of their own,
    and [process_energy] written with them; the proofs go through
    this form.

    Lines 87-100: the part of the surplus that the predictor does
    not count as self-consumed is requested from the battery.
    Returns [from_battery], the updated [losses] and [grid_import],
    and the battery. *)
Definition cover_remaining_load (b : B) (remaining_load_evq : Q) (hour : Z)
    (losses grid_import : Q) : Q * Q * Q * B :=
  if Py.gt remaining_load_evq 0 then
    let '(from_battery, discharge_losses, b) :=
      discharge_energy b remaining_load_evq hour in
    let remaining_load_evq := remaining_load_evq - from_battery in
    let losses := losses + discharge_losses in
    if Py.gt remaining_load_evq 0 then
      (from_battery, losses, grid_import + remaining_load_evq, b)
    else
      (from_battery, losses, grid_import, b)
  else
    (0, losses, grid_import, b).

(** Lines 102-114: charging with the remaining power and the clamp of
    the feed-in.  Returns [grid_export], the updated [losses], and the
    battery. *)
Definition charge_and_export (b : B) (max_power_wh consumption : Q)
    (remaining_power : Q) (hour : Z) (grid_export losses : Q) : Q * Q * B :=
  if Py.gt remaining_power 0 then
    let '(charged_energie, charge_losses, b) :=
      charge_energy b remaining_power hour in
    let remaining_surplus := remaining_power - (charged_energie + charge_losses) in
    let '(grid_export, losses) :=
      if Py.gt remaining_surplus (max_power_wh - consumption) then
        let grid_export := max_power_wh - consumption in
        (grid_export, losses + (remaining_surplus - grid_export))
      else
        (remaining_surplus, losses) in
    (grid_export, losses + charge_losses, b)
  else
    (grid_export, losses, b).

Definition process_energy_steps (self : t B) (generation consumption : Q) (hour : Z)
    : flows * B :=
  let losses := 0 in
  let grid_export := 0 in
  let grid_import := 0 in
  if Py.ge generation consumption then
    if Py.gt consumption (max_power_wh self) then
      let losses := losses + (generation - max_power_wh self) in
      let remaining_power := max_power_wh self - consumption in
      let grid_import := - remaining_power in
      let self_consumption := max_power_wh self in
      ((grid_export, grid_import, losses, self_consumption), akku self)
    else
      let scr := self_consumption_predictor self consumption generation in
      let remaining_power := (generation - consumption) * scr in
      let remaining_load_evq := (generation - consumption) * (1 - scr) in
      let '(from_battery, losses, grid_import, b) :=
        cover_remaining_load (akku self) remaining_load_evq hour losses grid_import in
      let '(grid_export, losses, b) :=
        charge_and_export b (max_power_wh self) consumption remaining_power hour
          grid_export losses in
      let self_consumption := consumption + from_battery in
      ((grid_export, grid_import, losses, self_consumption), b)
  else
    let shortfall := consumption - generation in
    let available_ac_power := Py.max (max_power_wh self - generation) 0 in
    let '(battery_discharge, discharge_losses, b) :=
      discharge_energy (akku self) (Py.min shortfall available_ac_power) hour in
    let losses := losses + discharge_losses in
    let grid_import := shortfall - battery_discharge in
    let self_consumption := generation + battery_discharge in
    ((grid_export, grid_import, losses, self_consumption), b).

(** The contract of section 4.2 of the specification:
    [0 <= amount_applied <= requested] and [losses >= 0]. *)
Record battery_contract : Prop := {
  charge_applied : forall b wh hour,
    0 <= wh ->
    0 <= fst (fst (charge_energy b wh hour)) <= wh;
  charge_losses_nonneg : forall b wh hour,
    0 <= wh ->
    0 <= snd (fst (charge_energy b wh hour));
  discharge_applied : forall b wh hour,
    0 <= wh ->
    0 <= fst (fst (discharge_energy b wh hour)) <= wh;
  discharge_losses_nonneg : forall b wh hour,
    0 <= wh ->
    0 <= snd (fst (discharge_energy b wh hour))
}.

(** A charging contract that [process_energy] relies on when it
    computes [remaining_surplus]: the stored energy and its conversion
    loss together are taken out of the requested amount. *)
Definition charge_within_request : Prop :=
  forall b wh hour,
    0 <= wh ->
    fst (fst (charge_energy b wh hour)) + snd (fst (charge_energy b wh hour)) <= wh.

End ProcessEnergy.

Arguments battery_contract B {_}.
Arguments charge_within_request B {_}.

(** The predictor contract of section 4.3: a ratio in [[0, 1]]. *)
Definition predictor_contract (p : Q -> Q -> Q) : Prop :=
  forall consumption generation, 0 <= p consumption generation <= 1.

(** Equality of result tuples up to the representation of rationals. *)
Definition flows_eq (r1 r2 : flows) : Prop :=
  grid_export r1 == grid_export r2 /\
  grid_import r1 == grid_import r2 /\
  losses r1 == losses r2 /\
  self_consumption r1 == self_consumption r2.

(** *** Batteries used in the examples *)

(** A battery that neither charges nor discharges; its state counts
    the calls it received. *)
Definition idle_battery : BatteryPort nat := {|
  charge_energy := fun n _ _ => (0, 0, S n);
  discharge_energy := fun n _ _ => (0, 0, S n)
|}.

(** A battery that delivers and absorbs exactly what is requested,
    without loss; its state is the net energy taken out. *)
Definition ideal_battery : BatteryPort Q := {|
  charge_energy := fun soc wh _ => (wh, 0, soc + wh);
  discharge_energy := fun soc wh _ => (wh, 0, soc - wh)
|}.

(** A battery that stores the whole request and reports one extra
    watt-hour of conversion loss on top of it. *)
Definition lossy_battery : BatteryPort unit := {|
  charge_energy := fun _ wh _ => (wh, 1, tt);
  discharge_energy := fun _ _ _ => (0, 0, tt)
|}.

End Inverter.

(** ** numpy arrays of floats *)

Module Np.
Import Py.

(** [np.zeros(n)]. *)
Definition zeros (n : nat) : list Q := replicate n 0.

(** Resolution of one integer index against an axis of length [len]:
    negative indices count from the end, anything else outside the
    axis raises [IndexError]. *)
Definition index (len : nat) (i : Z) : result nat :=
  if ((0 <=? i) && (i <? Z.of_nat len))%Z then Ok (Z.to_nat i)
  else if ((- Z.of_nat len <=? i) && (i <? 0))%Z then Ok (Z.to_nat (Z.of_nat len + i))
  else Err IndexError.

(** [a[i]] and [a[i] = x]. *)
Definition get {A : Type} (a : list A) (i : Z) : result A :=
  k ← index (length a) i;
  match a !! k with
  | Some x => Ok x
  | None => Err IndexError
  end.

Definition set {A : Type} (a : list A) (i : Z) (x : A) : result (list A) :=
  k ← index (length a) i;
  Ok (<[k := x]> a).

(** A table indexed [day, stat, hour]. *)
Abbreviation table := (list (list (list Q))).

(** [table[d, :, h]]: the column [h] of every statistic of day [d]. *)
Definition day_hour (a : table) (d h : Z) : result (list Q) :=
  day ← get a d;
  mapM (fun row => get row h) day.

(** [np.array(rows)] for a list of pairs of rows: the result has shape
    [(n, 2, w)]; rows of different lengths cannot be stacked. *)
Definition same_width (w : nat) (p : list Q * list Q) : bool :=
  (length (fst p) =? w)%nat && (length (snd p) =? w)%nat.

Definition array (rows : list (list Q * list Q)) : result table :=
  match rows with
  | [] => Ok []
  | r :: _ =>
      if forallb (same_width (length (fst r))) rows
      then Ok (map (fun p => [fst p; snd p]) rows)
      else Err ValueError
  end.

(** [x * y] for a float [x] and an optional float [y]: multiplying by
    [None] is a [TypeError]. *)
Definition float_mul (x : Q) (y : option Q) : result Q :=
  match y with
  | Some y => Ok (x * y)
  | None => Err TypeError
  end.

(** [a * y], element by element. *)
Definition mul_scalar (a : table) (y : option Q) : result table :=
  mapM (mapM (mapM (fun x => float_mul x y))) a.

End Np.

(** ** prediction/loadakkudoktor.py *)

Module LoadAkkudoktor.
Import Py.

(** *** Dates and times

    [pendulum] datetimes and the helpers of [utils.datetimeutil] are
    used through the operations below. *)

Inductive duration : Type :=
| Days (n : Z)
| Hours (n : Z).

(** [to_duration("7 days")] and [to_duration("1 hour")]. *)
Definition seven_days : duration := Days 7.
Definition one_hour : duration := Hours 1.

Class DateTime (datetime : Type) : Type := {
  day_of_year : datetime -> Z;
  hour : datetime -> Z;
  day_of_week : datetime -> Z;
  (** [dt + d] and [dt - d] *)
  dt_add : datetime -> duration -> datetime;
  dt_sub : datetime -> duration -> datetime;
  (** [(a - b).days] *)
  diff_days : datetime -> datetime -> Z;
  (** [compare_datetimes(a, b).lt] *)
  dt_lt : datetime -> datetime -> bool
}.

(** The part of [self.measurement] that the calibration reads.
    [min_datetime] is only read when [max_datetime] is defined. *)
Record measurement (datetime : Type) : Type := {
  min_datetime : datetime;
  max_datetime : option datetime;
  load_total : datetime -> datetime -> duration -> list Q
}.
Arguments min_datetime {datetime}.
Arguments max_datetime {datetime}.
Arguments load_total {datetime}.

(** The four accumulator arrays of [_calculate_adjustment]. *)
Record accumulators : Type := {
  weekday_adjust : list Q;
  weekday_adjust_weight : list Q;
  weekend_adjust : list Q;
  weekend_adjust_weight : list Q
}.

(** [a / b] on Python integers. *)
Definition truediv (a b : Z) : result Q :=
  if (b =? 0)%Z then Err ZeroDivisionError
  else Ok (inject_Z a / inject_Z b).

(** [a[i] += x] *)
Definition iadd_at (a : list Q) (i : Z) (x : Q) : result (list Q) :=
  old ← Np.get a i;
  Np.set a i (old + x).

Section Calibration.
Context {datetime : Type} `{DateTime datetime}.

(** One iteration of the loop of lines 63-75, without the advance of
    [compare_dt]. *)
Definition accumulate_sample (data_year_energy : Np.table)
    (compare_end compare_dt : datetime) (load_total : Q)
    (acc : accumulators) : result accumulators :=
  hourly_stats ← Np.day_hour data_year_energy
                   (day_of_year compare_dt - 1)%Z (hour compare_dt);
  weight ← truediv 1 (diff_days compare_end compare_dt + 1)%Z;
  mean ← Np.get hourly_stats 0%Z;
  if (day_of_week compare_dt <? 5)%Z then
    adjust ← iadd_at (weekday_adjust acc) (hour compare_dt)
               ((load_total - mean) * weight);
    adjust_weight ← iadd_at (weekday_adjust_weight acc) (hour compare_dt) weight;
    Ok {| weekday_adjust := adjust;
          weekday_adjust_weight := adjust_weight;
          weekend_adjust := weekend_adjust acc;
          weekend_adjust_weight := weekend_adjust_weight acc |}
  else
    adjust ← iadd_at (weekend_adjust acc) (hour compare_dt)
               ((load_total - mean) * weight);
    adjust_weight ← iadd_at (weekend_adjust_weight acc) (hour compare_dt) weight;
    Ok {| weekday_adjust := weekday_adjust acc;
          weekday_adjust_weight := weekday_adjust_weight acc;
          weekend_adjust := adjust;
          weekend_adjust_weight := adjust_weight |}.

(** The loop of lines 63-75 over [load_total_array]. *)
Fixpoint accumulate (data_year_energy : Np.table) (compare_end : datetime)
    (load_total_array : list Q) (compare_dt : datetime)
    (acc : accumulators) : result accumulators :=
  match load_total_array with
  | [] => Ok acc
  | load_total :: rest =>
      acc ← accumulate_sample data_year_energy compare_end compare_dt load_total acc;
      accumulate data_year_energy compare_end rest (dt_add compare_dt one_hour) acc
  end.

(** [if weight[i] > 0: adjust[i] = adjust[i] / weight[i]] *)
Definition mean_at (adjust adjust_weight : list Q) (i : Z) : result (list Q) :=
  w ← Np.get adjust_weight i;
  if Py.gt w 0 then
    a ← Np.get adjust i;
    Np.set adjust i (a / w)
  else Ok adjust.

(** One iteration of the loop of lines 77-81. *)
Definition mean_hour (acc : accumulators) (i : Z) : result accumulators :=
  weekday ← mean_at (weekday_adjust acc) (weekday_adjust_weight acc) i;
  weekend ← mean_at (weekend_adjust acc) (weekend_adjust_weight acc) i;
  Ok {| weekday_adjust := weekday;
        weekday_adjust_weight := weekday_adjust_weight acc;
        weekend_adjust := weekend;
        weekend_adjust_weight := weekend_adjust_weight acc |}.

Fixpoint mean_loop (range : list nat) (acc : accumulators) : result accumulators :=
  match range with
  | [] => Ok acc
  | i :: rest =>
      acc ← mean_hour acc (Z.of_nat i);
      mean_loop rest acc
  end.

Definition _calculate_adjustment (self : measurement datetime)
    (data_year_energy : Np.table) : result (list Q * list Q) :=
  let weekday_adjust0 := Np.zeros 24 in
  let weekday_adjust_weight0 := Np.zeros 24 in
  let weekend_adjust0 := Np.zeros 24 in
  let weekend_adjust_weight0 := Np.zeros 24 in
  match max_datetime self with
  | None => Ok (weekday_adjust0, weekday_adjust0)
  | Some max_dt =>
      let compare_start := dt_sub max_dt seven_days in
      let compare_start :=
        if dt_lt compare_start (min_datetime self)
        then min_datetime self else compare_start in
      let compare_end := max_dt in
      let compare_interval := one_hour in
      let load_total_array :=
        load_total self compare_start compare_end compare_interval in
      acc ← accumulate data_year_energy compare_end load_total_array compare_start
              {| weekday_adjust := weekday_adjust0;
                 weekday_adjust_weight := weekday_adjust_weight0;
                 weekend_adjust := weekend_adjust0;
                 weekend_adjust_weight := weekend_adjust_weight0 |};
      acc ← mean_loop (seq 0 24) acc;
      Ok (weekday_adjust acc, weekend_adjust acc)
  end.

End Calibration.

(** *** Loading the profile archive *)

(** The arrays stored in an [.npz] archive, by key. *)
Definition npz : Type := gmap string (list (list Q)).

(** Ways in which an existing file can fail to open as an archive. *)
Inductive read_failure : Type :=
| PermissionDenied
| NotAnArchive.

Inductive file_state : Type :=
| Missing
| Unreadable (why : read_failure)
| Archive (file_data : npz).

(** The file [data/load_profiles.npz] and the number of times
    [np.load] was called on it. *)
Record filesystem : Type := {
  load_profiles : file_state;
  np_load_calls : nat
}.

(** [np.load(load_file)] *)
Definition np_load (fs : filesystem) : result npz * filesystem :=
  (match load_profiles fs with
   | Missing => Err FileNotFoundError
   | Unreadable PermissionDenied => Err OSError
   | Unreadable NotAnArchive => Err ValueError
   | Archive file_data => Ok file_data
   end,
   {| load_profiles := load_profiles fs;
      np_load_calls := S (np_load_calls fs) |}).

(** [file_data[key]] *)
Definition getitem (file_data : npz) (key : string) : result (list (list Q)) :=
  match file_data !! key with
  | Some a => Ok a
  | None => Err KeyError
  end.

(** [self.config], as far as [load_data] reads it. *)
Record config : Type := {
  loadakkudoktor_year_energy : option Q
}.

(** The body of the [try] block of lines 90-95, after [np.load]. *)
Definition scale_profiles (self : config) (file_data : npz) : result Np.table :=
  yearly_profiles ← getitem file_data "yearly_profiles"%string;
  yearly_profiles_std ← getitem file_data "yearly_profiles_std"%string;
  profile_data ← Np.array (zip yearly_profiles yearly_profiles_std);
  scaled ← Np.mul_scalar profile_data (loadakkudoktor_year_energy self);
  Np.mul_scalar scaled (Some 1000).

Definition load_data (self : config) (fs : filesystem)
    : result Np.table * filesystem :=
  let '(opened, fs) := np_load fs in
  let data_year_energy := file_data ← opened; scale_profiles self file_data in
  match data_year_energy with
  | Ok data_year_energy => (Ok data_year_energy, fs)
  | Err FileNotFoundError => (Err FileNotFoundError, fs)
  | Err _ => (Err ValueError, fs)
  end.

End LoadAkkudoktor.

(** ** A concrete clock: naive UTC datetimes, in hours since
    1970-01-01T00:00 *)

Module Clock.
Import LoadAkkudoktor.

Definition is_leap (y : Z) : bool :=
  (((y mod 4 =? 0) && negb (y mod 100 =? 0)) || (y mod 400 =? 0))%Z.

Definition year_length (y : Z) : Z := if is_leap y then 366%Z else 365%Z.

(** The zero-based day within its year of the day [d] days after the
    first of January of year [y]. *)
Fixpoint day_in_year (fuel : nat) (y d : Z) : Z :=
  match fuel with
  | O => d
  | S fuel =>
      if (d <? year_length y)%Z then d
      else day_in_year fuel (y + 1)%Z (d - year_length y)%Z
  end.

Definition duration_hours (d : duration) : Z :=
  match d with
  | Days n => (24 * n)%Z
  | Hours n => n
  end.

#[global] Instance utc_hours : DateTime Z := {|
  day_of_year := fun t => (day_in_year 1000 1970 (t / 24) + 1)%Z;
  hour := fun t => (t mod 24)%Z;
  (* 1970-01-01 was a Thursday; Monday is day 0 *)
  day_of_week := fun t => ((t / 24 + 3) mod 7)%Z;
  dt_add := fun t d => (t + duration_hours d)%Z;
  dt_sub := fun t d => (t - duration_hours d)%Z;
  (* [.days] of a difference counts whole days and truncates towards
     zero: one hour before is 0 days, 24 hours before is -1 *)
  diff_days := fun a b => Z.quot (a - b) 24;
  dt_lt := Z.ltb
|}.

End Clock.

(** ** The calibration as the specification words it *)

Module CalibrationSpec.
Import LoadAkkudoktor.

Section Spec.
Context {datetime : Type} `{DateTime datetime}.

(** The comparison window starts seven days before the latest
    measurement, or at the earliest measurement if that is later. *)
Definition window_start (m : measurement datetime) (latest : datetime) : datetime :=
  let start := dt_sub latest seven_days in
  if dt_lt start (min_datetime m) then min_datetime m else start.

(** The samples of the window: the measured totals, one per hour
    from [t] on, each with its time. *)
Fixpoint samples_from (t : datetime) (totals : list Q) : list (datetime * Q) :=
  match totals with
  | [] => []
  | x :: totals => (t, x) :: samples_from (dt_add t one_hour) totals
  end.

Definition window_samples (m : measurement datetime) (latest : datetime)
    : list (datetime * Q) :=
  let start := window_start m latest in
  samples_from start (load_total m start latest one_hour).

(** [weight = 1 / (days_between(compare_end, t) + 1)] *)
Definition weight (compare_end t : datetime) : Q :=
  1 / inject_Z (diff_days compare_end t + 1).

(** The baseline mean at [(day_of_year - 1, hour)]; statistic 0 is
    the mean. *)
Definition baseline_mean (stats : Np.table) (t : datetime) : Q :=
  default 0
    (day ← stats !! Z.to_nat (day_of_year t - 1);
     row ← day !! 0%nat;
     row !! Z.to_nat (hour t)).

Definition residual (stats : Np.table) (s : datetime * Q) : Q :=
  snd s - baseline_mean stats (fst s).

Definition is_weekday (t : datetime) : bool := (day_of_week t <? 5)%Z.

(** The samples that fall on hour-of-day [h] and on the given class
    of days. *)
Definition in_bucket (weekday : bool) (h : nat) (s : datetime * Q) : bool :=
  (hour (fst s) =? Z.of_nat h)%Z && Bool.eqb (is_weekday (fst s)) weekday.

Definition Qsum (l : list Q) : Q := foldr Qplus 0 l.

Definition weight_sum (compare_end : datetime) (bucket : list (datetime * Q)) : Q :=
  Qsum (map (fun s => weight compare_end (fst s)) bucket).

Definition weighted_residual_sum (stats : Np.table) (compare_end : datetime)
    (bucket : list (datetime * Q)) : Q :=
  Qsum (map (fun s => residual stats s * weight compare_end (fst s)) bucket).

(** [Σ(residual·weight) / Σ(weight)] over the bucket, and 0 for a
    bucket without weight. *)
Definition weighted_mean (stats : Np.table) (compare_end : datetime)
    (weekday : bool) (h : nat) (samples : list (datetime * Q)) : Q :=
  let bucket := List.filter (in_bucket weekday h) samples in
  if Py.gt (weight_sum compare_end bucket) 0
  then weighted_residual_sum stats compare_end bucket / weight_sum compare_end bucket
  else 0.

(** A sample time the calendar and the window allow: an hour of the
    day, a day of the year, and not after the end of the window. *)
Definition in_window (compare_end t : datetime) : Prop :=
  (0 <= hour t < 24)%Z /\ (1 <= day_of_year t <= 366)%Z /\
  (0 <= diff_days compare_end t)%Z.

End Spec.

(** Entry [h] of an array, 0 outside of it. *)
Definition entry (a : list Q) (h : nat) : Q := default 0 (a !! h).

(** The adjustment and weight arrays of a class of days. *)
Definition adjust_of (weekday : bool) (acc : accumulators) : list Q :=
  if weekday then weekday_adjust acc else weekend_adjust acc.

Definition weight_of (weekday : bool) (acc : accumulators) : list Q :=
  if weekday then weekday_adjust_weight acc else weekend_adjust_weight acc.

(** All four accumulators have one entry per hour of the day. *)
Definition hourly (acc : accumulators) : Prop :=
  forall weekday,
    length (adjust_of weekday acc) = 24%nat /\
    length (weight_of weekday acc) = 24%nat.

(** Entry [h] after the division by its weight, where positive. *)
Definition divided (adjust adjust_weight : list Q) (h : nat) : Q :=
  if Py.gt (entry adjust_weight h) 0
  then entry adjust h / entry adjust_weight h
  else entry adjust h.

(** The shape [(366, 2, 24)] of the statistics table. *)
Definition year_shape (stats : Np.table) : Prop :=
  length stats = 366%nat /\
  Forall (fun day => length day = 2%nat /\ Forall (fun row => length row = 24%nat) day) stats.

(** The table of section 6: both profiles scaled by
    [yearly_energy_kwh * 1000]. *)
Definition scaled_table (yearly_profiles yearly_profiles_std : list (list Q))
    (year_energy : Q) : Np.table :=
  let scale := map (fun x => x * year_energy * 1000) in
  zip_with (fun p s => [scale p; scale s]) yearly_profiles yearly_profiles_std.

End CalibrationSpec.

(** ** Concrete devices, files and measurements *)

Module Examples.
Import LoadAkkudoktor CalibrationSpec.

(** An inverter of 10 kWh capacity whose predictor returns [ratio]. *)
Definition inverter {B : Type} (b : B) (ratio : Q) : Inverter.t B :=
  Inverter.mk 10000 b (fun _ _ => ratio).

(** A two-day, three-hour archive. *)
Definition small_archive : npz :=
  list_to_map
    [("yearly_profiles"%string, [[1; 2; 3]; [4; 5; 6]]);
     ("yearly_profiles_std"%string, [[1 # 2; 1 # 2; 1 # 2]; [1 # 4; 1 # 4; 1 # 4]])].

Definition present : filesystem :=
  {| load_profiles := Archive small_archive; np_load_calls := 0 |}.

Definition absent : filesystem :=
  {| load_profiles := Missing; np_load_calls := 0 |}.

(** A statistics table with the same mean and deviation all year. *)
Definition flat_year (mean std : Q) : Np.table :=
  replicate 366 [replicate 24 mean; replicate 24 std].

(** 2024-01-01T00:00, a Monday. *)
Definition monday : Z := (19723 * 24)%Z.

(** An hourly series of totals that starts at [first]; [load_total]
    returns the part between the two given times, both included. *)
Definition hourly_series (first : Z) (last : option Z) (totals : list Q)
    : measurement Z :=
  {| min_datetime := first;
     max_datetime := last;
     load_total := fun start stop _ =>
       take (Z.to_nat (stop - start + 1)) (drop (Z.to_nat (start - first)) totals) |}.

(** Monday at 130 Wh every hour, then two hours of Tuesday at 160 Wh. *)
Definition two_days : measurement Z :=
  hourly_series monday (Some (monday + 25)%Z) (replicate 24 130 ++ [160; 160]).

(** A series without any measurement. *)
Definition no_measurement : measurement Z :=
  hourly_series monday None [].

(** The membership test of [in_window] on the concrete clock. *)
Definition in_window_check (compare_end : Z) (s : Z * Q) : bool :=
  ((0 <=? hour (fst s)) && (hour (fst s) <? 24) &&
   (1 <=? day_of_year (fst s)) && (day_of_year (fst s) <=? 366) &&
   (0 <=? diff_days compare_end (fst s)))%Z.

End Examples.

(** ** devices/inverter.py: construction and setup *)

Module InverterSetup.

(** The exceptions of [InverterParameters], [__init__], [setup] and
    [getattr]. *)
Inductive exn : Type :=
| ValidationError
| NotImplementedError
| ValueError
| AttributeError.

Inductive result (A : Type) : Type :=
| Ok (a : A)
| Err (e : exn).
Arguments Ok {A} a.
Arguments Err {A} e.

(** [InverterParameters]: one float field, [gt=0]. *)
Record InverterParameters : Type := {
  parameters_max_power_wh : Q
}.

(** [InverterParameters(max_power_wh=x)], and [InverterParameters()]
    for [None]: the default is 10000 and the value must be positive. *)
Definition new_parameters (max_power_wh : option Q) : result InverterParameters :=
  let value := default 10000 max_power_wh in
  if Py.gt value 0 then Ok {| parameters_max_power_wh := value |}
  else Err ValidationError.

(** The float attributes of [self.config], by name. *)
Abbreviation config := (gmap string Q).

(** [getattr(config, name)] *)
Definition getattr (cfg : config) (name : string) : result Q :=
  match cfg !! name with
  | Some v => Ok v
  | None => Err AttributeError
  end.

(** The attributes of an [Inverter] object; [max_power_wh] is unset
    until [setup] assigns it. *)
Record object (B : Type) : Type := {
  provider_id : option string;
  prefix : string;
  parameters : option InverterParameters;
  akku : B;
  self_consumption_predictor : Q -> Q -> Q;
  initialised : bool;
  max_power_wh : option Q
}.
Arguments provider_id {B}.
Arguments prefix {B}.
Arguments parameters {B}.
Arguments akku {B}.
Arguments self_consumption_predictor {B}.
Arguments initialised {B}.
Arguments max_power_wh {B}.

Definition set_max_power_wh {B : Type} (self : object B) (v : Q) : object B :=
  {| provider_id := provider_id self;
     prefix := prefix self;
     parameters := parameters self;
     akku := akku self;
     self_consumption_predictor := self_consumption_predictor self;
     initialised := initialised self;
     max_power_wh := Some v |}.

Definition setup {B : Type} (cfg : config) (self : object B) : result (object B) :=
  if initialised self then Ok self
  else
    match provider_id self with
    | Some _ =>
        match getattr cfg (prefix self ++ "_power_max") with
        | Ok v => Ok (set_max_power_wh self v)
        | Err e => Err e
        end
    | None =>
        match parameters self with
        | Some p => Ok (set_max_power_wh self (parameters_max_power_wh p))
        | None => Err ValueError
        end
    end.

Definition __init__ {B : Type} (cfg : config)
    (self_consumption_predictor : Q -> Q -> Q)
    (parameters : option InverterParameters) (akku : option B)
    (provider_id : option string) : result (object B) :=
  let prefix := "<invalid>"%string in
  let prefix :=
    match provider_id with
    | Some id => if String.eqb id "GenericInverter" then "inverter"%string else prefix
    | None => prefix
    end in
  match akku with
  | None => Err NotImplementedError
  | Some akku =>
      let self :=
        {| provider_id := provider_id;
           prefix := prefix;
           parameters := parameters;
           akku := akku;
           self_consumption_predictor := self_consumption_predictor;
           initialised := false;
           max_power_wh := None |} in
      match parameters with
      | Some _ => setup cfg self
      | None => Ok self
      end
  end.

(** The inverter that [process_energy] runs on, once [max_power_wh] is
    assigned. *)
Definition ready {B : Type} (self : object B) : option (Inverter.t B) :=
  match max_power_wh self with
  | Some v => Some (Inverter.mk v (akku self) (self_consumption_predictor self))
  | None => None
  end.

End InverterSetup.

(** ** A battery that records the calls it receives *)

Module BatteryLog.
Import Inverter.

(** One call with its arguments and the pair it returned. *)
Inductive call : Type :=
| Charge (wh : Q) (hour : Z) (charged losses : Q)
| Discharge (wh : Q) (hour : Z) (discharged losses : Q).

Definition requested (c : call) : Q :=
  match c with
  | Charge wh _ _ _ | Discharge wh _ _ _ => wh
  end.

Definition call_hour (c : call) : Z :=
  match c with
  | Charge _ hour _ _ | Discharge _ hour _ _ => hour
  end.

Definition is_charge (c : call) : bool :=
  match c with
  | Charge _ _ _ _ => true
  | Discharge _ _ _ _ => false
  end.

(** The battery [P] with a log of its calls, oldest first. *)
Definition recording {B : Type} (P : BatteryPort B) : BatteryPort (B * list call) := {|
  charge_energy := fun s wh hour =>
    let '(charged, losses, b) := @charge_energy B P (fst s) wh hour in
    (charged, losses, (b, snd s ++ [Charge wh hour charged losses]));
  discharge_energy := fun s wh hour =>
    let '(discharged, losses, b) := @discharge_energy B P (fst s) wh hour in
    (discharged, losses, (b, snd s ++ [Discharge wh hour discharged losses]))
|}.

(** The inverter [self] on the recording battery, with an empty log. *)
Definition logged {B : Type} (self : t B) : t (B * list call) :=
  mk (max_power_wh self) (akku self, []) (self_consumption_predictor self).

End BatteryLog.

(** ** prediction/loadakkudoktor.py: the forecast update *)

Module LoadAkkudoktorUpdate.
Import Py LoadAkkudoktor.

(** A computation that reads and writes a state and may raise; the
    state written before an exception stays written. *)
Definition action (S A : Type) : Type := S -> result A * S.

#[global] Instance action_ret {S : Type} : MRet (action S) :=
  fun A a s => (Ok a, s).
#[global] Instance action_bind {S : Type} : MBind (action S) :=
  fun A C k m s =>
    match m s with
    | (Ok a, s) => k a s
    | (Err e, s) => (Err e, s)
    end.

Definition lift {S A : Type} (r : result A) : action S A := fun s => (r, s).

(** The provider object, as far as [_update_data] reads and writes it:
    [records] holds the [update_value] calls, oldest first. *)
Record provider (datetime : Type) : Type := {
  measurement_of : measurement datetime;
  config_of : config;
  prediction_hours : Z;
  start_datetime : datetime;
  records : list (datetime * string * Q);
  update_datetime : option datetime
}.
Arguments measurement_of {datetime}.
Arguments config_of {datetime}.
Arguments prediction_hours {datetime}.
Arguments start_datetime {datetime}.
Arguments records {datetime}.
Arguments update_datetime {datetime}.

Section Update.
Context {datetime : Type} `{DateTime datetime}.

(** The provider with [new] appended to its records. *)
Definition add_records (new : list (datetime * string * Q))
    (self : provider datetime) : provider datetime :=
  {| measurement_of := measurement_of self;
     config_of := config_of self;
     prediction_hours := prediction_hours self;
     start_datetime := start_datetime self;
     records := records self ++ new;
     update_datetime := update_datetime self |}.

(** [self.update_value(date, key, value)] *)
Definition update_value (date : datetime) (key : string) (value : Q)
    : action (provider datetime) unit :=
  fun self => (Ok tt, add_records [(date, key, value)] self).

(** [self.update_datetime = now] *)
Definition set_update_datetime (now : datetime) (self : provider datetime)
    : provider datetime :=
  {| measurement_of := measurement_of self;
     config_of := config_of self;
     prediction_hours := prediction_hours self;
     start_datetime := start_datetime self;
     records := records self;
     update_datetime := Some now |}.

(** One iteration of the loop of lines 111-127, without the advance
    of [date]. *)
Definition update_hour (data_year_energy : Np.table)
    (weekday_adjust weekend_adjust : list Q) (date : datetime)
    : action (provider datetime) unit :=
  hourly_stats ← lift (Np.day_hour data_year_energy
                         (day_of_year date - 1)%Z (hour date));
  mean ← lift (Np.get hourly_stats 0%Z);
  update_value date "load_mean" mean;;
  std ← lift (Np.get hourly_stats 1%Z);
  update_value date "load_std" std;;
  if (day_of_week date <? 5)%Z then
    mean ← lift (Np.get hourly_stats 0%Z);
    adjust ← lift (Np.get weekday_adjust (hour date));
    update_value date "load_mean_adjusted" (mean + adjust)
  else
    mean ← lift (Np.get hourly_stats 0%Z);
    adjust ← lift (Np.get weekend_adjust (hour date));
    update_value date "load_mean_adjusted" (mean + adjust).

(** The loop over [range(n)]. *)
Fixpoint update_hours (data_year_energy : Np.table)
    (weekday_adjust weekend_adjust : list Q) (n : nat) (date : datetime)
    : action (provider datetime) unit :=
  match n with
  | O => mret tt
  | S n =>
      update_hour data_year_energy weekday_adjust weekend_adjust date;;
      update_hours data_year_energy weekday_adjust weekend_adjust n
        (dt_add date one_hour)
  end.

(** [_update_data]; [now] is what [to_datetime(in_timezone=...)]
    returns, [fs] the file system that [load_data] reads. *)
Definition _update_data (now : datetime) (fs : filesystem)
    (self : provider datetime)
    : result unit * provider datetime * filesystem :=
  let '(loaded, fs) := load_data (config_of self) fs in
  match loaded with
  | Err e => (Err e, self, fs)
  | Ok data_year_energy =>
      match _calculate_adjustment (measurement_of self) data_year_energy with
      | Err e => (Err e, self, fs)
      | Ok (weekday_adjust, weekend_adjust) =>
          match update_hours data_year_energy weekday_adjust weekend_adjust
                  (Z.to_nat (prediction_hours self)) (start_datetime self) self with
          | (Err e, self) => (Err e, self, fs)
          | (Ok _, self) => (Ok tt, set_update_datetime now self, fs)
          end
      end
  end.

End Update.

End LoadAkkudoktorUpdate.

(** ** The forecast as section 4.4 of the specification words it *)

Module ForecastSpec.
Import LoadAkkudoktor CalibrationSpec.

Section Spec.
Context {datetime : Type} `{DateTime datetime}.

(** The baseline deviation at [(day_of_year - 1, hour)]; statistic 1. *)
Definition baseline_std (stats : Np.table) (t : datetime) : Q :=
  default 0
    (day ← stats !! Z.to_nat (day_of_year t - 1);
     row ← day !! 1%nat;
     row !! Z.to_nat (hour t)).

(** A date of the calendar: an hour of the day, a day of the year. *)
Definition in_calendar (t : datetime) : Prop :=
  (0 <= hour t < 24)%Z /\ (1 <= day_of_year t <= 366)%Z.

(** The table has a day of two rows of 24 hours for the date [t]. *)
Definition covered (stats : Np.table) (t : datetime) : Prop :=
  (0 <= hour t < 24)%Z /\ (1 <= day_of_year t)%Z /\
  exists means stds,
    stats !! Z.to_nat (day_of_year t - 1) = Some [means; stds] /\
    length means = 24%nat /\ length stds = 24%nat.

(** The three values stored for the hour that starts at [t]. *)
Definition hour_records (stats : Np.table) (weekday_adjust weekend_adjust : list Q)
    (t : datetime) : list (datetime * string * Q) :=
  let adjust := if is_weekday t then weekday_adjust else weekend_adjust in
  [(t, "load_mean"%string, baseline_mean stats t);
   (t, "load_std"%string, baseline_std stats t);
   (t, "load_mean_adjusted"%string,
    baseline_mean stats t + entry adjust (Z.to_nat (hour t)))].

(** The hours of the forecast horizon. *)
Fixpoint horizon (n : nat) (t : datetime) : list datetime :=
  match n with
  | O => []
  | S n => t :: horizon n (dt_add t one_hour)
  end.

Definition forecast_records (stats : Np.table) (weekday_adjust weekend_adjust : list Q)
    (n : nat) (t : datetime) : list (datetime * string * Q) :=
  concat (map (hour_records stats weekday_adjust weekend_adjust) (horizon n t)).

End Spec.

(** [self'] is [self] with [new] appended to its records and with
    [stamp] as its update time. *)
Definition stores {datetime : Type}
    (self self' : LoadAkkudoktorUpdate.provider datetime)
    (new : list (datetime * string * Q)) (stamp : option datetime) : Prop :=
  LoadAkkudoktorUpdate.records self' = LoadAkkudoktorUpdate.records self ++ new /\
  LoadAkkudoktorUpdate.update_datetime self' = stamp /\
  LoadAkkudoktorUpdate.measurement_of self' = LoadAkkudoktorUpdate.measurement_of self /\
  LoadAkkudoktorUpdate.config_of self' = LoadAkkudoktorUpdate.config_of self /\
  LoadAkkudoktorUpdate.prediction_hours self'
  = LoadAkkudoktorUpdate.prediction_hours self /\
  LoadAkkudoktorUpdate.start_datetime self' = LoadAkkudoktorUpdate.start_datetime self.

(** The values stored under [key], oldest first. *)
Definition values_of {datetime : Type} (key : string)
    (records : list (datetime * string * Q)) : list Q :=
  map snd (List.filter (fun r => String.eqb (snd (fst r)) key) records).

End ForecastSpec.

(** ** Concrete archives and forecasters *)

Module MoreExamples.
Import LoadAkkudoktor LoadAkkudoktorUpdate CalibrationSpec ForecastSpec Examples.

(** An archive of [days] days of 24 hours, every relative mean 1/10
    and every relative deviation 1/100. *)
Definition flat_archive (days : nat) : filesystem :=
  {| load_profiles :=
       Archive (list_to_map
                  [("yearly_profiles"%string, replicate days (replicate 24 (1 # 10)));
                   ("yearly_profiles_std"%string,
                    replicate days (replicate 24 (1 # 100)))]);
     np_load_calls := 0 |}.

(** A provider with a yearly energy of 1 kWh that forecasts [n] hours
    from 23:00 on Monday 2024-01-01 and has no record yet. *)
Definition forecaster (m : measurement Z) (n : Z) : provider Z :=
  {| measurement_of := m;
     config_of := {| loadakkudoktor_year_energy := Some 1 |};
     prediction_hours := n;
     start_datetime := (monday + 23)%Z;
     records := [];
     update_datetime := None |}.

(** Three days of means and two days of deviations, one hour each. *)
Definition uneven_profiles : npz :=
  list_to_map
    [("yearly_profiles"%string, [[1]; [2]; [3]]);
     ("yearly_profiles_std"%string, [[1 # 2]; [1 # 4]])].

Definition uneven_archive : filesystem :=
  {| load_profiles := Archive uneven_profiles; np_load_calls := 0 |}.

(** A series whose latest measurement is at 01:00 on Monday and whose
    [load_total] answers with 26 samples, up to 01:00 on Tuesday, a
    full day past the end of the window. *)
Definition overlong_series : measurement Z :=
  {| min_datetime := monday;
     max_datetime := Some (monday + 1)%Z;
     load_total := fun _ _ _ => replicate 26 130 |}.

(** Two measured hours from 00:00 on 2024-12-31, day 366 of its year. *)
Definition leap_day_series : measurement Z :=
  hourly_series (monday + 365 * 24)%Z (Some (monday + 365 * 24 + 1)%Z) [130; 130].

(** The membership test of [in_calendar] on the concrete clock. *)
Definition in_calendar_check (t : Z) : bool :=
  ((0 <=? hour t) && (hour t <? 24) &&
   (1 <=? day_of_year t) && (day_of_year t <=? 366))%Z.

End MoreExamples.

(** ** Floating-point arithmetic

    [process_energy] computes on Python floats.  [Arith] collects the
    float operations that it uses, so that the function can be read
    once and run on two carriers: IEEE 754 binary64, and rationals on
    which every result is rounded. *)

Module Fp.

Class Arith (F : Type) : Type := {
  fzero : F;
  fone : F;
  fadd : F -> F -> F;
  fsub : F -> F -> F;
  fmul : F -> F -> F;
  fopp : F -> F;
  (** [a <= b] and [a < b] *)
  fle : F -> F -> bool;
  flt : F -> F -> bool
}.

(** IEEE 754 binary64 with rounding to nearest, the [float] of CPython. *)
Definition binary64 : Arith PrimFloat.float := {|
  fzero := PrimFloat.zero;
  fone := PrimFloat.one;
  fadd := PrimFloat.add;
  fsub := PrimFloat.sub;
  fmul := PrimFloat.mul;
  fopp := PrimFloat.opp;
  fle := PrimFloat.leb;
  flt := PrimFloat.ltb
|}.

(** Rationals on which sums and differences are rounded by [rnd] and
    products by [rnd_mul]; negation and comparisons are exact, as they
    are on finite floats. *)
Definition rounded (rnd rnd_mul : Q -> Q) : Arith Q := {|
  fzero := 0;
  fone := 1;
  fadd := fun x y => rnd (x + y);
  fsub := fun x y => rnd (x - y);
  fmul := fun x y => rnd_mul (x * y);
  fopp := Qopp;
  fle := Qle_bool;
  flt := fun x y => negb (Qle_bool y x)
|}.

Section Builtins.
Context {F : Type} {A : Arith F}.

(** [a >= b] and [a > b]. *)
Definition fge (a b : F) : bool := fle b a.
Definition fgt (a b : F) : bool := flt b a.

(** The builtins [max(a, b)] and [min(a, b)]: the first argument is kept
    unless the second is strictly larger (resp. smaller). *)
Definition fmax (a b : F) : F := if fgt b a then b else a.
Definition fmin (a b : F) : F := if flt b a then b else a.

End Builtins.

(** The standard model of rounding: the rounded value of [x] differs
    from [x] by at most [u * |x|], for a unit roundoff [u] below 1
    (2^-53 for binary64 in the absence of overflow; sums and
    differences of floats do not underflow).  [u = 0] is exact
    arithmetic. *)
Record rounding (u : Q) (rnd : Q -> Q) : Prop := {
  unit_roundoff : 0 <= u < 1;
  rnd_proper : forall x y, x == y -> rnd x == rnd y;
  rnd_error : forall x, Qabs (rnd x - x) <= u * Qabs x
}.

Fixpoint pow (a : Q) (k : nat) : Q :=
  match k with
  | O => 1
  | S k => a * pow a k
  end.

(** [x] is [T] up to [k] roundings:
    [(1 - u)^k * T <= x <= (1 + u)^k * T]. *)
Definition within (u : Q) (k : nat) (x T : Q) : Prop :=
  pow (1 - u) k * T <= x <= pow (1 + u) k * T.

End Fp.

(** ** devices/inverter.py on floats *)

Module FloatInverter.
Import Fp.

(** [Battery] as the inverter sees it, on the floats [F]. *)
Class BatteryPort (F B : Type) : Type := {
  charge_energy : B -> F -> Z -> F * F * B;
  discharge_energy : B -> F -> Z -> F * F * B
}.

Record t (F B : Type) : Type := mk {
  max_power_wh : F;
  akku : B;
  self_consumption_predictor : F -> F -> F
}.
Arguments mk {F B}.
Arguments max_power_wh {F B}.
Arguments akku {F B}.
Arguments self_consumption_predictor {F B}.

(** The returned tuple [(grid_export, grid_import, losses, self_consumption)]. *)
Definition flows (F : Type) : Type := F * F * F * F.

Definition grid_export {F : Type} (r : flows F) : F := let '(e, _, _, _) := r in e.
Definition grid_import {F : Type} (r : flows F) : F := let '(_, i, _, _) := r in i.
Definition losses {F : Type} (r : flows F) : F := let '(_, _, l, _) := r in l.
Definition self_consumption {F : Type} (r : flows F) : F := let '(_, _, _, s) := r in s.

Section ProcessEnergy.
Context {F B : Type} {A : Arith F} {P : BatteryPort F B}.

(** Lines 62-134, every arithmetic operation in the order and with
    the grouping of the source. *)
Definition process_energy (self : t F B) (generation consumption : F) (hour : Z)
    : flows F * B :=
  let losses := fzero in
  let grid_export := fzero in
  let grid_import := fzero in
  if fge generation consumption then
    if fgt consumption (max_power_wh self) then
      let losses := fadd losses (fsub generation (max_power_wh self)) in
      let remaining_power := fsub (max_power_wh self) consumption in
      let grid_import := fopp remaining_power in
      let self_consumption := max_power_wh self in
      ((grid_export, grid_import, losses, self_consumption), akku self)
    else
      let scr := self_consumption_predictor self consumption generation in
      let remaining_power := fmul (fsub generation consumption) scr in
      let remaining_load_evq := fmul (fsub generation consumption) (fsub fone scr) in
      let '(from_battery, losses, grid_import, b) :=
        if fgt remaining_load_evq fzero then
          let '(from_battery, discharge_losses, b) :=
            discharge_energy (akku self) remaining_load_evq hour in
          let remaining_load_evq := fsub remaining_load_evq from_battery in
          let losses := fadd losses discharge_losses in
          if fgt remaining_load_evq fzero then
            (from_battery, losses, fadd grid_import remaining_load_evq, b)
          else
            (from_battery, losses, grid_import, b)
        else
          (fzero, losses, grid_import, akku self) in
      let '(grid_export, losses, b) :=
        if fgt remaining_power fzero then
          let '(charged_energie, charge_losses, b) :=
            charge_energy b remaining_power hour in
          let remaining_surplus :=
            fsub remaining_power (fadd charged_energie charge_losses) in
          let '(grid_export, losses) :=
            if fgt remaining_surplus (fsub (max_power_wh self) consumption) then
              let grid_export := fsub (max_power_wh self) consumption in
              (grid_export, fadd losses (fsub remaining_surplus grid_export))
            else
              (remaining_surplus, losses) in
          (grid_export, fadd losses charge_losses, b)
        else
          (grid_export, losses, b) in
      let self_consumption := fadd consumption from_battery in
      ((grid_export, grid_import, losses, self_consumption), b)
  else
    let shortfall := fsub consumption generation in
    let available_ac_power := fmax (fsub (max_power_wh self) generation) fzero in
    let '(battery_discharge, discharge_losses, b) :=
      discharge_energy (akku self) (fmin shortfall available_ac_power) hour in
    let losses := fadd losses discharge_losses in
    let grid_import := fsub shortfall battery_discharge in
    let self_consumption := fadd generation battery_discharge in
    ((grid_export, grid_import, losses, self_consumption), b).

(** Lines 87-100 and 102-114 as functions of their own, and
    [process_energy] written with them; the proofs go through this
    form. *)
Definition cover_remaining_load (b : B) (remaining_load_evq : F) (hour : Z)
    (losses grid_import : F) : F * F * F * B :=
  if fgt remaining_load_evq fzero then
    let '(from_battery, discharge_losses, b) :=
      discharge_energy b remaining_load_evq hour in
    let remaining_load_evq := fsub remaining_load_evq from_battery in
    let losses := fadd losses discharge_losses in
    if fgt remaining_load_evq fzero then
      (from_battery, losses, fadd grid_import remaining_load_evq, b)
    else
      (from_battery, losses, grid_import, b)
  else
    (fzero, losses, grid_import, b).

Definition charge_and_export (b : B) (max_power_wh consumption : F)
    (remaining_power : F) (hour : Z) (grid_export losses : F) : F * F * B :=
  if fgt remaining_power fzero then
    let '(charged_energie, charge_losses, b) :=
      charge_energy b remaining_power hour in
    let remaining_surplus :=
      fsub remaining_power (fadd charged_energie charge_losses) in
    let '(grid_export, losses) :=
      if fgt remaining_surplus (fsub max_power_wh consumption) then
        let grid_export := fsub max_power_wh consumption in
        (grid_export, fadd losses (fsub remaining_surplus grid_export))
      else
        (remaining_surplus, losses) in
    (grid_export, fadd losses charge_losses, b)
  else
    (grid_export, losses, b).

Definition process_energy_steps (self : t F B) (generation consumption : F) (hour : Z)
    : flows F * B :=
  let losses := fzero in
  let grid_export := fzero in
  let grid_import := fzero in
  if fge generation consumption then
    if fgt consumption (max_power_wh self) then
      let losses := fadd losses (fsub generation (max_power_wh self)) in
      let remaining_power := fsub (max_power_wh self) consumption in
      let grid_import := fopp remaining_power in
      let self_consumption := max_power_wh self in
      ((grid_export, grid_import, losses, self_consumption), akku self)
    else
      let scr := self_consumption_predictor self consumption generation in
      let remaining_power := fmul (fsub generation consumption) scr in
      let remaining_load_evq := fmul (fsub generation consumption) (fsub fone scr) in
      let '(from_battery, losses, grid_import, b) :=
        cover_remaining_load (akku self) remaining_load_evq hour losses grid_import in
      let '(grid_export, losses, b) :=
        charge_and_export b (max_power_wh self) consumption remaining_power hour
          grid_export losses in
      let self_consumption := fadd consumption from_battery in
      ((grid_export, grid_import, losses, self_consumption), b)
  else
    let shortfall := fsub consumption generation in
    let available_ac_power := fmax (fsub (max_power_wh self) generation) fzero in
    let '(battery_discharge, discharge_losses, b) :=
      discharge_energy (akku self) (fmin shortfall available_ac_power) hour in
    let losses := fadd losses discharge_losses in
    let grid_import := fsub shortfall battery_discharge in
    let self_consumption := fadd generation battery_discharge in
    ((grid_export, grid_import, losses, self_consumption), b).

End ProcessEnergy.

(** The contract of section 4.2 of the specification, for a battery
    on rationals: [0 <= amount_applied <= requested] and
    [losses >= 0]. *)
Record battery_contract {B : Type} (P : BatteryPort Q B) : Prop := {
  charge_applied : forall b wh hour,
    0 <= wh ->
    0 <= fst (fst (charge_energy b wh hour)) <= wh;
  charge_losses_nonneg : forall b wh hour,
    0 <= wh ->
    0 <= snd (fst (charge_energy b wh hour));
  discharge_applied : forall b wh hour,
    0 <= wh ->
    0 <= fst (fst (discharge_energy b wh hour)) <= wh;
  discharge_losses_nonneg : forall b wh hour,
    0 <= wh ->
    0 <= snd (fst (discharge_energy b wh hour))
}.

(** *** Exact arithmetic

    The inverter of [Inverter], on exact rationals, is the inverter on
    floats in the arithmetic that rounds nothing. *)
Definition exact : Arith Q := rounded (fun x => x) (fun x => x).

Definition of_exact_port {B : Type} (P : Inverter.BatteryPort B) : BatteryPort Q B := {|
  charge_energy := @Inverter.charge_energy B P;
  discharge_energy := @Inverter.discharge_energy B P
|}.

Definition of_exact {B : Type} (self : Inverter.t B) : t Q B :=
  mk (Inverter.max_power_wh self) (Inverter.akku self)
     (Inverter.self_consumption_predictor self).

(** *** The calls to the battery *)

(** One call with its arguments and the pair it returned. *)
Inductive call (F : Type) : Type :=
| Charge (wh : F) (hour : Z) (charged losses : F)
| Discharge (wh : F) (hour : Z) (discharged losses : F).
Arguments Charge {F}.
Arguments Discharge {F}.

(** The battery [P] with a log of its calls, oldest first. *)
Definition recording {F B : Type} (P : BatteryPort F B)
    : BatteryPort F (B * list (call F)) := {|
  charge_energy := fun s wh hour =>
    let '(charged, losses, b) := @charge_energy F B P (fst s) wh hour in
    (charged, losses, (b, snd s ++ [Charge wh hour charged losses]));
  discharge_energy := fun s wh hour =>
    let '(discharged, losses, b) := @discharge_energy F B P (fst s) wh hour in
    (discharged, losses, (b, snd s ++ [Discharge wh hour discharged losses]))
|}.

(** The inverter [self] on the recording battery, with an empty log. *)
Definition logged {F B : Type} (self : t F B) : t F (B * list (call F)) :=
  mk (max_power_wh self) (akku self, []) (self_consumption_predictor self).


(** *** Batteries used in the examples *)

(** A battery that neither charges nor discharges; its state counts
    the calls it received. *)
Definition idle_battery {F : Type} {A : Arith F} : BatteryPort F nat := {|
  charge_energy := fun n _ _ => (fzero, fzero, S n);
  discharge_energy := fun n _ _ => (fzero, fzero, S n)
|}.

(** A battery that delivers and absorbs exactly what is requested,
    without loss. *)
Definition ideal_battery {F : Type} {A : Arith F} : BatteryPort F unit := {|
  charge_energy := fun _ wh _ => (wh, fzero, tt);
  discharge_energy := fun _ wh _ => (wh, fzero, tt)
|}.

End FloatInverter.

(** ** Concrete floats *)

Module FloatExamples.
Import Fp FloatInverter.

(** A rounding that errs upwards by one part in 1024, and the
    arithmetic that rounds every result with it. *)
Definition round_up (x : Q) : Q := x * (1025 # 1024).

Definition coarse : Arith Q := rounded round_up round_up.

(** A predictor that routes the whole surplus to the battery. *)
Definition all_to_battery {F : Type} {A : Arith F} : F -> F -> F := fun _ _ => fone.

(** An inverter of 10 kWh in the coarse arithmetic, on an idle and on
    an ideal battery. *)
Definition idle_inverter : t Q nat := mk 10000 0%nat (all_to_battery (A := coarse)).
Definition ideal_inverter : t Q unit := mk 10000 tt (all_to_battery (A := coarse)).

(** 20000 Wh generated and 3000 Wh consumed on the idle battery: the
    whole surplus is offered to the battery, which takes nothing, and
    the feed-in is clamped. *)
Definition clamped_flows : flows Q :=
  fst (process_energy (A := coarse) (P := idle_battery (A := coarse))
         idle_inverter 20000 3000 12).


(** 2000 Wh generated and 5000 Wh consumed, and 8000 Wh generated and
    50000 Wh consumed, on the ideal battery. *)
Definition deficit_flows : flows Q :=
  fst (process_energy (A := coarse) (P := ideal_battery (A := coarse))
         ideal_inverter 2000 5000 12).

Definition heavy_flows : flows Q :=
  fst (process_energy (A := coarse) (P := ideal_battery (A := coarse))
         ideal_inverter 8000 50000 12).

End FloatExamples.

Module Binary64Examples.
Import Fp FloatInverter FloatExamples PrimFloat.

#[local] Existing Instance binary64.

(** An inverter of 10 kWh on an idle battery, and an hour with
    1234.56 Wh generated and 7890.12 Wh consumed (the nearest floats). *)
Definition inverter64 : t float nat :=
  mk 10000%float 0%nat all_to_battery.

#[warnings="-inexact-float"]
Definition generation64 : float := 1234.56%float.
#[warnings="-inexact-float"]
Definition consumption64 : float := 7890.12%float.

(** The float below [consumption64]. *)
#[warnings="-inexact-float"]
Definition below_consumption64 : float := 7890.119999999999%float.

(** The discharge request of that hour and the result of the hour. *)
Definition request64 : float :=
  fmin (fsub consumption64 generation64)
       (fmax (fsub (max_power_wh inverter64) generation64) fzero).

Definition deficit_flows64 : flows float :=
  fst (process_energy (P := idle_battery) inverter64 generation64 consumption64 12).

End Binary64Examples.

(** * Properties *)

(** Closed comparisons of rationals, by evaluation. *)
Ltac q_eval := vm_compute; first [reflexivity | discriminate].

(** ** Comparisons, [max] and [min] *)

Module PyFacts.

Lemma ge_spec a b : reflect (b <= a) (Py.ge a b).
Proof.
  unfold Py.ge. destruct (Qle_bool b a) eqn:E; constructor.
  - now apply Qle_bool_iff.
  - intros Hle. apply Qle_bool_iff in Hle. congruence.
Qed.

Lemma gt_spec a b : reflect (b < a) (Py.gt a b).
Proof.
  unfold Py.gt. destruct (Qle_bool a b) eqn:E; constructor.
  - apply Qle_bool_iff in E. lra.
  - apply Qnot_le_lt. intros Hle. apply Qle_bool_iff in Hle. congruence.
Qed.

Lemma lt_spec a b : reflect (a < b) (Py.lt a b).
Proof. apply (gt_spec b a). Qed.

Lemma max_lower a b : a <= Py.max a b /\ b <= Py.max a b.
Proof. unfold Py.max. destruct (gt_spec b a); lra. Qed.

Lemma min_upper a b : Py.min a b <= a /\ Py.min a b <= b.
Proof. unfold Py.min. destruct (lt_spec b a); lra. Qed.

Lemma min_nonneg a b : 0 <= a -> 0 <= b -> 0 <= Py.min a b.
Proof. unfold Py.min. destruct (lt_spec b a); lra. Qed.

End PyFacts.

(** Case analysis on the next float comparison of the goal. *)
Ltac py_case :=
  match goal with
  | |- context [Py.ge ?a ?b] => destruct (PyFacts.ge_spec a b)
  | |- context [Py.gt ?a ?b] => destruct (PyFacts.gt_spec a b)
  | |- context [Py.lt ?a ?b] => destruct (PyFacts.lt_spec a b)
  end.

(** ** The inverter *)

Module InverterProofs.
Import Inverter.

Section WithBattery.
Context {B : Type} `{BatteryPort B}.

Lemma process_energy_by_steps (self : t B) (generation consumption : Q) (hour : Z) :
  process_energy self generation consumption hour
  = process_energy_steps self generation consumption hour.
Proof. reflexivity. Qed.

(** The discharge step imports what the battery does not deliver,
    and nothing when the request is met. *)
Lemma cover_remaining_load_spec (b : B) (evq : Q) (hour : Z) (l0 i0 : Q) :
  let r := cover_remaining_load b evq hour l0 i0 in
  let d := discharge_energy b evq hour in
  (0 < evq ->
     r = (fst (fst d), l0 + snd (fst d),
          (if Py.gt (evq - fst (fst d)) 0 then i0 + (evq - fst (fst d)) else i0),
          snd d)) /\
  (evq <= 0 -> r = (0, l0, i0, b)).
Proof.
  cbv zeta. unfold cover_remaining_load. split; intros Hevq.
  - destruct (PyFacts.gt_spec evq 0) as [_ | Hn]; [| lra].
    destruct (discharge_energy b evq hour) as [[fb dl] b'].
    cbn [fst snd]. now destruct (Py.gt (evq - fb) 0).
  - destruct (PyFacts.gt_spec evq 0) as [Hp | _]; [lra | reflexivity].
Qed.

(** The charge step: the feed-in is clamped to the inverter headroom
    and, together with the losses it adds, accounts for all the power
    that the battery did not store. *)
Lemma charge_and_export_spec (b : B) (cap consumption power : Q) (hour : Z)
    (e0 l0 : Q) :
  let r := charge_and_export b cap consumption power hour e0 l0 in
  let c := charge_energy b power hour in
  let surplus := power - (fst (fst c) + snd (fst c)) in
  (0 < power ->
     snd r = snd c /\
     (fst (fst r) == if Py.gt surplus (cap - consumption)
                     then cap - consumption else surplus) /\
     fst (fst r) + snd (fst r) == l0 + (power - fst (fst c))) /\
  (power <= 0 -> r = (e0, l0, b)).
Proof.
  cbv zeta. unfold charge_and_export. split; intros Hp.
  - destruct (PyFacts.gt_spec power 0) as [_ | Hn]; [| lra].
    destruct (charge_energy b power hour) as [[ch cl] b'].
    cbn [fst snd].
    destruct (Py.gt (power - (ch + cl)) (cap - consumption));
      cbn [fst snd]; repeat split; try reflexivity; lra.
  - destruct (PyFacts.gt_spec power 0) as [Hn | _]; [lra | reflexivity].
Qed.

(** C2 (saturation branch).  When the load alone exceeds the inverter
    capacity and generation covers the load, nothing is exported,
    self-consumption is the capacity, the rest of the load is
    imported and the generation above the capacity is lost; the
    battery is not touched.  The scenario of the specification
    (15000 generated, 12000 consumed, capacity 10000) gives losses
    5000, import 2000, self-consumption 10000 and export 0. *)
Theorem process_energy_saturated :
  (forall (self : t B) (generation consumption : Q) (hour : Z),
     max_power_wh self < consumption ->
     consumption <= generation ->
     flows_eq (fst (process_energy self generation consumption hour))
              (0, consumption - max_power_wh self,
               generation - max_power_wh self, max_power_wh self) /\
     snd (process_energy self generation consumption hour) = akku self) /\
  (forall (b : B) (predictor : Q -> Q -> Q) (hour : Z),
     flows_eq (fst (process_energy (mk 10000 b predictor) 15000 12000 hour))
              (0, 2000, 5000, 10000)).
Proof.
  assert (Hgen : forall (self : t B) generation consumption hour,
             max_power_wh self < consumption ->
             consumption <= generation ->
             flows_eq (fst (process_energy self generation consumption hour))
                      (0, consumption - max_power_wh self,
                       generation - max_power_wh self, max_power_wh self) /\
             snd (process_energy self generation consumption hour) = akku self).
  { intros self generation consumption hour Hsat Hge.
    rewrite !process_energy_by_steps. unfold process_energy_steps.
    destruct (PyFacts.ge_spec generation consumption) as [_ | Hn]; [| lra].
    destruct (PyFacts.gt_spec consumption (max_power_wh self)) as [_ | Hn]; [| lra].
    cbn [fst snd]. split; [| reflexivity].
    unfold flows_eq; cbn. repeat split; lra. }
  split; [exact Hgen |].
  intros b predictor hour.
  destruct (Hgen (mk 10000 b predictor) 15000 12000 hour) as [(He & Hi & Hl & Hs) _];
    cbn [max_power_wh]; try lra.
  cbn [max_power_wh grid_export grid_import losses self_consumption] in *.
  unfold flows_eq; cbn [grid_export grid_import losses self_consumption].
  repeat split; lra.
Qed.

(** C10 (balanced hour).  With generation equal to a consumption
    that the inverter can carry, the result is
    [(0, 0, 0, consumption)] whatever ratio the predictor returns,
    and the battery comes back in the state it was given: neither
    of its methods ran. *)
Theorem process_energy_balanced (self : t B) (generation consumption : Q) (hour : Z) :
  generation == consumption ->
  consumption <= max_power_wh self ->
  flows_eq (fst (process_energy self generation consumption hour))
           (0, 0, 0, consumption) /\
  snd (process_energy self generation consumption hour) = akku self.
Proof.
  intros Heq Hcap. rewrite !process_energy_by_steps. unfold process_energy_steps.
  destruct (PyFacts.ge_spec generation consumption) as [_ | Hn]; [| lra].
  destruct (PyFacts.gt_spec consumption (max_power_wh self)) as [Hn | _]; [lra |].
  set (scr := self_consumption_predictor self consumption generation).
  assert (Hevq : (generation - consumption) * (1 - scr) <= 0) by nra.
  assert (Hpow : (generation - consumption) * scr <= 0) by nra.
  destruct (cover_remaining_load_spec (akku self)
              ((generation - consumption) * (1 - scr)) hour 0 0) as [_ Hc].
  rewrite (Hc Hevq).
  destruct (charge_and_export_spec (akku self) (max_power_wh self) consumption
              ((generation - consumption) * scr) hour 0 0) as [_ He].
  rewrite (He Hpow). cbn [fst snd]. split; [| reflexivity].
  unfold flows_eq; cbn. repeat split; lra.
Qed.

(** C1 (energy non-negativity), amended.  For a positive capacity,
    non-negative generation and consumption, a predictor ratio in
    [[0, 1]] and a battery that keeps its contract and, when
    charging, takes the stored energy and the charge losses together
    out of the requested amount, all four returned flows are
    non-negative. *)
Theorem process_energy_nonneg (self : t B) (generation consumption : Q) (hour : Z) :
  0 < max_power_wh self ->
  0 <= generation ->
  0 <= consumption ->
  battery_contract B ->
  charge_within_request B ->
  predictor_contract (self_consumption_predictor self) ->
  let r := fst (process_energy self generation consumption hour) in
  0 <= grid_export r /\ 0 <= grid_import r /\ 0 <= losses r /\
  0 <= self_consumption r.
Proof.
  intros Hcap Hg Hc [Hch Hcl Hdis Hdl] Hreq Hscr. cbv zeta.
  rewrite !process_energy_by_steps. unfold process_energy_steps.
  destruct (PyFacts.ge_spec generation consumption) as [Hge | Hlt].
  - destruct (PyFacts.gt_spec consumption (max_power_wh self)) as [Hsat | Hfit].
    + cbn. repeat split; lra.
    + specialize (Hscr consumption generation).
      set (scr := self_consumption_predictor self consumption generation) in *.
      set (evq := (generation - consumption) * (1 - scr)).
      set (power := (generation - consumption) * scr).
      assert (Hevq : 0 <= evq) by (subst evq; nra).
      assert (Hpow : 0 <= power) by (subst power; nra).
      destruct (cover_remaining_load_spec (akku self) evq hour 0 0) as [Hc1 Hc0].
      specialize (Hdis (akku self) evq hour Hevq).
      specialize (Hdl (akku self) evq hour Hevq).
      destruct (cover_remaining_load (akku self) evq hour 0 0)
        as [[[fb l1] gi] b1].
      assert (Hcover : 0 <= fb /\ 0 <= l1 /\ 0 <= gi).
      { destruct (Qlt_le_dec 0 evq) as [Hp | Hp].
        - specialize (Hc1 Hp). injection Hc1 as -> -> -> _.
          repeat split; try lra. py_case; lra.
        - specialize (Hc0 Hp). injection Hc0 as -> -> -> _. lra. }
      destruct Hcover as (Hfb & Hl1 & Hgi).
      destruct (charge_and_export_spec b1 (max_power_wh self) consumption power hour
                  0 l1) as [He1 He0].
      specialize (Hch b1 power hour Hpow).
      specialize (Hcl b1 power hour Hpow).
      specialize (Hreq b1 power hour Hpow).
      destruct (charge_and_export b1 (max_power_wh self) consumption power hour 0 l1)
        as [[e l2] b2].
      cbn [fst snd grid_export grid_import losses self_consumption] in *.
      destruct (Qlt_le_dec 0 power) as [Hp | Hp].
      * destruct (He1 Hp) as (_ & He & Hsum).
        revert He. py_case; intros He; repeat split; lra.
      * specialize (He0 Hp). injection He0 as -> -> _. repeat split; lra.
  - set (request := Py.min _ _).
    assert (Hr : 0 <= request <= consumption - generation).
    { subst request. split.
      - apply PyFacts.min_nonneg; [lra |].
        apply (PyFacts.max_lower (max_power_wh self - generation) 0).
      - apply PyFacts.min_upper. }
    specialize (Hdis (akku self) request hour (proj1 Hr)).
    specialize (Hdl (akku self) request hour (proj1 Hr)).
    destruct (discharge_energy (akku self) request hour) as [[d dl] b'].
    cbn in *. repeat split; lra.
Qed.

(** C8 (export and import exclude each other), amended.  At most one
    of [grid_export] and [grid_import] is non-zero in a deficit
    hour, in a saturated hour, when the predictor's ratio is 0 or 1,
    and when the battery delivers all of the requested
    [remaining_load_evq]. *)
Theorem process_energy_exclusive (self : t B) (generation consumption : Q) (hour : Z) :
  let scr := self_consumption_predictor self consumption generation in
  let evq := (generation - consumption) * (1 - scr) in
  generation < consumption \/
  max_power_wh self < consumption \/
  scr == 0 \/
  scr == 1 \/
  evq <= fst (fst (discharge_energy (akku self) evq hour)) ->
  let r := fst (process_energy self generation consumption hour) in
  grid_export r == 0 \/ grid_import r == 0.
Proof.
  cbv zeta. intros Hcase. rewrite !process_energy_by_steps. unfold process_energy_steps.
  destruct (PyFacts.ge_spec generation consumption) as [Hge | Hlt].
  2: { destruct (discharge_energy (akku self) (Py.min _ _) hour) as [[d dl] b'].
       left. reflexivity. }
  destruct (PyFacts.gt_spec consumption (max_power_wh self)) as [Hsat | Hfit].
  { left. reflexivity. }
  set (scr := self_consumption_predictor self consumption generation) in *.
  set (evq := (generation - consumption) * (1 - scr)) in *.
  set (power := (generation - consumption) * scr).
  destruct (cover_remaining_load_spec (akku self) evq hour 0 0) as [Hc1 Hc0].
  destruct (cover_remaining_load (akku self) evq hour 0 0) as [[[fb l1] gi] b1].
  destruct (charge_and_export_spec b1 (max_power_wh self) consumption power hour
              0 l1) as [_ He0].
  destruct (charge_and_export b1 (max_power_wh self) consumption power hour 0 l1)
    as [[e l2] b2].
  cbn [fst snd grid_export grid_import] in *.
  assert (Himport : evq <= 0 \/ evq <= fst (fst (discharge_energy (akku self) evq hour))
                    -> gi == 0).
  { intros Hmet. destruct (Qlt_le_dec 0 evq) as [Hp | Hp].
    - specialize (Hc1 Hp). injection Hc1 as _ _ -> _.
      py_case; lra.
    - specialize (Hc0 Hp). injection Hc0 as _ _ -> _. reflexivity. }
  destruct Hcase as [Hd | [Hs | [H0 | [H1 | Hmet]]]].
  - lra.
  - lra.
  - left. assert (Hp : power <= 0) by (subst power; nra).
    specialize (He0 Hp). injection He0 as -> _ _. reflexivity.
  - right. apply Himport. left. subst evq. nra.
  - right. apply Himport. now right.
Qed.

End WithBattery.

(** *** The example batteries and their contracts *)

Lemma idle_battery_contract : @battery_contract nat idle_battery.
Proof. constructor; intros; cbn; lra. Qed.

Lemma ideal_battery_contract : @battery_contract Q ideal_battery.
Proof. constructor; intros; cbn; lra. Qed.

Lemma ideal_battery_within_request : @charge_within_request Q ideal_battery.
Proof. intros b wh hour Hwh. cbn. lra. Qed.

Lemma lossy_battery_contract : @battery_contract unit lossy_battery.
Proof. constructor; intros; cbn; lra. Qed.

Lemma constant_predictor_contract (ratio : Q) :
  0 <= ratio <= 1 -> predictor_contract (fun _ _ => ratio).
Proof. intros Hr consumption generation. exact Hr. Qed.

End InverterProofs.

(** ** The inverter on concrete hours *)

Module InverterScenarios.
Import Inverter InverterProofs Examples.

(** Surplus hour of section 8: full ratio, battery idle. *)
Example surplus_hour :
  flows_eq (fst (@process_energy nat idle_battery (inverter 0%nat 1) 8000 3000 12))
           (5000, 0, 0, 3000).
Proof. repeat split; q_eval. Qed.

(** Deficit hour of section 8: the battery covers the shortfall. *)
Example deficit_hour :
  flows_eq (fst (@process_energy Q ideal_battery (inverter 0 1) 1000 4000 12))
           (0, 0, 0, 4000).
Proof. repeat split; q_eval. Qed.

Lemma process_energy_saturated_witness :
  10000 < 12000 /\ 12000 <= 15000 /\
  flows_eq (fst (@process_energy Q ideal_battery (inverter 0 (1 # 2)) 15000 12000 12))
           (0, 12000 - 10000, 15000 - 10000, 10000).
Proof.
  split; [q_eval |]. split; [q_eval |].
  apply (proj1 (@process_energy_saturated Q ideal_battery) (inverter 0 (1 # 2)));
    q_eval.
Defined.

(** The idle battery counts its calls: none happened. *)
Lemma process_energy_balanced_witness :
  3000 == 3000 /\ 3000 <= 10000 /\
  snd (@process_energy nat idle_battery (inverter 0%nat (1 # 3)) 3000 3000 12) = 0%nat.
Proof.
  split; [q_eval |]. split; [q_eval |].
  apply (@process_energy_balanced nat idle_battery (inverter 0%nat (1 # 3))); q_eval.
Defined.

Lemma process_energy_nonneg_witness :
  let r := fst (@process_energy Q ideal_battery (inverter 0 (1 # 2)) 8000 3000 12) in
  0 <= grid_export r /\ 0 <= grid_import r /\ 0 <= losses r /\
  0 <= self_consumption r.
Proof.
  apply (@process_energy_nonneg Q ideal_battery (inverter 0 (1 # 2)) 8000 3000 12).
  - q_eval.
  - q_eval.
  - q_eval.
  - exact ideal_battery_contract.
  - exact ideal_battery_within_request.
  - exact (constant_predictor_contract (1 # 2) ltac:(split; q_eval)).
Defined.

(** C1 as stated fails: the lossy battery keeps
    [0 <= amount_applied <= requested] and [losses >= 0], the predictor
    returns 1, generation and consumption are positive, and the
    exported energy is negative. *)
Lemma process_energy_negative_export :
  @battery_contract unit lossy_battery /\
  predictor_contract (self_consumption_predictor (inverter tt 1)) /\
  0 <= 8000 /\ 0 <= 3000 /\
  grid_export (fst (@process_energy unit lossy_battery (inverter tt 1) 8000 3000 12))
    == -1.
Proof.
  split; [exact lossy_battery_contract |].
  split; [exact (constant_predictor_contract 1 ltac:(split; q_eval)) |].
  repeat split; q_eval.
Qed.

Lemma process_energy_exclusive_witness :
  grid_export (fst (@process_energy nat idle_battery (inverter 0%nat 1) 8000 3000 12))
    == 0 \/
  grid_import (fst (@process_energy nat idle_battery (inverter 0%nat 1) 8000 3000 12))
    == 0.
Proof.
  apply (@process_energy_exclusive nat idle_battery (inverter 0%nat 1) 8000 3000 12).
  right. right. right. left. q_eval.
Defined.

(** C8 as stated fails: with ratio 1/2 and an idle battery, which
    keeps its contract, half of the surplus is exported and the other
    half is imported in the same hour. *)
Lemma process_energy_export_and_import :
  @battery_contract nat idle_battery /\
  predictor_contract (self_consumption_predictor (inverter 0%nat (1 # 2))) /\
  0 <= 8000 /\ 0 <= 3000 /\
  grid_export (fst (@process_energy nat idle_battery (inverter 0%nat (1 # 2))
                      8000 3000 12)) == 2500 /\
  grid_import (fst (@process_energy nat idle_battery (inverter 0%nat (1 # 2))
                      8000 3000 12)) == 2500.
Proof.
  split; [exact idle_battery_contract |].
  split; [exact (constant_predictor_contract (1 # 2) ltac:(split; q_eval)) |].
  repeat split; q_eval.
Qed.

End InverterScenarios.

(** ** numpy arrays *)

Module NpFacts.
Import Py.

Lemma index_in_range (len : nat) (i : nat) :
  (i < len)%nat -> Np.index len (Z.of_nat i) = Ok i.
Proof.
  intros Hi. unfold Np.index.
  replace ((0 <=? Z.of_nat i) && (Z.of_nat i <? Z.of_nat len))%Z with true.
  - now rewrite Nat2Z.id.
  - symmetry. apply andb_true_iff. split; [apply Z.leb_le | apply Z.ltb_lt]; lia.
Qed.

Lemma get_in_range {A : Type} (a : list A) (i : nat) (x : A) :
  a !! i = Some x -> Np.get a (Z.of_nat i) = Ok x.
Proof.
  intros Hx. unfold Np.get.
  rewrite index_in_range by (eapply lookup_lt_Some; eassumption).
  cbn. now rewrite Hx.
Qed.

Lemma set_in_range {A : Type} (a : list A) (i : nat) (x : A) :
  (i < length a)%nat -> Np.set a (Z.of_nat i) x = Ok (<[i := x]> a).
Proof. intros Hi. unfold Np.set. now rewrite index_in_range. Qed.

Lemma mapM_cons {A C : Type} (f : A -> result C) (x : A) (l : list A) :
  mapM f (x :: l) =
    match f x with
    | Ok y => match mapM f l with
              | Ok k => Ok (y :: k)
              | Err e => Err e
              end
    | Err e => Err e
    end.
Proof. reflexivity. Qed.

Lemma mapM_ok_map {A C : Type} (f : A -> result C) (g : A -> C) (l : list A) :
  (forall x, f x = Ok (g x)) -> mapM f l = Ok (map g l).
Proof.
  intros Hf. induction l as [| x l IH]; [reflexivity |].
  now rewrite mapM_cons, Hf, IH.
Qed.

(** Scaling by a float succeeds and multiplies every element. *)
Lemma mapM_float_mul (y : Q) (l : list Q) :
  mapM (fun x => Np.float_mul x (Some y)) l = Ok (map (fun x => x * y) l).
Proof. now apply mapM_ok_map. Qed.

Lemma mul_scalar_some (a : Np.table) (y : Q) :
  Np.mul_scalar a (Some y) = Ok (map (map (map (fun x => x * y))) a).
Proof.
  unfold Np.mul_scalar.
  apply mapM_ok_map. intros day.
  apply mapM_ok_map. intros row.
  apply mapM_float_mul.
Qed.

(** Scaling by [None] fails on the first float it meets. *)
Lemma mul_scalar_none (x : Q) (row : list Q) (day : list (list Q)) (a : Np.table) :
  Np.mul_scalar (((x :: row) :: day) :: a) None = Err TypeError.
Proof. reflexivity. Qed.

Lemma array_ok (rows : list (list Q * list Q)) (a : Np.table) :
  Np.array rows = Ok a -> a = map (fun p => [fst p; snd p]) rows.
Proof.
  unfold Np.array. destruct rows as [| r rows]; [now intros [= <-] |].
  destruct (forallb _ _); [now intros [= <-] | discriminate].
Qed.

Lemma array_cases (rows : list (list Q * list Q)) :
  Np.array rows = Ok (map (fun p => [fst p; snd p]) rows) \/
  Np.array rows = Err ValueError.
Proof.
  unfold Np.array. destruct rows as [| r rows]; [now left |].
  destruct (forallb _ _); [now left | now right].
Qed.

End NpFacts.

(** ** Loading the profile archive *)

Module LoadDataProofs.
Import Py LoadAkkudoktor CalibrationSpec.

Lemma scale_profiles_some (self : config) (file_data : npz) (y : Q) (a : Np.table) :
  loadakkudoktor_year_energy self = Some y ->
  scale_profiles self file_data = Ok a ->
  exists yearly_profiles yearly_profiles_std,
    file_data !! "yearly_profiles"%string = Some yearly_profiles /\
    file_data !! "yearly_profiles_std"%string = Some yearly_profiles_std /\
    a = scaled_table yearly_profiles yearly_profiles_std y.
Proof.
  intros Hy. unfold scale_profiles, getitem. rewrite Hy.
  destruct (file_data !! "yearly_profiles"%string) as [p |]; [| discriminate].
  destruct (file_data !! "yearly_profiles_std"%string) as [s |]; [| discriminate].
  cbn. destruct (Np.array (zip p s)) as [stacked | e] eqn:Harr; [| discriminate].
  apply NpFacts.array_ok in Harr. subst stacked.
  cbn. rewrite NpFacts.mul_scalar_some. cbn. rewrite NpFacts.mul_scalar_some.
  intros [= <-]. exists p, s. repeat split.
  unfold scaled_table. clear. revert s.
  induction p as [| r p IH]; intros [| r' s]; try reflexivity.
  cbn. rewrite <- IH. rewrite !map_map. reflexivity.
Qed.

(** What [load_data] returns, by the outcome of the [try] block. *)
Lemma load_data_unfold (self : config) (fs : filesystem) :
  fst (load_data self fs) =
    match (file_data ← fst (np_load fs); scale_profiles self file_data) with
    | Ok a => Ok a
    | Err FileNotFoundError => Err FileNotFoundError
    | Err _ => Err ValueError
    end.
Proof.
  unfold load_data, np_load. cbn [fst snd].
  destruct (_ ≫= _) as [a | []]; reflexivity.
Qed.

Lemma scale_profiles_not_missing (self : config) (file_data : npz) :
  scale_profiles self file_data <> Err FileNotFoundError.
Proof.
  unfold scale_profiles, getitem.
  destruct (file_data !! "yearly_profiles"%string) as [p |]; [| discriminate].
  destruct (file_data !! "yearly_profiles_std"%string) as [s |]; [| discriminate].
  cbn. destruct (NpFacts.array_cases (zip p s)) as [-> | ->]; [| discriminate].
  cbn. destruct (loadakkudoktor_year_energy self) as [y |].
  - rewrite NpFacts.mul_scalar_some. cbn. rewrite NpFacts.mul_scalar_some. discriminate.
  - set (stacked := map _ (zip p s)).
    assert (Hnone : forall a, Np.mul_scalar a None = Ok a \/
                              Np.mul_scalar a None = Err TypeError).
    { clear. unfold Np.mul_scalar.
      assert (Hrow : forall row : list Q,
                 mapM (fun x => Np.float_mul x None) row = Ok row \/
                 mapM (fun x => Np.float_mul x None) row = Err TypeError).
      { intros [| x row]; [now left | now right]. }
      assert (Hday : forall day : list (list Q),
                 mapM (mapM (fun x => Np.float_mul x None)) day = Ok day \/
                 mapM (mapM (fun x => Np.float_mul x None)) day = Err TypeError).
      { induction day as [| row day IH]; [now left |].
        rewrite NpFacts.mapM_cons.
        destruct (Hrow row) as [-> | ->]; [| now right].
        destruct IH as [-> | ->]; [now left | now right]. }
      induction a as [| day a IH]; [now left |].
      rewrite NpFacts.mapM_cons.
      destruct (Hday day) as [-> | ->]; [| now right].
      destruct IH as [-> | ->]; [now left | now right]. }
    destruct (Hnone stacked) as [-> | ->]; [| discriminate].
    cbn. rewrite NpFacts.mul_scalar_some. discriminate.
Qed.

(** C9 (error kinds of [load_data]).  [load_data] raises
    [FileNotFoundError] exactly when the archive file is missing;
    every other failure (an unreadable file, a missing key, rows that
    do not stack, a scaling failure) is raised as [ValueError], and no
    other exception leaves the function; on success with a configured
    yearly energy the result is the table of both profiles scaled by
    [year_energy * 1000]; [np.load] runs exactly once. *)
Theorem load_data_error_kinds (self : config) (fs : filesystem) :
  let r := fst (load_data self fs) in
  (r = Err FileNotFoundError <-> load_profiles fs = Missing) /\
  (forall e, r = Err e -> e = FileNotFoundError \/ e = ValueError) /\
  (forall why, load_profiles fs = Unreadable why -> r = Err ValueError) /\
  (forall file_data e,
     load_profiles fs = Archive file_data ->
     scale_profiles self file_data = Err e -> r = Err ValueError) /\
  (forall a y,
     r = Ok a -> loadakkudoktor_year_energy self = Some y ->
     exists file_data yearly_profiles yearly_profiles_std,
       load_profiles fs = Archive file_data /\
       file_data !! "yearly_profiles"%string = Some yearly_profiles /\
       file_data !! "yearly_profiles_std"%string = Some yearly_profiles_std /\
       a = scaled_table yearly_profiles yearly_profiles_std y) /\
  np_load_calls (snd (load_data self fs)) = S (np_load_calls fs).
Proof.
  cbv zeta. rewrite load_data_unfold.
  repeat split.
  - unfold np_load; cbn [fst].
    destruct (load_profiles fs) as [| [] | file_data]; cbn; try discriminate; trivial.
    pose proof (scale_profiles_not_missing self file_data) as Hnm.
    destruct (scale_profiles self file_data) as [a | []]; congruence.
  - intros Hfs. unfold np_load; rewrite Hfs. reflexivity.
  - intros e. destruct (_ ≫= _) as [a | []]; intros [= <-]; auto.
  - intros why Hfs. unfold np_load; rewrite Hfs. now destruct why.
  - intros file_data e Hfs He. unfold np_load; rewrite Hfs; cbn.
    pose proof (scale_profiles_not_missing self file_data) as Hnm.
    rewrite He in *. destruct e; congruence.
  - intros a y Hok Hy. unfold np_load in Hok; cbn [fst] in Hok.
    destruct (load_profiles fs) as [| [] | file_data]; cbn in Hok; try discriminate.
    destruct (scale_profiles self file_data) as [a' | e] eqn:Hs;
      [| destruct e; discriminate].
    injection Hok as ->.
    destruct (scale_profiles_some self file_data y a Hy Hs) as (p & s & Hp & Hs' & Ha).
    exists file_data, p, s. auto.
  - unfold load_data, np_load.
    destruct (_ ≫= _) as [a | []]; reflexivity.
Qed.

(** C7 (absent yearly energy), amended.  When
    [loadakkudoktor_year_energy] is absent and the archive provides
    both profiles with at least one value in the first row,
    [load_data] raises the generic load error [ValueError]; it does
    not return a table. *)
Theorem load_data_without_year_energy (self : config) (fs : filesystem)
    (file_data : npz) (x : Q) (row : list Q) (profiles : list (list Q))
    (std_row : list Q) (profiles_std : list (list Q)) :
  loadakkudoktor_year_energy self = None ->
  load_profiles fs = Archive file_data ->
  file_data !! "yearly_profiles"%string = Some ((x :: row) :: profiles) ->
  file_data !! "yearly_profiles_std"%string = Some (std_row :: profiles_std) ->
  fst (load_data self fs) = Err ValueError.
Proof.
  intros Hy Hfs Hp Hs. rewrite load_data_unfold.
  unfold np_load; rewrite Hfs; cbn [fst].
  cbv beta iota delta [mbind result_bind bind].
  unfold scale_profiles, getitem. rewrite Hp, Hs, Hy.
  cbv beta iota delta [mbind result_bind bind].
  change (zip ((x :: row) :: profiles) (std_row :: profiles_std))
    with ((x :: row, std_row) :: zip profiles profiles_std).
  destruct (NpFacts.array_cases ((x :: row, std_row) :: zip profiles profiles_std))
    as [Harr | Harr]; rewrite Harr; [| reflexivity].
  cbn [map fst snd]. now rewrite NpFacts.mul_scalar_none.
Qed.

End LoadDataProofs.

(** ** [load_data] on concrete files *)

Module LoadDataScenarios.
Import Py LoadAkkudoktor CalibrationSpec LoadDataProofs Examples.

Example load_data_scaled :
  fst (load_data {| loadakkudoktor_year_energy := Some 2 |} present)
  = Ok (scaled_table [[1; 2; 3]; [4; 5; 6]]
          [[1 # 2; 1 # 2; 1 # 2]; [1 # 4; 1 # 4; 1 # 4]] 2).
Proof. vm_compute. reflexivity. Qed.

Lemma load_data_error_kinds_witness :
  fst (load_data {| loadakkudoktor_year_energy := Some 2 |} absent)
  = Err FileNotFoundError.
Proof.
  apply (load_data_error_kinds {| loadakkudoktor_year_energy := Some 2 |} absent).
  reflexivity.
Defined.

Lemma load_data_without_year_energy_witness :
  fst (load_data {| loadakkudoktor_year_energy := None |} present) = Err ValueError.
Proof.
  apply (load_data_without_year_energy
           {| loadakkudoktor_year_energy := None |} present small_archive
           1 [2; 3] [[4; 5; 6]] [1 # 2; 1 # 2; 1 # 2] [[1 # 4; 1 # 4; 1 # 4]]);
    reflexivity.
Defined.

(** C7 as stated fails: without a yearly energy, loading a readable
    archive raises [ValueError]; no table, zero or otherwise, comes
    back. *)
Lemma load_data_absent_year_energy_raises :
  fst (load_data {| loadakkudoktor_year_energy := None |} present) = Err ValueError /\
  ~ (exists a, fst (load_data {| loadakkudoktor_year_energy := None |} present) = Ok a).
Proof.
  assert (Hr : fst (load_data {| loadakkudoktor_year_energy := None |} present)
               = Err ValueError) by (vm_compute; reflexivity).
  split; [exact Hr |]. intros [a Ha]. rewrite Hr in Ha. discriminate.
Qed.

End LoadDataScenarios.

(** ** The calibration *)

Module CalibrationProofs.
Import Py LoadAkkudoktor CalibrationSpec.

Lemma gt_proper (a b : Q) : a == b -> Py.gt a 0 = Py.gt b 0.
Proof.
  intros Hab. destruct (PyFacts.gt_spec a 0), (PyFacts.gt_spec b 0);
    try reflexivity; lra.
Qed.

Lemma entry_zeros (n h : nat) : entry (Np.zeros n) h = 0.
Proof.
  unfold entry, Np.zeros.
  destruct (replicate n 0 !! h) as [x |] eqn:Hx; [| reflexivity].
  apply lookup_replicate in Hx. cbn. tauto.
Qed.

Lemma entry_lookup (a : list Q) (h : nat) :
  (h < length a)%nat -> a !! h = Some (entry a h).
Proof.
  intros Hh. unfold entry.
  destruct (lookup_lt_is_Some_2 a h Hh) as [x ->]. reflexivity.
Qed.

Lemma entry_insert (a : list Q) (k h : nat) (x : Q) :
  (k < length a)%nat ->
  entry (<[k := x]> a) h = if (h =? k)%nat then x else entry a h.
Proof.
  intros Hk. unfold entry. destruct (Nat.eqb_spec h k) as [-> | Hne].
  - now rewrite list_lookup_insert_eq.
  - now rewrite list_lookup_insert_ne by congruence.
Qed.

(** [a[i] += x] on an in-range hour. *)
Lemma iadd_at_hour (a : list Q) (i : Z) (x : Q) :
  length a = 24%nat -> (0 <= i < 24)%Z ->
  iadd_at a i x = Ok (<[Z.to_nat i := entry a (Z.to_nat i) + x]> a).
Proof.
  intros Hlen Hi.
  assert (Hk : (Z.to_nat i < length a)%nat) by lia.
  assert (Hi' : i = Z.of_nat (Z.to_nat i)) by lia.
  set (k := Z.to_nat i) in *. clearbody k. subst i.
  unfold iadd_at.
  rewrite (NpFacts.get_in_range a k _ (entry_lookup a k Hk)).
  change (Ok ?v ≫= ?f) with (f v). cbv beta.
  now apply NpFacts.set_in_range.
Qed.

Lemma entry_iadd (a : list Q) (i : Z) (x : Q) (h : nat) :
  length a = 24%nat -> (0 <= i < 24)%Z ->
  entry (<[Z.to_nat i := entry a (Z.to_nat i) + x]> a) h
  == entry a h + (if (i =? Z.of_nat h)%Z then x else 0).
Proof.
  intros Hlen Hi. rewrite entry_insert by lia.
  destruct (Nat.eqb_spec h (Z.to_nat i)) as [-> | Hne].
  - rewrite Z2Nat.id, Z.eqb_refl by lia. reflexivity.
  - destruct (Z.eqb_spec i (Z.of_nat h)) as [-> | _].
    + rewrite Nat2Z.id in Hne. congruence.
    + lra.
Qed.

(** The division of line 79 (and 81) at hour [i]. *)
Lemma mean_at_spec (adjust adjust_weight : list Q) (i : nat) :
  length adjust = 24%nat -> length adjust_weight = 24%nat -> (i < 24)%nat ->
  exists adjust',
    LoadAkkudoktor.mean_at adjust adjust_weight (Z.of_nat i) = Ok adjust' /\
    length adjust' = 24%nat /\
    forall h,
      entry adjust' h
      = if (h =? i)%nat then divided adjust adjust_weight i else entry adjust h.
Proof.
  intros Ha Hw Hi. unfold LoadAkkudoktor.mean_at, divided.
  assert (Hia : (i < length adjust)%nat) by lia.
  assert (Hiw : (i < length adjust_weight)%nat) by lia.
  rewrite (NpFacts.get_in_range adjust_weight i _ (entry_lookup _ _ Hiw)).
  change (Ok ?a ≫= ?f) with (f a). cbv beta.
  destruct (Py.gt (entry adjust_weight i) 0).
  - rewrite (NpFacts.get_in_range adjust i _ (entry_lookup _ _ Hia)).
    change (Ok ?a ≫= ?f) with (f a). cbv beta.
    rewrite NpFacts.set_in_range by lia.
    eexists. split; [reflexivity |]. split; [now rewrite length_insert |].
    intros h. apply entry_insert. lia.
  - exists adjust. split; [reflexivity |]. split; [assumption |].
    intros h. now destruct (Nat.eqb_spec h i) as [-> |].
Qed.

Lemma mean_hour_spec (acc : accumulators) (i : nat) :
  hourly acc -> (i < 24)%nat ->
  exists acc',
    LoadAkkudoktor.mean_hour acc (Z.of_nat i) = Ok acc' /\
    hourly acc' /\
    forall weekday,
      weight_of weekday acc' = weight_of weekday acc /\
      forall h,
        entry (adjust_of weekday acc') h
        = if (h =? i)%nat
          then divided (adjust_of weekday acc) (weight_of weekday acc) i
          else entry (adjust_of weekday acc) h.
Proof.
  intros Hacc Hi.
  destruct (Hacc true) as [Hwd Hwdw]. destruct (Hacc false) as [Hwe Hwew].
  cbn [adjust_of weight_of] in Hwd, Hwdw, Hwe, Hwew.
  destruct (mean_at_spec _ _ i Hwd Hwdw Hi) as (weekday' & Hday & Hlen & Hentry).
  destruct (mean_at_spec _ _ i Hwe Hwew Hi) as (weekend' & Hend & Hlen' & Hentry').
  unfold LoadAkkudoktor.mean_hour. rewrite Hday, Hend.
  eexists. split; [reflexivity |]. split.
  - intros []; cbn; auto.
  - intros []; cbn; auto.
Qed.

(** The loop of lines 77-81 over the hours [a, a + n). *)
Lemma mean_loop_spec (n : nat) :
  forall (a : nat) (acc : accumulators),
    (a + n <= 24)%nat -> hourly acc ->
    exists acc',
      LoadAkkudoktor.mean_loop (seq a n) acc = Ok acc' /\
      hourly acc' /\
      forall weekday,
        weight_of weekday acc' = weight_of weekday acc /\
        forall h,
          entry (adjust_of weekday acc') h
          = if ((a <=? h) && (h <? a + n))%nat
            then divided (adjust_of weekday acc) (weight_of weekday acc) h
            else entry (adjust_of weekday acc) h.
Proof.
  induction n as [| n IH]; intros a acc Hrange Hacc.
  - exists acc. split; [reflexivity |]. split; [assumption |].
    intros weekday. split; [reflexivity |]. intros h.
    replace ((a <=? h) && (h <? a + 0))%nat with false; [reflexivity |].
    symmetry. apply andb_false_iff.
    destruct (Nat.leb_spec a h); [right; apply Nat.ltb_ge; lia | now left].
  - assert (Ha : (a < 24)%nat) by lia.
    assert (Hrange' : (S a + n <= 24)%nat) by lia.
    destruct (mean_hour_spec acc a Hacc Ha) as (acc1 & Hstep & Hacc1 & Hone).
    destruct (IH (S a) acc1 Hrange' Hacc1) as (acc' & Hloop & Hacc' & Hrest).
    exists acc'. split; [| split; [assumption |]].
    + cbn [seq LoadAkkudoktor.mean_loop]. rewrite Hstep. exact Hloop.
    + intros weekday.
      destruct (Hone weekday) as [Hw1 He1]. destruct (Hrest weekday) as [Hw He].
      split; [congruence |]. intros h. rewrite He.
      unfold divided. rewrite Hw1, !He1.
      destruct (Nat.eqb_spec h a) as [-> | Hne].
      * replace ((S a <=? a) && (a <? S a + n))%nat with false
          by (symmetry; apply andb_false_iff; left; apply Nat.leb_gt; lia).
        replace ((a <=? a) && (a <? a + S n))%nat with true
          by (symmetry; apply andb_true_iff; split;
              [apply Nat.leb_le | apply Nat.ltb_lt]; lia).
        reflexivity.
      * replace ((S a <=? h) && (h <? S a + n))%nat
          with ((a <=? h) && (h <? a + S n))%nat; [reflexivity |].
        destruct (Nat.leb_spec a h), (Nat.leb_spec (S a) h),
          (Nat.ltb_spec h (a + S n)), (Nat.ltb_spec h (S a + n));
          try reflexivity; lia.
Qed.

Section WithClock.
Context {datetime : Type} `{DateTime datetime}.

(** The lookup of line 67 on a full-year table. *)
Lemma hourly_stats_lookup (stats : Np.table) (compare_end t : datetime) :
  year_shape stats -> in_window compare_end t ->
  exists hourly_stats,
    Np.day_hour stats (day_of_year t - 1)%Z (hour t) = Ok hourly_stats /\
    Np.get hourly_stats 0%Z = Ok (baseline_mean stats t).
Proof.
  intros [Hdays Hshape] (Hhour & Hday & _).
  assert (Hd : (Z.to_nat (day_of_year t - 1) < length stats)%nat) by lia.
  destruct (lookup_lt_is_Some_2 stats _ Hd) as [day Hlookup].
  destruct (Forall_lookup_1 _ _ _ _ Hshape Hlookup) as [Hlen Hrows].
  destruct day as [| means [| stds [| ? ?]]]; try discriminate Hlen.
  apply Forall_cons in Hrows as [Hmeans Hrows].
  apply Forall_cons in Hrows as [Hstds _].
  assert (Hm : (Z.to_nat (hour t) < length means)%nat) by lia.
  assert (Hs : (Z.to_nat (hour t) < length stds)%nat) by lia.
  assert (Hh : hour t = Z.of_nat (Z.to_nat (hour t))) by lia.
  assert (Hd' : (day_of_year t - 1)%Z = Z.of_nat (Z.to_nat (day_of_year t - 1)))
    by lia.
  set (k := Z.to_nat (hour t)) in *.
  set (d := Z.to_nat (day_of_year t - 1)) in *.
  exists [entry means k; entry stds k]. split.
  - unfold Np.day_hour. rewrite Hd', Hh.
    rewrite (NpFacts.get_in_range stats d _ Hlookup).
    change (Ok ?a ≫= ?f) with (f a). cbv beta.
    rewrite !NpFacts.mapM_cons.
    rewrite (NpFacts.get_in_range means k _ (entry_lookup means k Hm)).
    rewrite (NpFacts.get_in_range stds k _ (entry_lookup stds k Hs)).
    reflexivity.
  - unfold baseline_mean. fold d k. rewrite Hlookup.
    cbn. fold k. rewrite (entry_lookup means k Hm). reflexivity.
Qed.

(** The weight of line 68 inside the window. *)
Lemma weight_in_window (stats : Np.table) (compare_end t : datetime) :
  in_window compare_end t ->
  truediv 1 (diff_days compare_end t + 1)%Z = Ok (weight compare_end t) /\
  0 < weight compare_end t.
Proof.
  intros (_ & _ & Hdays). split.
  - unfold truediv.
    destruct (Z.eqb_spec (diff_days compare_end t + 1) 0); [lia | reflexivity].
  - unfold weight.
    assert (Hpos : 0 < inject_Z (diff_days compare_end t + 1)).
    { change 0 with (inject_Z 0). rewrite <- Zlt_Qlt. lia. }
    apply Qlt_shift_div_l; [exact Hpos | lra].
Qed.

(** One pass of the loop body adds the sample's weighted residual
    and its weight to the entries of its bucket, and to no other. *)
Lemma accumulate_sample_spec (stats : Np.table) (compare_end t : datetime)
    (x : Q) (acc : accumulators) :
  year_shape stats -> in_window compare_end t -> hourly acc ->
  exists acc',
    accumulate_sample stats compare_end t x acc = Ok acc' /\
    hourly acc' /\
    forall weekday h,
      entry (adjust_of weekday acc') h
      == entry (adjust_of weekday acc) h
         + (if in_bucket weekday h (t, x)
            then residual stats (t, x) * weight compare_end t else 0) /\
      entry (weight_of weekday acc') h
      == entry (weight_of weekday acc) h
         + (if in_bucket weekday h (t, x) then weight compare_end t else 0).
Proof.
  intros Hshape Hwin Hacc.
  destruct (hourly_stats_lookup stats compare_end t Hshape Hwin)
    as (hourly_stats & Hstats & Hmean).
  destruct (weight_in_window stats compare_end t Hwin) as [Hweight _].
  destruct Hwin as (Hhour & _).
  destruct (Hacc true) as [Hwd Hwdw]. destruct (Hacc false) as [Hwe Hwew].
  cbn [adjust_of weight_of] in Hwd, Hwdw, Hwe, Hwew.
  unfold accumulate_sample. rewrite Hstats.
  change (Ok ?a ≫= ?f) with (f a). cbv beta.
  rewrite Hweight.
  change (Ok ?a ≫= ?f) with (f a). cbv beta.
  rewrite Hmean.
  change (Ok ?a ≫= ?f) with (f a). cbv beta.
  unfold in_bucket, is_weekday, residual. cbn [fst snd].
  destruct (day_of_week t <? 5)%Z.
  - rewrite !iadd_at_hour by assumption.
    eexists. split; [reflexivity |]. split.
    + intros []; cbn [adjust_of weight_of weekday_adjust weekday_adjust_weight
                        weekend_adjust weekend_adjust_weight];
        rewrite ?length_insert; auto.
    + intros [] h; cbn [adjust_of weight_of weekday_adjust weekday_adjust_weight
                          weekend_adjust weekend_adjust_weight Bool.eqb].
      * rewrite andb_true_r. split; now apply entry_iadd.
      * rewrite andb_false_r. split; lra.
  - rewrite !iadd_at_hour by assumption.
    eexists. split; [reflexivity |]. split.
    + intros []; cbn [adjust_of weight_of weekday_adjust weekday_adjust_weight
                        weekend_adjust weekend_adjust_weight];
        rewrite ?length_insert; auto.
    + intros [] h; cbn [adjust_of weight_of weekday_adjust weekday_adjust_weight
                          weekend_adjust weekend_adjust_weight Bool.eqb].
      * rewrite andb_false_r. split; lra.
      * rewrite andb_true_r. split; now apply entry_iadd.
Qed.

(** The loop adds to every bucket the sums over its samples. *)
Lemma accumulate_spec (stats : Np.table) (compare_end : datetime)
    (totals : list Q) :
  year_shape stats ->
  forall (t : datetime) (acc : accumulators),
    Forall (fun s => in_window compare_end (fst s)) (samples_from t totals) ->
    hourly acc ->
    exists acc',
      accumulate stats compare_end totals t acc = Ok acc' /\
      hourly acc' /\
      forall weekday h,
        let bucket := List.filter (in_bucket weekday h) (samples_from t totals) in
        entry (adjust_of weekday acc') h
        == entry (adjust_of weekday acc) h
           + weighted_residual_sum stats compare_end bucket /\
        entry (weight_of weekday acc') h
        == entry (weight_of weekday acc) h + weight_sum compare_end bucket.
Proof.
  intros Hshape. induction totals as [| x totals IH]; intros t acc Hwin Hacc.
  - exists acc. split; [reflexivity |]. split; [assumption |].
    intros weekday h. cbn. split; lra.
  - cbn [samples_from] in Hwin. apply Forall_cons in Hwin as [Ht Hrest].
    cbn [fst] in Ht.
    destruct (accumulate_sample_spec stats compare_end t x acc Hshape Ht Hacc)
      as (acc1 & Hstep & Hacc1 & Hsum1).
    destruct (IH (dt_add t one_hour) acc1 Hrest Hacc1) as (acc' & Hloop & Hacc' & Hsum).
    exists acc'. split; [| split; [assumption |]].
    + cbn [accumulate]. rewrite Hstep. exact Hloop.
    + intros weekday h. cbv zeta.
      destruct (Hsum1 weekday h) as [Ha1 Hw1].
      destruct (Hsum weekday h) as [Ha Hw].
      cbn [samples_from List.filter].
      destruct (in_bucket weekday h (t, x));
        unfold weighted_residual_sum, weight_sum, Qsum in *;
        cbn [map foldr fst]; split; lra.
Qed.

(** Inside the window every weight is positive: a bucket without
    weight is an empty bucket. *)
Lemma bucket_weight (compare_end : datetime) (keep : datetime * Q -> bool)
    (samples : list (datetime * Q)) :
  Forall (fun s => in_window compare_end (fst s)) samples ->
  0 <= weight_sum compare_end (List.filter keep samples) /\
  (weight_sum compare_end (List.filter keep samples) <= 0 ->
   List.filter keep samples = []).
Proof.
  induction 1 as [| s samples Hs _ IH]; [cbn; split; [lra | reflexivity] |].
  cbn [List.filter]. destruct (keep s); [| exact IH].
  destruct (weight_in_window [] compare_end (fst s) Hs) as [_ Hpos].
  unfold weight_sum, Qsum in *. cbn [map foldr]. split; [lra |].
  intros Hle. exfalso. lra.
Qed.

(** C6 (no measurement).  When the measurement series has no
    [max_datetime], [_calculate_adjustment] returns two vectors of
    24 zeros, whatever the rest of the series and the statistics
    table hold: [min_datetime], [load_total] and the table are not
    consulted. *)
Theorem calculate_adjustment_no_measurement (self : measurement datetime)
    (data_year_energy : Np.table) :
  max_datetime self = None ->
  _calculate_adjustment self data_year_energy = Ok (Np.zeros 24, Np.zeros 24) /\
  length (Np.zeros 24) = 24%nat /\
  Forall (fun x => x = 0) (Np.zeros 24).
Proof.
  intros Hmax. unfold _calculate_adjustment. rewrite Hmax.
  split; [reflexivity |]. split; [reflexivity |].
  unfold Np.zeros. apply Forall_replicate. reflexivity.
Qed.


End WithClock.

End CalibrationProofs.

(** ** The calibration on a concrete series *)

Module CalibrationScenarios.
Import Py LoadAkkudoktor CalibrationSpec CalibrationProofs Examples.

Lemma flat_year_shape (mean std : Q) : year_shape (flat_year mean std).
Proof.
  unfold year_shape, flat_year. split; [apply length_replicate |].
  apply Forall_replicate. split; [reflexivity |].
  repeat constructor; apply length_replicate.
Qed.

Lemma in_window_check_sound (compare_end : Z) (samples : list (Z * Q)) :
  forallb (in_window_check compare_end) samples = true ->
  Forall (fun s => in_window compare_end (fst s)) samples.
Proof.
  intros Hall. apply List.Forall_forall. intros s Hs.
  pose proof (proj1 (forallb_forall _ _) Hall s Hs) as Hcheck.
  unfold in_window_check in Hcheck.
  repeat (apply andb_true_iff in Hcheck as [Hcheck ?]).
  unfold in_window. repeat split;
    first [now apply Z.leb_le | now apply Z.ltb_lt].
Qed.

(** The window of [two_days] is the whole series: it is shorter than
    seven days. *)
Example two_days_window :
  map fst (window_samples two_days (monday + 25)%Z)
  = map (fun i => (monday + Z.of_nat i)%Z) (seq 0 26).
Proof. vm_compute. reflexivity. Qed.

(** Midnight has two weekday samples: Monday with residual 30 and
    weight 1/2, Tuesday with residual 60 and weight 1; three o'clock
    has Monday's alone; there is no weekend sample. *)
Example two_days_adjustment :
  exists weekday weekend,
    _calculate_adjustment two_days (flat_year 100 10) = Ok (weekday, weekend) /\
    entry weekday 0 == 50 /\ entry weekday 3 == 30 /\ entry weekend 0 == 0.
Proof.
  eexists _, _. split; [vm_compute; reflexivity |].
  repeat split; q_eval.
Qed.


Lemma calculate_adjustment_no_measurement_witness :
  _calculate_adjustment no_measurement (flat_year 100 10)
  = Ok (Np.zeros 24, Np.zeros 24).
Proof.
  apply (calculate_adjustment_no_measurement no_measurement (flat_year 100 10)).
  reflexivity.
Defined.

End CalibrationScenarios.

(** ** Construction and setup of the inverter *)

Module InverterSetupProofs.
Import InverterSetup.

Section WithBattery.
Context {B : Type}.

Lemma setup_keeps_flag (cfg : config) (self self' : object B) :
  setup cfg self = Ok self' -> initialised self' = initialised self.
Proof.
  unfold setup, getattr. destruct (initialised self) eqn:Hflag.
  - intros [= <-]. exact Hflag.
  - destruct (provider_id self).
    + destruct (cfg !! _); [| discriminate]. now intros [= <-].
    + destruct (parameters self); [| discriminate]. now intros [= <-].
Qed.

Lemma init_flag (cfg : config) (predictor : Q -> Q -> Q)
    (params : option InverterParameters) (battery : option B)
    (id : option string) (self : object B) :
  __init__ cfg predictor params battery id = Ok self ->
  initialised self = false /\
  provider_id self = id /\ parameters self = params /\
  battery = Some (akku self) /\
  self_consumption_predictor self = predictor /\
  prefix self = match id with
                | Some id => if String.eqb id "GenericInverter"
                             then "inverter"%string else "<invalid>"%string
                | None => "<invalid>"%string
                end.
Proof.
  unfold __init__. destruct battery as [b |]; [| discriminate].
  destruct params as [p |].
  - unfold setup, getattr; cbn [initialised provider_id parameters prefix].
    destruct id as [id |].
    + destruct (cfg !! _); [| discriminate]. intros [= <-]. cbn. repeat split.
    + intros [= <-]. cbn. repeat split.
  - intros [= <-]. cbn. repeat split.
Qed.

(** X1.  [Inverter(...)] fails with [NotImplementedError] exactly
    when no battery is given, and with [AttributeError] exactly when a
    battery, parameters and a provider id are given and the
    configuration has no attribute [<prefix>_power_max] (the prefix
    being [inverter] for the id [GenericInverter] and [<invalid>] for
    every other id); the [ValueError] of [setup] cannot leave the
    constructor. *)
Theorem init_errors (cfg : config) (predictor : Q -> Q -> Q)
    (params : option InverterParameters) (battery : option B)
    (id : option string) :
  let r := __init__ cfg predictor params battery id in
  (r = Err NotImplementedError <-> battery = None) /\
  (r = Err AttributeError <->
   battery <> None /\ params <> None /\
   exists name, id = Some name /\
     cfg !! ((if String.eqb name "GenericInverter"
              then "inverter" else "<invalid>") ++ "_power_max")%string = None) /\
  r <> Err ValueError /\
  r <> Err ValidationError.
Proof.
  cbv zeta. unfold __init__.
  destruct battery as [b |].
  2: { repeat split; try discriminate; try tauto.
       all: try (intros (Hb & _); congruence). }
  destruct params as [p |].
  2: { repeat split; try discriminate.
       all: try (intros (_ & Hp & _); congruence). }
  unfold setup, getattr; cbn [initialised provider_id parameters prefix].
  destruct id as [name |].
  - destruct (cfg !! _) as [v |] eqn:Hv.
    + repeat split; try discriminate.
      all: try (intros (_ & _ & name' & [= <-] & Hnone); congruence).
    + repeat split; try discriminate.
      all: try (exists name; split; [reflexivity | exact Hv]).
  - repeat split; try discriminate.
    all: try (intros (_ & _ & name' & Hname & _); discriminate).
Qed.

(** X2.  Which capacity a constructed inverter has.  Without
    parameters [setup] is not run and [max_power_wh] stays unset, also
    when a provider id is given; with parameters and no provider id it
    is the parameters' value; with parameters and a provider id it is
    the configuration's [<prefix>_power_max], and the parameters' value
    is not used. *)
Theorem init_capacity (cfg : config) (predictor : Q -> Q -> Q)
    (params : option InverterParameters) (battery : option B)
    (id : option string) (self : object B) :
  __init__ cfg predictor params battery id = Ok self ->
  match params, id with
  | None, _ => max_power_wh self = None
  | Some p, None => max_power_wh self = Some (parameters_max_power_wh p)
  | Some _, Some _ =>
      max_power_wh self = cfg !! (prefix self ++ "_power_max")%string
  end.
Proof.
  intros Hinit. destruct (init_flag _ _ _ _ _ _ Hinit) as (_ & _ & _ & _ & _ & Hprefix).
  revert Hinit. unfold __init__.
  destruct battery as [b |]; [| discriminate].
  destruct params as [p |].
  - unfold setup, getattr; cbn [initialised provider_id parameters prefix].
    destruct id as [name |].
    + rewrite Hprefix.
      destruct (cfg !! _) as [v |]; [| discriminate]. now intros [= <-].
    + now intros [= <-].
  - now intros [= <-].
Qed.

(** X3.  [setup] never sets [initialised], so its early return is never
    taken on a constructed inverter: a later [setup] assigns the
    capacity again from the configuration it is given, whatever an
    earlier [setup] assigned. *)
Theorem setup_runs_again (cfg cfg1 cfg2 : config) (predictor : Q -> Q -> Q)
    (params : option InverterParameters) (battery : option B)
    (id : option string) (self self1 : object B) :
  __init__ cfg predictor params battery id = Ok self ->
  setup cfg1 self = Ok self1 ->
  initialised self1 = false /\
  setup cfg2 self1 = setup cfg2 self.
Proof.
  intros Hinit Hsetup.
  destruct (init_flag _ _ _ _ _ _ Hinit) as (Hflag & _).
  split; [rewrite (setup_keeps_flag _ _ _ Hsetup); exact Hflag |].
  revert Hsetup. unfold setup, getattr. rewrite Hflag.
  destruct (provider_id self) as [name |] eqn:Hid.
  - destruct (cfg1 !! _) as [v |]; [| discriminate]. intros [= <-].
    cbn [initialised provider_id prefix set_max_power_wh]. rewrite Hflag, Hid.
    now destruct (cfg2 !! _).
  - destruct (parameters self) as [p |] eqn:Hp; [| discriminate]. intros [= <-].
    cbn [initialised provider_id parameters set_max_power_wh]. rewrite Hflag, Hid, Hp.
    reflexivity.
Qed.

(** X4.  Parameters are accepted exactly when their capacity is
    positive (10000 when none is given), and an inverter constructed
    from accepted parameters without a provider id is ready to run
    with that positive capacity. *)
Theorem parameters_capacity_positive (cfg : config) (predictor : Q -> Q -> Q)
    (value : option Q) (b : B) :
  (new_parameters value = Err ValidationError <-> default 10000 value <= 0) /\
  (0 < default 10000 value ->
   exists p self,
     new_parameters value = Ok p /\
     __init__ cfg predictor (Some p) (Some b) None = Ok self /\
     ready self = Some (Inverter.mk (default 10000 value) b predictor)).
Proof.
  unfold new_parameters.
  destruct (PyFacts.gt_spec (default 10000 value) 0) as [Hpos | Hnon].
  - split; [split; [discriminate | lra] |].
    intros _. eexists _, _. repeat split.
  - split; [split; [lra | reflexivity] |]. intros Hpos. lra.
Qed.

End WithBattery.

End InverterSetupProofs.

(** ** The calls that [process_energy] makes to the battery *)

Module BatteryLogProofs.
Import Inverter InverterProofs BatteryLog.

Section WithBattery.
Context {B : Type} (P : BatteryPort B).

Lemma cover_remaining_load_logged (b : B) (log : list call) (evq : Q) (hour : Z)
    (l0 i0 : Q) :
  @cover_remaining_load _ (recording P) (b, log) evq hour l0 i0
  = (fst (@cover_remaining_load _ P b evq hour l0 i0),
     (snd (@cover_remaining_load _ P b evq hour l0 i0),
      log ++ (if Py.gt evq 0
              then [Discharge evq hour
                      (fst (fst (@discharge_energy _ P b evq hour)))
                      (snd (fst (@discharge_energy _ P b evq hour)))]
              else []))).
Proof.
  unfold cover_remaining_load. destruct (Py.gt evq 0).
  - cbn [recording discharge_energy fst snd].
    destruct (@discharge_energy _ P b evq hour) as [[fb dl] b'].
    cbn [fst snd]. now destruct (Py.gt (evq - fb) 0).
  - cbn [fst snd]. now rewrite app_nil_r.
Qed.

Lemma charge_and_export_logged (b : B) (log : list call) (cap consumption power : Q)
    (hour : Z) (e0 l0 : Q) :
  @charge_and_export _ (recording P) (b, log) cap consumption power hour e0 l0
  = (fst (@charge_and_export _ P b cap consumption power hour e0 l0),
     (snd (@charge_and_export _ P b cap consumption power hour e0 l0),
      log ++ (if Py.gt power 0
              then [Charge power hour
                      (fst (fst (@charge_energy _ P b power hour)))
                      (snd (fst (@charge_energy _ P b power hour)))]
              else []))).
Proof.
  unfold charge_and_export. destruct (Py.gt power 0).
  - cbn [recording charge_energy fst snd].
    destruct (@charge_energy _ P b power hour) as [[ch cl] b'].
    cbn [fst snd]. now destruct (Py.gt (power - (ch + cl)) (cap - consumption)).
  - cbn [fst snd]. now rewrite app_nil_r.
Qed.

(** The recording battery does not change what [process_energy]
    returns, and its log is the discharge request of the hour, if any,
    followed by the charge request, if any. *)
Lemma process_energy_logged (self : t B) (generation consumption : Q) (hour : Z) :
  let out := @process_energy _ (recording P) (logged self) generation consumption hour in
  fst out = fst (@process_energy _ P self generation consumption hour) /\
  fst (snd out) = snd (@process_energy _ P self generation consumption hour) /\
  snd (snd out) =
    if Py.ge generation consumption then
      if Py.gt consumption (max_power_wh self) then []
      else
        let scr := self_consumption_predictor self consumption generation in
        let power := (generation - consumption) * scr in
        let evq := (generation - consumption) * (1 - scr) in
        let d := @discharge_energy _ P (akku self) evq hour in
        let b1 := if Py.gt evq 0 then snd d else akku self in
        let c := @charge_energy _ P b1 power hour in
        (if Py.gt evq 0
         then [Discharge evq hour (fst (fst d)) (snd (fst d))] else [])
        ++ (if Py.gt power 0
            then [Charge power hour (fst (fst c)) (snd (fst c))] else [])
    else
      let request :=
        Py.min (consumption - generation)
               (Py.max (max_power_wh self - generation) 0) in
      let d := @discharge_energy _ P (akku self) request hour in
      [Discharge request hour (fst (fst d)) (snd (fst d))].
Proof.
  cbv zeta.
  rewrite (@process_energy_by_steps _ (recording P)), (@process_energy_by_steps _ P).
  unfold process_energy_steps, logged.
  cbn [max_power_wh akku self_consumption_predictor]. cbv zeta.
  destruct (Py.ge generation consumption).
  - destruct (Py.gt consumption (max_power_wh self)); [cbn [fst snd]; repeat split |].
    set (scr := self_consumption_predictor self consumption generation).
    set (power := (generation - consumption) * scr).
    set (evq := (generation - consumption) * (1 - scr)).
    rewrite cover_remaining_load_logged. rewrite app_nil_l.
    assert (Hb1 : snd (@cover_remaining_load _ P (akku self) evq hour 0 0)
                  = if Py.gt evq 0
                    then snd (@discharge_energy _ P (akku self) evq hour)
                    else akku self).
    { unfold cover_remaining_load. destruct (Py.gt evq 0); [| reflexivity].
      destruct (@discharge_energy _ P (akku self) evq hour) as [[fb dl] b'].
      cbn [snd]. now destruct (Py.gt (evq - fb) 0). }
    rewrite <- Hb1.
    destruct (@cover_remaining_load _ P (akku self) evq hour 0 0) as [[[fb l1] gi] b1].
    cbn [fst snd].
    rewrite charge_and_export_logged.
    destruct (@charge_and_export _ P b1 (max_power_wh self) consumption power hour 0 l1)
      as [[e l2] b2].
    cbn [fst snd]. repeat split.
  - cbn [recording discharge_energy fst snd].
    destruct (@discharge_energy _ P (akku self) _ hour) as [[d dl] b'].
    cbn [fst snd]. repeat split.
Qed.

(** X5.  In any hour, for any inputs, [process_energy] makes at most
    one [discharge_energy] call followed by at most one [charge_energy]
    call, in that order, each with the hour it was given and with a
    requested amount that is not negative. *)
Theorem process_energy_battery_calls (self : t B) (generation consumption : Q)
    (hour : Z) :
  let log :=
    snd (snd (@process_energy _ (recording P) (logged self)
                generation consumption hour)) in
  exists discharges charges,
    log = discharges ++ charges /\
    (length discharges <= 1)%nat /\ (length charges <= 1)%nat /\
    Forall (fun c => is_charge c = false) discharges /\
    Forall (fun c => is_charge c = true) charges /\
    Forall (fun c => 0 <= requested c /\ call_hour c = hour) log.
Proof.
  cbv zeta.
  destruct (process_energy_logged self generation consumption hour) as (_ & _ & ->).
  destruct (PyFacts.ge_spec generation consumption) as [Hge | Hlt].
  - destruct (Py.gt consumption (max_power_wh self)).
    + exists [], []. repeat split; auto.
    + cbv zeta. eexists _, _. split; [reflexivity |].
      do 2 py_case; cbn; repeat split; auto; repeat constructor; cbn; lra.
  - eexists _, []. split; [symmetry; apply app_nil_r |].
    cbn. repeat split; auto; repeat constructor; cbn.
    apply PyFacts.min_nonneg; [lra |].
    apply (PyFacts.max_lower (max_power_wh self - generation) 0).
Qed.

(** X6.  In a deficit hour the battery receives exactly one discharge
    request and no charge request.  The request is at most the
    shortfall and at most the headroom
    [max(max_power_wh - generation, 0)]; when generation already
    reaches the capacity it is a request for 0. *)
Theorem process_energy_deficit_request (self : t B) (generation consumption : Q)
    (hour : Z) :
  generation < consumption ->
  exists request discharged discharge_losses,
    snd (snd (@process_energy _ (recording P) (logged self)
                generation consumption hour))
    = [Discharge request hour discharged discharge_losses] /\
    request <= consumption - generation /\
    request <= Py.max (max_power_wh self - generation) 0 /\
    (max_power_wh self <= generation -> request == 0).
Proof.
  intros Hlt.
  destruct (process_energy_logged self generation consumption hour) as (_ & _ & ->).
  destruct (PyFacts.ge_spec generation consumption) as [Hge | _]; [lra |].
  cbv zeta. eexists _, _, _. split; [reflexivity |].
  pose proof (PyFacts.min_upper (consumption - generation)
                (Py.max (max_power_wh self - generation) 0)) as [Hs Hh].
  split; [exact Hs |]. split; [exact Hh |].
  intros Hfull.
  assert (Hzero : Py.max (max_power_wh self - generation) 0 == 0).
  { unfold Py.max. py_case; lra. }
  unfold Py.min in *. revert Hs Hh. py_case; intros; lra.
Qed.

End WithBattery.

End BatteryLogProofs.

(** ** Setup and calls on concrete inverters *)

Module InverterMoreScenarios.
Import Inverter InverterProofs BatteryLog BatteryLogProofs Examples.

(** A provider id other than [GenericInverter] has the prefix
    [<invalid>]: the capacity is looked up under a name that the
    configuration does not have. *)
Example other_provider_fails :
  @InverterSetup.__init__ nat {[ "inverter_power_max"%string := 5000 ]}
    (fun _ _ => 1) (Some {| InverterSetup.parameters_max_power_wh := 10000 |})
    (Some 0%nat) (Some "OtherInverter"%string)
  = InverterSetup.Err InverterSetup.AttributeError.
Proof. vm_compute. reflexivity. Qed.

Lemma init_errors_witness :
  @InverterSetup.__init__ nat {[ "inverter_power_max"%string := 5000 ]}
    (fun _ _ => 1) (Some {| InverterSetup.parameters_max_power_wh := 10000 |})
    None (Some "GenericInverter"%string)
  = InverterSetup.Err InverterSetup.NotImplementedError.
Proof.
  apply (InverterSetupProofs.init_errors
           {[ "inverter_power_max"%string := 5000 ]} (fun _ _ => 1)
           (Some {| InverterSetup.parameters_max_power_wh := 10000 |})
           (@None nat) (Some "GenericInverter"%string)).
  reflexivity.
Defined.

Lemma init_capacity_witness :
  exists self,
    @InverterSetup.__init__ nat {[ "inverter_power_max"%string := 5000 ]}
      (fun _ _ => 1) (Some {| InverterSetup.parameters_max_power_wh := 10000 |})
      (Some 0%nat) (Some "GenericInverter"%string)
    = InverterSetup.Ok self /\
    InverterSetup.max_power_wh self = Some 5000.
Proof.
  eexists. split; [vm_compute; reflexivity |].
  exact (InverterSetupProofs.init_capacity
           {[ "inverter_power_max"%string := 5000 ]} (fun _ _ => 1)
           (Some {| InverterSetup.parameters_max_power_wh := 10000 |})
           (Some 0%nat) (Some "GenericInverter"%string) _ eq_refl).
Defined.

Lemma setup_runs_again_witness :
  exists self self1,
    @InverterSetup.__init__ nat ∅ (fun _ _ => 1) None
      (Some 0%nat) (Some "GenericInverter"%string) = InverterSetup.Ok self /\
    InverterSetup.setup {[ "inverter_power_max"%string := 5000 ]} self
    = InverterSetup.Ok self1 /\
    InverterSetup.initialised self1 = false /\
    InverterSetup.setup {[ "inverter_power_max"%string := 7000 ]} self1
    = InverterSetup.setup {[ "inverter_power_max"%string := 7000 ]} self.
Proof.
  eexists _, _. split; [vm_compute; reflexivity |].
  split; [vm_compute; reflexivity |].
  eapply (InverterSetupProofs.setup_runs_again ∅
            {[ "inverter_power_max"%string := 5000 ]}
            {[ "inverter_power_max"%string := 7000 ]}
            (fun _ _ => 1) None (Some 0%nat) (Some "GenericInverter"%string));
    vm_compute; reflexivity.
Defined.

Lemma parameters_capacity_positive_witness :
  exists p self,
    InverterSetup.new_parameters None = InverterSetup.Ok p /\
    @InverterSetup.__init__ nat ∅ (fun _ _ => 1) (Some p) (Some 0%nat) None
    = InverterSetup.Ok self /\
    InverterSetup.ready self = Some (Inverter.mk 10000 0%nat (fun _ _ => 1)).
Proof.
  apply (proj2 (InverterSetupProofs.parameters_capacity_positive
                  ∅ (fun _ _ => 1) None 0%nat)).
  q_eval.
Defined.

(** Half of the surplus goes each way: one discharge request, then
    one charge request. *)
Example surplus_hour_calls :
  snd (snd (@process_energy _ (recording ideal_battery)
              (logged (inverter 0 (1 # 2))) 8000 3000 12))
  = [Discharge ((8000 - 3000) * (1 - (1 # 2))) 12
       ((8000 - 3000) * (1 - (1 # 2))) 0;
     Charge ((8000 - 3000) * (1 # 2)) 12 ((8000 - 3000) * (1 # 2)) 0].
Proof. reflexivity. Qed.

Lemma process_energy_deficit_request_witness :
  exists request discharged discharge_losses,
    snd (snd (@process_energy _ (recording ideal_battery)
                (logged (inverter 0 1)) 12000 15000 12))
    = [Discharge request 12 discharged discharge_losses] /\
    request <= 15000 - 12000 /\
    request <= Py.max (10000 - 12000) 0 /\
    (10000 <= 12000 -> request == 0).
Proof.
  apply (process_energy_deficit_request ideal_battery (inverter 0 1) 12000 15000 12).
  q_eval.
Defined.

(** The clamp at work: 17000 of surplus, 7000 of headroom, 10000 lost. *)
Example clamped_hour :
  flows_eq (fst (@process_energy nat idle_battery (inverter 0%nat 1) 20000 3000 12))
           (7000, 0, 10000, 3000).
Proof. repeat split; q_eval. Qed.

End InverterMoreScenarios.

(** ** Rounding *)

Module FpFacts.
Import Fp.

Lemma fge_spec (rnd rnd_mul : Q -> Q) (a b : Q) :
  reflect (b <= a) (fge (A := rounded rnd rnd_mul) a b).
Proof. apply PyFacts.ge_spec. Qed.

Lemma fgt_spec (rnd rnd_mul : Q -> Q) (a b : Q) :
  reflect (b < a) (fgt (A := rounded rnd rnd_mul) a b).
Proof. apply PyFacts.gt_spec. Qed.

Lemma flt_spec (rnd rnd_mul : Q -> Q) (a b : Q) :
  reflect (a < b) (@flt Q (rounded rnd rnd_mul) a b).
Proof. apply PyFacts.gt_spec. Qed.

Lemma pow_nonneg (a : Q) (k : nat) : 0 <= a -> 0 <= pow a k.
Proof. intros Ha. induction k as [| k IH]; cbn [pow]; [lra | nra]. Qed.

Lemma pow_le_one (a : Q) (k : nat) : 0 <= a <= 1 -> pow a k <= 1.
Proof.
  intros Ha. pose proof (pow_nonneg a k (proj1 Ha)).
  induction k as [| k IH]; cbn [pow] in *; [lra |].
  pose proof (pow_nonneg a k (proj1 Ha)). nra.
Qed.

Lemma pow_ge_one (a : Q) (k : nat) : 1 <= a -> 1 <= pow a k.
Proof. intros Ha. induction k as [| k IH]; cbn [pow]; [lra | nra]. Qed.

Lemma pow_add (a : Q) (j k : nat) : pow a (j + k) == pow a j * pow a k.
Proof.
  induction j as [| j IH]; cbn [pow Nat.add]; [lra |]. rewrite IH. lra.
Qed.

Section Rounding.
Variables (u : Q) (rnd : Q -> Q).
Hypothesis Hrnd : rounding u rnd.

Lemma rnd_nonneg (x : Q) : 0 <= x -> (1 - u) * x <= rnd x <= (1 + u) * x.
Proof.
  intros Hx. pose proof (rnd_error u rnd Hrnd x) as He.
  rewrite (Qabs_pos x Hx) in He.
  apply Qabs_Qle_condition in He. lra.
Qed.

Lemma rnd_nonpos (x : Q) : x <= 0 -> (1 + u) * x <= rnd x <= (1 - u) * x.
Proof.
  intros Hx. pose proof (rnd_error u rnd Hrnd x) as He.
  rewrite (Qabs_neg x Hx) in He.
  apply Qabs_Qle_condition in He. lra.
Qed.

Lemma rnd_sign (x : Q) : (0 <= x -> 0 <= rnd x) /\ (x <= 0 -> rnd x <= 0).
Proof.
  destruct (unit_roundoff u rnd Hrnd) as [Hu0 Hu1].
  split; intros Hx.
  - pose proof (rnd_nonneg x Hx). nra.
  - pose proof (rnd_nonpos x Hx). nra.
Qed.

(** Exact arithmetic is the case [u = 0]. *)
Lemma rnd_exact (x : Q) : u == 0 -> rnd x == x.
Proof.
  intros Hu. pose proof (rnd_error u rnd Hrnd x) as He.
  apply Qabs_Qle_condition in He. nra.
Qed.

Lemma within_rnd (x : Q) : 0 <= x -> within u 1 (rnd x) x.
Proof. intros Hx. unfold within. cbn [pow]. pose proof (rnd_nonneg x Hx). lra. Qed.

Lemma within_refl (k : nat) (x T : Q) : 0 <= T -> x == T -> within u k x T.
Proof.
  destruct (unit_roundoff u rnd Hrnd) as [Hu0 Hu1].
  intros HT Hx. unfold within.
  assert (Hlo : 0 <= 1 - u <= 1) by lra.
  pose proof (pow_le_one (1 - u) k Hlo).
  pose proof (pow_ge_one (1 + u) k ltac:(lra)).
  nra.
Qed.

Lemma within_trans (j k : nat) (x y T : Q) :
  within u j x y -> within u k y T -> within u (j + k) x T.
Proof.
  destruct (unit_roundoff u rnd Hrnd) as [Hu0 Hu1].
  unfold within. intros [Hx1 Hx2] [Hy1 Hy2]. rewrite !pow_add.
  pose proof (pow_nonneg (1 - u) j ltac:(lra)).
  pose proof (pow_nonneg (1 + u) j ltac:(lra)).
  set (p := pow (1 - u) j) in *. set (q := pow (1 + u) j) in *.
  set (lo := pow (1 - u) k * T) in *. set (hi := pow (1 + u) k * T) in *.
  split.
  - apply Qle_trans with (p * y); [| exact Hx1].
    rewrite <- Qmult_assoc. fold lo. nra.
  - apply Qle_trans with (q * y); [exact Hx2 |].
    rewrite <- Qmult_assoc. fold hi. nra.
Qed.

Lemma within_add (k : nat) (x y T1 T2 : Q) :
  within u k x T1 -> within u k y T2 -> within u k (x + y) (T1 + T2).
Proof. unfold within. intros [? ?] [? ?]. split; lra. Qed.

Lemma within_eq (k : nat) (x x' T T' : Q) :
  x == x' -> T == T' -> within u k x T -> within u k x' T'.
Proof. unfold within. intros Hx HT. rewrite Hx, HT. auto. Qed.

Lemma within_target (k : nat) (x T T' : Q) :
  T == T' -> within u k x T -> within u k x T'.
Proof. intros HT. now apply within_eq. Qed.

Lemma within_nonneg (k : nat) (x T : Q) : 0 <= T -> within u k x T -> 0 <= x.
Proof.
  destruct (unit_roundoff u rnd Hrnd) as [Hu0 Hu1].
  intros HT [Hlo _]. pose proof (pow_nonneg (1 - u) k ltac:(lra)). nra.
Qed.

(** One more rounding of a value that is within [k] roundings. *)
Lemma within_round (k : nat) (x T : Q) :
  0 <= T -> within u k x T -> within u (S k) (rnd x) T.
Proof.
  intros HT Hx. apply (within_trans 1 k (rnd x) x T); [| exact Hx].
  apply within_rnd. exact (within_nonneg k x T HT Hx).
Qed.

End Rounding.

(** [round_up] is a rounding of unit roundoff 1/1024, and the identity
    one of unit roundoff 0. *)
Lemma round_up_rounding : rounding (1 # 1024) FloatExamples.round_up.
Proof.
  split.
  - split; q_eval.
  - intros x y Hxy. unfold FloatExamples.round_up. now rewrite Hxy.
  - intros x. unfold FloatExamples.round_up.
    assert (He : x * (1025 # 1024) - x == x * (1 # 1024)) by lra.
    rewrite He, Qabs_Qmult. change (Qabs (1 # 1024)) with (1 # 1024). lra.
Qed.

Lemma exact_rounding : rounding 0 (fun x => x).
Proof.
  split.
  - split; q_eval.
  - auto.
  - intros x. assert (He : x - x == 0) by lra.
    rewrite He, Qmult_0_l. apply Qle_refl.
Qed.

End FpFacts.
(** The float operations of the rounded arithmetic, unfolded. *)
Ltac fp_ops :=
  cbn [Fp.fzero Fp.fone Fp.fadd Fp.fsub Fp.fmul Fp.fopp Fp.rounded] in *.

(** ** The inverter on floats *)

Module FloatInverterProofs.
Import Fp FpFacts FloatInverter.


Section AnyArith.
Context {F B : Type} (A : Arith F) (P : BatteryPort F B).




End AnyArith.

Lemma fmin_upper (rnd rnd_mul : Q -> Q) (a b : Q) :
  fmin (A := rounded rnd rnd_mul) a b <= a /\
  fmin (A := rounded rnd rnd_mul) a b <= b.
Proof. unfold fmin. destruct (flt_spec rnd rnd_mul b a); lra. Qed.

Lemma fmin_nonneg (rnd rnd_mul : Q -> Q) (a b : Q) :
  0 <= a -> 0 <= b -> 0 <= fmin (A := rounded rnd rnd_mul) a b.
Proof. unfold fmin. destruct (flt_spec rnd rnd_mul b a); lra. Qed.

Lemma fmax_zero (rnd rnd_mul : Q -> Q) (a : Q) :
  0 <= fmax (A := rounded rnd rnd_mul) a 0 /\
  a <= fmax (A := rounded rnd rnd_mul) a 0 /\
  (0 <= a -> fmax (A := rounded rnd rnd_mul) a 0 == a) /\
  (a <= 0 -> fmax (A := rounded rnd rnd_mul) a 0 == 0).
Proof. unfold fmax. destruct (fgt_spec rnd rnd_mul 0 a); repeat split; intros; lra. Qed.

Section Rounded.
Variables (u : Q) (rnd rnd_mul : Q -> Q).
Hypothesis Hrnd : rounding u rnd.
Context {B : Type} (P : BatteryPort Q B).

(** The balance of lines 131-132: generation plus discharge, and
    shortfall minus discharge, add up to the consumption up to two
    roundings. *)
Lemma deficit_balance (generation consumption discharged : Q) :
  0 <= generation -> generation < consumption ->
  0 <= discharged <= rnd (consumption - generation) ->
  within u 2 (rnd (generation + discharged)
              + rnd (rnd (consumption - generation) - discharged)) consumption.
Proof.
  intros Hg Hlt [Hd0 Hd1].
  set (shortfall := rnd (consumption - generation)) in *.
  assert (Hs : within u 1 shortfall (consumption - generation))
    by (apply (within_rnd u rnd Hrnd); lra).
  assert (Hsum : within u 1 (rnd (generation + discharged) + rnd (shortfall - discharged))
                   (generation + shortfall)).
  { apply (within_target u 1 _ (generation + discharged + (shortfall - discharged)));
      [lra |].
    apply within_add; apply (within_rnd u rnd Hrnd); lra. }
  apply (within_target u 2 _ (generation + (consumption - generation))); [lra |].
  apply (within_trans u rnd Hrnd 1 1 _ (generation + shortfall) _ Hsum).
  apply within_add; [| exact Hs].
  apply (within_refl u rnd Hrnd); [exact Hg | reflexivity].
Qed.

(** C3 (deficit branch).  When generation is below consumption and the
    battery delivers between 0 and the request
    [min(shortfall, max(max_power_wh - generation, 0))], nothing is
    exported, self-consumption is generation plus the delivered
    energy, grid import is the shortfall minus the delivered energy,
    and the losses are the discharge losses that the battery reports,
    each as a float.  For a generation that is not negative,
    self-consumption and grid import add up to the consumption up to
    two roundings, and their float sum up to three; they add up to it
    exactly in exact arithmetic. *)
Theorem process_energy_deficit_rounded (self : t Q B) (generation consumption : Q)
    (hour : Z) :
  generation < consumption ->
  let r := fst (process_energy (A := rounded rnd rnd_mul) (P := P)
                  self generation consumption hour) in
  let shortfall := rnd (consumption - generation) in
  let request :=
    fmin (A := rounded rnd rnd_mul) shortfall
      (fmax (A := rounded rnd rnd_mul) (rnd (max_power_wh self - generation)) 0) in
  let discharged := fst (fst (discharge_energy (akku self) request hour)) in
  let discharge_losses := snd (fst (discharge_energy (akku self) request hour)) in
  0 <= discharged <= request ->
  grid_export r == 0 /\
  self_consumption r == rnd (generation + discharged) /\
  grid_import r == rnd (shortfall - discharged) /\
  losses r == rnd discharge_losses /\
  (0 <= generation ->
   within u 2 (self_consumption r + grid_import r) consumption /\
   within u 3 (rnd (self_consumption r + grid_import r)) consumption) /\
  (u == 0 ->
   self_consumption r + grid_import r == consumption /\
   losses r == discharge_losses).
Proof.
  intros Hlt. cbv zeta. unfold process_energy.
  destruct (fge_spec rnd rnd_mul generation consumption) as [Hn | _]; [lra |].
  fp_ops.
  set (shortfall := rnd (consumption - generation)).
  set (request := fmin shortfall _).
  destruct (discharge_energy (akku self) request hour) as [[d dl] b'].
  cbn [fst snd grid_export grid_import losses self_consumption].
  intros [Hd0 Hd1].
  assert (Hshort : 0 < consumption - generation) by lra.
  pose proof (fmin_upper rnd rnd_mul shortfall
                (fmax (A := rounded rnd rnd_mul)
                   (rnd (max_power_wh self - generation)) 0)) as [Hreq _].
  fold request in Hreq.
  split; [reflexivity |]. split; [reflexivity |]. split; [reflexivity |].
  split; [apply (rnd_proper u rnd Hrnd); lra |].
  split.
  - intros Hg.
    assert (Hbal : within u 2 (rnd (generation + d) + rnd (shortfall - d)) consumption).
    { apply deficit_balance; [exact Hg | exact Hlt |].
      split; [exact Hd0 | change (d <= shortfall); lra]. }
    split; [exact Hbal |].
    apply (within_round u rnd Hrnd 2); [lra | exact Hbal].
  - intros Hu. rewrite !(rnd_exact u rnd Hrnd _ Hu).
    unfold shortfall. rewrite (rnd_exact u rnd Hrnd _ Hu). split; lra.
Qed.









(** X8.  With a battery that keeps its contract and generation,
    consumption and capacity that are not negative, the load is covered
    in every branch up to rounding: self-consumption and grid import
    together are at least the consumption less two roundings, and
    their float sum is at least the consumption less three. *)
Theorem process_energy_covers_load_rounded (self : t Q B)
    (generation consumption : Q) (hour : Z) :
  battery_contract P ->
  0 <= generation -> 0 <= consumption -> 0 <= max_power_wh self ->
  let r := fst (process_energy (A := rounded rnd rnd_mul) (P := P)
                  self generation consumption hour) in
  pow (1 - u) 2 * consumption <= self_consumption r + grid_import r /\
  pow (1 - u) 3 * consumption <= rnd (self_consumption r + grid_import r).
Proof.
  intros Hbat Hg Hc Hmp. cbv zeta.
  destruct (unit_roundoff u rnd Hrnd) as [Hu0 Hu1].
  assert (Hboth : forall x, pow (1 - u) 2 * consumption <= x ->
                   pow (1 - u) 2 * consumption <= x /\
                   pow (1 - u) 3 * consumption <= rnd x).
  { intros x Hx. split; [exact Hx |].
    pose proof (pow_nonneg (1 - u) 2 ltac:(lra)) as Hp.
    assert (Hx0 : 0 <= x) by nra.
    pose proof (rnd_nonneg u rnd Hrnd x Hx0) as [Hlo _].
    change (pow (1 - u) 3) with ((1 - u) * pow (1 - u) 2).
    set (p := pow (1 - u) 2) in *. nra. }
  apply Hboth. clear Hboth.
  assert (Hone : (1 - u) * consumption <= consumption) by nra.
  assert (Htwo : pow (1 - u) 2 * consumption <= (1 - u) * consumption)
    by (cbn [pow]; nra).
  unfold process_energy.
  destruct (fge_spec rnd rnd_mul generation consumption) as [Hge | Hlt].
  - destruct (fgt_spec rnd rnd_mul consumption (max_power_wh self)) as [Hsat | Hfit].
    + fp_ops. cbn [fst self_consumption grid_import].
      assert (Hneg : max_power_wh self - consumption <= 0) by lra.
      pose proof (rnd_nonpos u rnd Hrnd _ Hneg). nra.
    + fp_ops.
      set (evq := rnd_mul (rnd (generation - consumption) * rnd (1 - _))).
      set (power := rnd_mul _).
      assert (Hcover :
        forall fb, 0 <= fb ->
          (1 - u) * consumption <= rnd (consumption + fb)).
      { intros fb Hfb. assert (Hsum : 0 <= consumption + fb) by lra.
        pose proof (rnd_nonneg u rnd Hrnd _ Hsum). nra. }
      destruct (fgt_spec rnd rnd_mul evq 0) as [Hevq | Hevq].
      * assert (Hnn : 0 <= evq) by lra.
        pose proof (discharge_applied P Hbat (akku self) evq hour Hnn) as [Hfb _].
        destruct (discharge_energy (akku self) evq hour) as [[fb dl] b1].
        cbn [fst snd] in Hfb. specialize (Hcover fb Hfb).
        destruct (fgt_spec rnd rnd_mul (rnd (evq - fb)) 0) as [Hrest | Hrest].
        -- assert (Hin : 0 <= rnd (0 + rnd (evq - fb)))
             by (apply (rnd_sign u rnd Hrnd); lra).
           destruct (fgt power 0); [destruct (charge_energy b1 power hour) as [[ch cl] b2];
             destruct (fgt _ _) |]; cbn [fst self_consumption grid_import]; lra.
        -- destruct (fgt power 0); [destruct (charge_energy b1 power hour) as [[ch cl] b2];
             destruct (fgt _ _) |]; cbn [fst self_consumption grid_import]; lra.
      * specialize (Hcover 0 ltac:(lra)).
        destruct (fgt power 0); [destruct (charge_energy (akku self) power hour)
                                   as [[ch cl] b2]; destruct (fgt _ _) |];
          cbn [fst self_consumption grid_import]; lra.
  - fp_ops.
    set (shortfall := rnd (consumption - generation)).
    set (headroom := fmax (rnd (max_power_wh self - generation)) 0).
    set (request := fmin shortfall headroom).
    assert (Hs : 0 <= shortfall) by (apply (rnd_sign u rnd Hrnd); lra).
    pose proof (fmax_zero rnd rnd_mul (rnd (max_power_wh self - generation)))
      as (Hh0 & _).
    fold headroom in Hh0.
    pose proof (fmin_upper rnd rnd_mul shortfall headroom) as [Hreq _].
    pose proof (fmin_nonneg rnd rnd_mul shortfall headroom Hs Hh0) as Hreq0.
    fold request in Hreq, Hreq0.
    pose proof (discharge_applied P Hbat (akku self) request hour Hreq0) as [Hd0 Hd1].
    destruct (discharge_energy (akku self) request hour) as [[d dl] b'].
    cbn [fst snd self_consumption grid_import] in *.
    assert (Hlt' : generation < consumption) by lra.
    destruct (deficit_balance generation consumption d Hg Hlt') as [Hlo _];
      [fold shortfall; lra | exact Hlo].
Qed.

(** X9.  In a deficit hour with a generation that is not negative and
    a battery that keeps its contract, the inverter throughput is
    clamped: while generation is within the capacity, self-consumption
    does not exceed the capacity by more than two roundings; and when
    generation alone reaches the capacity the battery adds nothing:
    self-consumption is the generation and grid import the shortfall,
    up to rounding. *)
Theorem process_energy_throughput_rounded (self : t Q B)
    (generation consumption : Q) (hour : Z) :
  battery_contract P ->
  0 <= generation ->
  generation < consumption ->
  let r := fst (process_energy (A := rounded rnd rnd_mul) (P := P)
                  self generation consumption hour) in
  (generation <= max_power_wh self ->
   self_consumption r <= pow (1 + u) 2 * max_power_wh self) /\
  (max_power_wh self <= generation ->
   within u 1 (self_consumption r) generation /\
   within u 2 (grid_import r) (consumption - generation)).
Proof.
  intros Hbat Hg Hlt. cbv zeta.
  destruct (unit_roundoff u rnd Hrnd) as [Hu0 Hu1].
  unfold process_energy.
  destruct (fge_spec rnd rnd_mul generation consumption) as [Hn | _]; [lra |].
  fp_ops.
  set (shortfall := rnd (consumption - generation)).
  set (room := rnd (max_power_wh self - generation)).
  set (headroom := fmax room 0).
  set (request := fmin shortfall headroom).
  assert (Hs : 0 <= shortfall) by (apply (rnd_sign u rnd Hrnd); lra).
  pose proof (fmax_zero rnd rnd_mul room) as (Hh0 & _ & Hhpos & Hhneg).
  fold headroom in Hh0, Hhpos, Hhneg.
  pose proof (fmin_upper rnd rnd_mul shortfall headroom) as [_ Hreq].
  pose proof (fmin_nonneg rnd rnd_mul shortfall headroom Hs Hh0) as Hreq0.
  fold request in Hreq, Hreq0.
  pose proof (discharge_applied P Hbat (akku self) request hour Hreq0) as [Hd0 Hd1].
  destruct (discharge_energy (akku self) request hour) as [[d dl] b'].
  cbn [fst snd self_consumption grid_import] in *.
  split.
  - intros Hfit.
    assert (Hroom0 : 0 <= max_power_wh self - generation) by lra.
    pose proof (rnd_nonneg u rnd Hrnd _ Hroom0) as [Hr1 Hr2]. fold room in Hr1, Hr2.
    assert (Hroom : 0 <= room) by nra.
    specialize (Hhpos Hroom).
    assert (Hsum : 0 <= generation + d) by lra.
    pose proof (rnd_nonneg u rnd Hrnd _ Hsum) as [_ Hself].
    assert (Hin : generation + d <= (1 + u) * max_power_wh self) by nra.
    cbn [pow]. nra.
  - intros Hfull.
    assert (Hroom0 : max_power_wh self - generation <= 0) by lra.
    assert (Hroom : room <= 0) by (apply (rnd_sign u rnd Hrnd); exact Hroom0).
    specialize (Hhneg Hroom).
    assert (Hd : d == 0) by lra.
    split.
    + apply (within_eq u 1 (rnd generation) _ generation _);
        [apply (rnd_proper u rnd Hrnd); lra | reflexivity |].
      now apply (within_rnd u rnd Hrnd).
    + apply (within_eq u 2 (rnd shortfall) _ (consumption - generation) _);
        [apply (rnd_proper u rnd Hrnd); lra | reflexivity |].
      apply (within_round u rnd Hrnd 1); [lra |].
      apply (within_rnd u rnd Hrnd). lra.
Qed.

End Rounded.

End FloatInverterProofs.

(** ** The inverter on concrete floats *)

Module FloatInverterScenarios.
Import Fp FpFacts FloatInverter FloatInverterProofs FloatExamples.

(** The inverter on exact rationals is the instance without rounding. *)
Lemma exact_process_energy {B : Type} (P : Inverter.BatteryPort B)
    (self : Inverter.t B) (generation consumption : Q) (hour : Z) :
  process_energy (A := exact) (P := of_exact_port P) (of_exact self)
    generation consumption hour
  = Inverter.process_energy self generation consumption hour.
Proof. reflexivity. Qed.

Lemma float_idle_battery_contract (rnd rnd_mul : Q -> Q) :
  battery_contract (idle_battery (A := rounded rnd rnd_mul)).
Proof. split; intros b wh hour Hwh; cbn; lra. Qed.

Lemma float_ideal_battery_contract (rnd rnd_mul : Q -> Q) :
  battery_contract (ideal_battery (A := rounded rnd rnd_mul)).
Proof. split; intros b wh hour Hwh; cbn; lra. Qed.

(** In binary64 the balance of the deficit branch is not exact: with
    1234.56 Wh generated, 7890.12 Wh consumed and a battery that
    delivers nothing of the request, self-consumption plus grid import
    is 7890.119999999999, not the consumption. *)
Lemma process_energy_deficit_inexact :
  PrimFloat.ltb Binary64Examples.generation64 Binary64Examples.consumption64 = true /\
  PrimFloat.leb PrimFloat.zero Binary64Examples.request64 = true /\
  fst (fst (discharge_energy (BatteryPort := idle_battery (A := binary64))
              0%nat Binary64Examples.request64 12)) = PrimFloat.zero /\
  grid_export Binary64Examples.deficit_flows64 = PrimFloat.zero /\
  PrimFloat.eqb
    (PrimFloat.add (self_consumption Binary64Examples.deficit_flows64)
                   (grid_import Binary64Examples.deficit_flows64))
    Binary64Examples.consumption64 = false /\
  PrimFloat.eqb
    (PrimFloat.add (self_consumption Binary64Examples.deficit_flows64)
                   (grid_import Binary64Examples.deficit_flows64))
    Binary64Examples.below_consumption64 = true /\
  PrimFloat.eqb (PrimFloat.next_down Binary64Examples.consumption64)
    Binary64Examples.below_consumption64 = true.
Proof. vm_compute. repeat split. Qed.

Lemma process_energy_deficit_rounded_witness :
  grid_export deficit_flows == 0 /\
  within (1 # 1024) 2 (self_consumption deficit_flows + grid_import deficit_flows) 5000.
Proof.
  destruct (process_energy_deficit_rounded (1 # 1024) round_up round_up
              round_up_rounding (ideal_battery (A := coarse)) ideal_inverter
              2000 5000 12) as (He & _ & _ & _ & Hbal & _).
  - q_eval.
  - split; q_eval.
  - split; [exact He | apply Hbal; q_eval].
Defined.


Lemma process_energy_covers_load_rounded_witness :
  pow (1 - (1 # 1024)) 2 * 3000
  <= self_consumption clamped_flows + grid_import clamped_flows /\
  pow (1 - (1 # 1024)) 3 * 3000
  <= round_up (self_consumption clamped_flows + grid_import clamped_flows).
Proof.
  apply (process_energy_covers_load_rounded (1 # 1024) round_up round_up
           round_up_rounding (idle_battery (A := coarse)) idle_inverter 20000 3000 12).
  - apply float_idle_battery_contract.
  - q_eval.
  - q_eval.
  - q_eval.
Defined.

Lemma process_energy_throughput_rounded_witness :
  self_consumption heavy_flows <= pow (1 + (1 # 1024)) 2 * 10000.
Proof.
  destruct (process_energy_throughput_rounded (1 # 1024) round_up round_up
              round_up_rounding (ideal_battery (A := coarse)) ideal_inverter
              8000 50000 12) as [Hfit _].
  - apply float_ideal_battery_contract.
  - q_eval.
  - q_eval.
  - apply Hfit. q_eval.
Defined.

End FloatInverterScenarios.

(** ** More on [load_data] *)

Module LoadDataMoreProofs.
Import Py LoadAkkudoktor CalibrationSpec LoadDataProofs.

(** Rows stack exactly when all of them have one width. *)
Lemma array_stacks (rows : list (list Q * list Q)) :
  (exists a, Np.array rows = Ok a) <->
  exists w, Forall (fun r => length (fst r) = w /\ length (snd r) = w) rows.
Proof.
  unfold Np.array. destruct rows as [| r rows].
  - split; [intros _; exists 0%nat; constructor | intros _; eauto].
  - destruct (forallb _ _) eqn:Hall.
    + split; [intros _ | eauto].
      exists (length (fst r)). apply List.Forall_forall. intros x Hx.
      pose proof (proj1 (forallb_forall _ _) Hall x Hx) as Hw.
      unfold Np.same_width in Hw. apply andb_true_iff in Hw as [H1 H2].
      split; now apply Nat.eqb_eq.
    + split; [intros [a Ha]; discriminate |].
      intros [w Hw]. exfalso.
      assert (Hr : length (fst r) = w) by (inversion Hw; tauto).
      assert (Htrue : forallb (Np.same_width (length (fst r))) (r :: rows) = true).
      { apply forallb_forall. intros x Hx.
        pose proof (proj1 (List.Forall_forall _ _) Hw x Hx) as [H1 H2].
        unfold Np.same_width. apply andb_true_iff.
        split; apply Nat.eqb_eq; congruence. }
      congruence.
Qed.

Lemma scale_profiles_ok (self : config) (file_data : npz) (y : Q)
    (p s : list (list Q)) :
  loadakkudoktor_year_energy self = Some y ->
  file_data !! "yearly_profiles"%string = Some p ->
  file_data !! "yearly_profiles_std"%string = Some s ->
  (exists a, Np.array (zip p s) = Ok a) ->
  scale_profiles self file_data = Ok (scaled_table p s y).
Proof.
  intros Hy Hp Hs [stacked Harr].
  destruct (scale_profiles self file_data) as [a | e] eqn:Hscale.
  - destruct (scale_profiles_some self file_data y a Hy Hscale)
      as (p' & s' & Hp' & Hs' & ->).
    congruence.
  - exfalso. revert Hscale. unfold scale_profiles, getitem.
    rewrite Hp, Hs, Hy.
    cbv beta iota delta [mbind result_bind bind]. rewrite Harr.
    rewrite NpFacts.mul_scalar_some. rewrite NpFacts.mul_scalar_some. discriminate.
Qed.

Lemma load_data_ok (self : config) (fs : filesystem) (file_data : npz) (a : Np.table) :
  load_profiles fs = Archive file_data ->
  scale_profiles self file_data = Ok a ->
  fst (load_data self fs) = Ok a.
Proof.
  intros Hfs Hscale. rewrite load_data_unfold. unfold np_load. rewrite Hfs.
  cbn [fst]. cbv beta iota delta [mbind result_bind bind]. now rewrite Hscale.
Qed.

Lemma load_data_ok_inv (self : config) (fs : filesystem) (a : Np.table) :
  fst (load_data self fs) = Ok a ->
  exists file_data,
    load_profiles fs = Archive file_data /\ scale_profiles self file_data = Ok a.
Proof.
  rewrite load_data_unfold. unfold np_load. cbn [fst].
  destruct (load_profiles fs) as [| [] | file_data]; cbn; try discriminate.
  cbv beta iota delta [mbind result_bind bind].
  destruct (scale_profiles self file_data) as [a' | []] eqn:Hs; try discriminate.
  intros [= <-]. eauto.
Qed.

(** X10.  With a configured yearly energy, [load_data] succeeds exactly
    when the archive can be opened, holds both [yearly_profiles] and
    [yearly_profiles_std], and all rows of the two, paired day by day,
    have one width; it then returns the scaled table. *)
Theorem load_data_succeeds_iff (self : config) (fs : filesystem) (y : Q) :
  loadakkudoktor_year_energy self = Some y ->
  forall a,
    fst (load_data self fs) = Ok a <->
    exists file_data p s w,
      load_profiles fs = Archive file_data /\
      file_data !! "yearly_profiles"%string = Some p /\
      file_data !! "yearly_profiles_std"%string = Some s /\
      Forall (fun r => length (fst r) = w /\ length (snd r) = w) (zip p s) /\
      a = scaled_table p s y.
Proof.
  intros Hy a. split.
  - intros Hok. destruct (load_data_ok_inv self fs a Hok) as (file_data & Hfs & Hscale).
    destruct (scale_profiles_some self file_data y a Hy Hscale)
      as (p & s & Hp & Hs & ->).
    assert (Hstack : exists stacked, Np.array (zip p s) = Ok stacked).
    { revert Hscale. unfold scale_profiles, getitem. rewrite Hp, Hs.
      cbv beta iota delta [mbind result_bind bind].
      destruct (Np.array (zip p s)) as [stacked | e]; [eauto | discriminate]. }
    apply array_stacks in Hstack as [w Hw].
    exists file_data, p, s, w. auto.
  - intros (file_data & p & s & w & Hfs & Hp & Hs & Hw & ->).
    apply (load_data_ok self fs file_data _ Hfs).
    apply scale_profiles_ok; auto. apply array_stacks. eauto.
Qed.

Lemma scaled_table_length (p s : list (list Q)) (y : Q) :
  length (scaled_table p s y) = Nat.min (length p) (length s).
Proof.
  unfold scaled_table. revert s.
  induction p as [| r p IH]; intros [| r' s]; cbn; auto.
Qed.

(** X11.  The two profiles are paired day by day with [zip]: when they
    hold different numbers of days, loading still succeeds and the
    table has as many days as the shorter one, each with a mean row and
    a deviation row; the remaining days of the longer profile are
    dropped. *)
Theorem load_data_day_count (self : config) (fs : filesystem) (y : Q)
    (file_data : npz) (p s : list (list Q)) (a : Np.table) :
  loadakkudoktor_year_energy self = Some y ->
  load_profiles fs = Archive file_data ->
  file_data !! "yearly_profiles"%string = Some p ->
  file_data !! "yearly_profiles_std"%string = Some s ->
  fst (load_data self fs) = Ok a ->
  length a = Nat.min (length p) (length s) /\
  Forall (fun day => length day = 2%nat) a.
Proof.
  intros Hy Hfs Hp Hs Hok.
  destruct (load_data_ok_inv self fs a Hok) as (file_data' & Hfs' & Hscale).
  assert (file_data' = file_data) by congruence. subst file_data'.
  destruct (scale_profiles_some self file_data y a Hy Hscale)
    as (p' & s' & Hp' & Hs' & ->).
  assert (p' = p) by congruence. assert (s' = s) by congruence. subst p' s'.
  split; [apply scaled_table_length |].
  unfold scaled_table. clear. revert s.
  induction p as [| r p IH]; intros [| r' s]; cbn; constructor; auto.
Qed.

(** X12.  An archive of 366 days by 24 hours, loaded with a configured
    yearly energy, gives a table of shape [(366, 2, 24)]: the table
    that the calibration and the forecast index by day of year and
    hour. *)
Theorem load_data_year_shape (self : config) (fs : filesystem) (y : Q)
    (file_data : npz) (p s : list (list Q)) :
  loadakkudoktor_year_energy self = Some y ->
  load_profiles fs = Archive file_data ->
  file_data !! "yearly_profiles"%string = Some p ->
  file_data !! "yearly_profiles_std"%string = Some s ->
  length p = 366%nat -> Forall (fun row => length row = 24%nat) p ->
  length s = 366%nat -> Forall (fun row => length row = 24%nat) s ->
  fst (load_data self fs) = Ok (scaled_table p s y) /\
  year_shape (scaled_table p s y).
Proof.
  intros Hy Hfs Hp Hs Hlp Hwp Hls Hws. split.
  - apply (load_data_ok self fs file_data _ Hfs).
    apply scale_profiles_ok; auto. apply array_stacks. exists 24%nat.
    clear - Hwp Hws. revert s Hws.
    induction Hwp as [| r p Hr _ IH]; intros s Hws; [constructor |].
    destruct Hws as [| r' s Hr' Hws]; constructor; auto.
  - split; [rewrite scaled_table_length; lia |].
    unfold scaled_table. clear - Hwp Hws. revert s Hws.
    induction Hwp as [| r p Hr _ IH]; intros s Hws; [constructor |].
    destruct Hws as [| r' s Hr' Hws]; constructor; auto.
    split; [reflexivity |].
    repeat constructor; now rewrite length_map.
Qed.

(** X13.  A yearly energy of zero is what gives a zero table: every
    mean and every deviation of the loaded table is 0. *)
Theorem load_data_zero_energy (self : config) (fs : filesystem) (y : Q)
    (a : Np.table) :
  loadakkudoktor_year_energy self = Some y ->
  y == 0 ->
  fst (load_data self fs) = Ok a ->
  Forall (Forall (Forall (fun x => x == 0))) a.
Proof.
  intros Hy Hzero Hok.
  destruct (load_data_ok_inv self fs a Hok) as (file_data & Hfs & Hscale).
  destruct (scale_profiles_some self file_data y a Hy Hscale)
    as (p & s & _ & _ & ->).
  assert (Hrow : forall row : list Q,
             Forall (fun x => x == 0) (map (fun x => x * y * 1000) row)).
  { intros row. apply Forall_map. apply List.Forall_forall. intros x _. cbn. nra. }
  unfold scaled_table. clear - Hrow. revert s.
  induction p as [| r p IH]; intros [| r' s]; cbn; constructor; auto.
Qed.

End LoadDataMoreProofs.

(** ** More on the calibration *)

Module CalibrationMoreProofs.
Import Py LoadAkkudoktor CalibrationSpec CalibrationProofs ForecastSpec.

Lemma set_length {A : Type} (a a' : list A) (i : Z) (x : A) :
  Np.set a i x = Ok a' -> length a' = length a.
Proof.
  unfold Np.set. destruct (Np.index (length a) i) as [k | e]; [| discriminate].
  intros [= <-]. apply length_insert.
Qed.

Lemma iadd_at_length (a a' : list Q) (i : Z) (x : Q) :
  iadd_at a i x = Ok a' -> length a' = length a.
Proof.
  unfold iadd_at. destruct (Np.get a i) as [old | e]; [| discriminate].
  apply set_length.
Qed.

Lemma mean_at_length (adjust adjust_weight adjust' : list Q) (i : Z) :
  LoadAkkudoktor.mean_at adjust adjust_weight i = Ok adjust' ->
  length adjust' = length adjust.
Proof.
  unfold LoadAkkudoktor.mean_at.
  destruct (Np.get adjust_weight i) as [w | e]; [| discriminate].
  cbv beta iota delta [mbind result_bind bind].
  destruct (Py.gt w 0).
  - destruct (Np.get adjust i) as [a | e]; [| discriminate]. apply set_length.
  - now intros [= <-].
Qed.

Lemma mean_loop_length (range : list nat) :
  forall acc acc',
    LoadAkkudoktor.mean_loop range acc = Ok acc' ->
    length (weekday_adjust acc') = length (weekday_adjust acc) /\
    length (weekend_adjust acc') = length (weekend_adjust acc).
Proof.
  induction range as [| i range IH]; intros acc acc'.
  - now intros [= <-].
  - cbn [LoadAkkudoktor.mean_loop]. unfold LoadAkkudoktor.mean_hour.
    destruct (LoadAkkudoktor.mean_at (weekday_adjust acc) _ _) as [wd |] eqn:Hwd;
      [| discriminate].
    destruct (LoadAkkudoktor.mean_at (weekend_adjust acc) _ _) as [we |] eqn:Hwe;
      [| discriminate].
    cbv beta iota delta [mbind result_bind bind].
    intros Hrest. apply IH in Hrest as [H1 H2]. cbn in H1, H2.
    apply mean_at_length in Hwd, Hwe. split; congruence.
Qed.

Section WithClock.
Context {datetime : Type} `{DateTime datetime}.

Lemma accumulate_sample_length (stats : Np.table) (compare_end t : datetime)
    (x : Q) (acc acc' : accumulators) :
  accumulate_sample stats compare_end t x acc = Ok acc' ->
  length (weekday_adjust acc') = length (weekday_adjust acc) /\
  length (weekend_adjust acc') = length (weekend_adjust acc).
Proof.
  unfold accumulate_sample.
  destruct (Np.day_hour stats _ _) as [hourly_stats |]; [| discriminate].
  cbv beta iota delta [mbind result_bind bind].
  destruct (truediv 1 _) as [w |]; [| discriminate].
  destruct (Np.get hourly_stats 0) as [mean |]; [| discriminate].
  destruct (day_of_week t <? 5)%Z.
  - destruct (iadd_at (weekday_adjust acc) _ _) as [a |] eqn:Ha; [| discriminate].
    destruct (iadd_at (weekday_adjust_weight acc) _ _) as [aw |]; [| discriminate].
    intros [= <-]. cbn. split; [now apply iadd_at_length in Ha | reflexivity].
  - destruct (iadd_at (weekend_adjust acc) _ _) as [a |] eqn:Ha; [| discriminate].
    destruct (iadd_at (weekend_adjust_weight acc) _ _) as [aw |]; [| discriminate].
    intros [= <-]. cbn. split; [reflexivity | now apply iadd_at_length in Ha].
Qed.

Lemma accumulate_length (stats : Np.table) (compare_end : datetime) (totals : list Q) :
  forall t acc acc',
    accumulate stats compare_end totals t acc = Ok acc' ->
    length (weekday_adjust acc') = length (weekday_adjust acc) /\
    length (weekend_adjust acc') = length (weekend_adjust acc).
Proof.
  induction totals as [| x totals IH]; intros t acc acc'.
  - now intros [= <-].
  - cbn [accumulate].
    destruct (accumulate_sample stats compare_end t x acc) as [acc1 |] eqn:Hstep;
      [| discriminate].
    cbv beta iota delta [mbind result_bind bind].
    intros Hrest. apply IH in Hrest as [H1 H2].
    apply accumulate_sample_length in Hstep as [H3 H4]. split; congruence.
Qed.

(** X14.  Whenever [_calculate_adjustment] returns, it returns two
    vectors of 24 entries, whatever the measurements and the table
    are. *)
Theorem calculate_adjustment_lengths (self : measurement datetime)
    (data_year_energy : Np.table) (weekday weekend : list Q) :
  _calculate_adjustment self data_year_energy = Ok (weekday, weekend) ->
  length weekday = 24%nat /\ length weekend = 24%nat.
Proof.
  unfold _calculate_adjustment.
  destruct (max_datetime self) as [latest |]; [| now intros [= <- <-]].
  destruct (accumulate _ _ _ _ _) as [acc1 |] eqn:Hloop; [| discriminate].
  cbv beta iota delta [mbind result_bind bind].
  destruct (LoadAkkudoktor.mean_loop _ acc1) as [acc2 |] eqn:Hmean; [| discriminate].
  intros [= <- <-].
  apply accumulate_length in Hloop as [H1 H2]. cbn in H1, H2.
  apply mean_loop_length in Hmean as [H3 H4]. split; congruence.
Qed.

(** The entries of the result, for a window inside the calendar. *)
Lemma calculate_adjustment_entries (self : measurement datetime)
    (stats : Np.table) (latest : datetime) :
  max_datetime self = Some latest ->
  year_shape stats ->
  Forall (fun s => in_window latest (fst s)) (window_samples self latest) ->
  exists weekday weekend,
    _calculate_adjustment self stats = Ok (weekday, weekend) /\
    length weekday = 24%nat /\ length weekend = 24%nat /\
    forall (class : bool) h, (h < 24)%nat ->
      entry (if class then weekday else weekend) h
      == weighted_mean stats latest class h (window_samples self latest).
Proof.
  intros Hmax Hshape Hwin.
  unfold _calculate_adjustment. rewrite Hmax.
  unfold window_samples in *. fold (window_start self latest).
  set (start := window_start self latest) in *.
  set (totals := load_total self start latest one_hour) in *.
  set (acc0 := {| weekday_adjust := Np.zeros 24;
                  weekday_adjust_weight := Np.zeros 24;
                  weekend_adjust := Np.zeros 24;
                  weekend_adjust_weight := Np.zeros 24 |}).
  assert (Hacc0 : hourly acc0) by (intros []; split; reflexivity).
  destruct (accumulate_spec stats latest totals Hshape start acc0 Hwin Hacc0)
    as (acc1 & Hloop & Hacc1 & Hsums).
  destruct (mean_loop_spec 24 0 acc1 (Nat.le_refl _) Hacc1)
    as (acc2 & Hmean & Hacc2 & Hdiv).
  rewrite Hloop. cbv beta iota delta [mbind result_bind bind]. rewrite Hmean.
  exists (weekday_adjust acc2), (weekend_adjust acc2). split; [reflexivity |].
  split; [apply (Hacc2 true) |]. split; [apply (Hacc2 false) |].
  intros class h Hh.
  change (if class then weekday_adjust acc2 else weekend_adjust acc2)
    with (adjust_of class acc2).
  destruct (Hdiv class) as [_ He]. rewrite He.
  replace ((0 <=? h) && (h <? 0 + 24))%nat with true
    by (symmetry; apply andb_true_iff; split;
        [apply Nat.leb_le | apply Nat.ltb_lt]; lia).
  destruct (Hsums class h) as [Ha Hw]. cbv zeta in Ha, Hw.
  destruct (bucket_weight latest (in_bucket class h) _ Hwin) as [_ Hempty].
  assert (Hz : entry (adjust_of class acc0) h = 0 /\ entry (weight_of class acc0) h = 0)
    by (destruct class; split; apply entry_zeros).
  destruct Hz as [Ha0 Hw0]. rewrite Ha0 in Ha. rewrite Hw0 in Hw.
  unfold divided, weighted_mean.
  set (bucket := List.filter (in_bucket class h) (samples_from start totals)) in *.
  assert (Hw' : entry (weight_of class acc1) h == weight_sum latest bucket) by lra.
  assert (Ha' : entry (adjust_of class acc1) h
                == weighted_residual_sum stats latest bucket) by lra.
  rewrite (gt_proper _ _ Hw').
  destruct (PyFacts.gt_spec (weight_sum latest bucket) 0) as [Hpos | Hnon].
  - now rewrite Ha', Hw'.
  - rewrite Ha'. rewrite Hempty by lra. reflexivity.
Qed.

Lemma Forall_filter_keep {A : Type} (P : A -> Prop) (keep : A -> bool) (l : list A) :
  Forall P l -> Forall P (List.filter keep l).
Proof.
  induction 1 as [| x l Hx _ IH]; cbn; [constructor |].
  destruct (keep x); [constructor |]; assumption.
Qed.

(** A weighted sum of residuals of one sign has that sign: the weights
    of a window are positive. *)
Lemma weighted_sum_sign (stats : Np.table) (compare_end : datetime)
    (bucket : list (datetime * Q)) :
  Forall (fun s => in_window compare_end (fst s)) bucket ->
  (Forall (fun s => 0 <= residual stats s) bucket ->
   0 <= weighted_residual_sum stats compare_end bucket) /\
  (Forall (fun s => residual stats s <= 0) bucket ->
   weighted_residual_sum stats compare_end bucket <= 0).
Proof.
  unfold weighted_residual_sum, Qsum.
  induction 1 as [| s bucket Hs _ [IHpos IHneg]]; [split; intros _; cbn; lra |].
  destruct (weight_in_window [] compare_end (fst s) Hs) as [_ Hpos].
  split; intros Hres; apply Forall_cons in Hres as [Hr Hrest].
  - specialize (IHpos Hrest). cbn [map foldr]. nra.
  - specialize (IHneg Hrest). cbn [map foldr]. nra.
Qed.

Lemma weighted_mean_sign (stats : Np.table) (compare_end : datetime)
    (class : bool) (h : nat) (samples : list (datetime * Q)) :
  Forall (fun s => in_window compare_end (fst s)) samples ->
  (Forall (fun s => 0 <= residual stats s) samples ->
   0 <= weighted_mean stats compare_end class h samples) /\
  (Forall (fun s => residual stats s <= 0) samples ->
   weighted_mean stats compare_end class h samples <= 0).
Proof.
  intros Hwin. unfold weighted_mean.
  set (bucket := List.filter (in_bucket class h) samples).
  destruct (weighted_sum_sign stats compare_end bucket (Forall_filter_keep _ _ _ Hwin))
    as [Hlo Hhi].
  destruct (PyFacts.gt_spec (weight_sum compare_end bucket) 0) as [Hpos | _];
    [| split; intros _; lra].
  split; intros Hres.
  - apply Qle_shift_div_l; [exact Hpos |].
    specialize (Hlo (Forall_filter_keep _ _ _ Hres)). lra.
  - apply Qle_shift_div_r; [exact Hpos |].
    specialize (Hhi (Forall_filter_keep _ _ _ Hres)). lra.
Qed.

(** X15.  The adjustment has the sign of the residuals it averages:
    for a window inside the calendar, when no window sample is below
    its baseline mean no entry of either vector is negative, and when
    no window sample is above its baseline mean no entry is positive.
    In particular, measurements that equal the baseline give an
    adjustment of zero. *)
Theorem calculate_adjustment_sign (self : measurement datetime)
    (data_year_energy : Np.table) (latest : datetime) :
  max_datetime self = Some latest ->
  year_shape data_year_energy ->
  Forall (fun s => in_window latest (fst s)) (window_samples self latest) ->
  exists weekday weekend,
    _calculate_adjustment self data_year_energy = Ok (weekday, weekend) /\
    (Forall (fun s => 0 <= residual data_year_energy s) (window_samples self latest) ->
     Forall (fun x => 0 <= x) weekday /\ Forall (fun x => 0 <= x) weekend) /\
    (Forall (fun s => residual data_year_energy s <= 0) (window_samples self latest) ->
     Forall (fun x => x <= 0) weekday /\ Forall (fun x => x <= 0) weekend).
Proof.
  intros Hmax Hshape Hwin.
  destruct (calculate_adjustment_entries self data_year_energy latest Hmax Hshape Hwin)
    as (weekday & weekend & Hok & Hlwd & Hlwe & Hentry).
  exists weekday, weekend. split; [exact Hok |].
  assert (Hall : forall (class : bool) (l : list Q),
             l = (if class then weekday else weekend) ->
             forall h x, l !! h = Some x ->
               x == weighted_mean data_year_energy latest class h
                      (window_samples self latest)).
  { intros class l -> h x Hx.
    assert (Hh : (h < 24)%nat).
    { apply lookup_lt_Some in Hx. destruct class; lia. }
    specialize (Hentry class h Hh). unfold entry in Hentry. rewrite Hx in Hentry.
    exact Hentry. }
  split; intros Hres; split; apply Forall_lookup; intros h x Hx.
  - rewrite (Hall true _ eq_refl h x Hx).
    apply (proj1 (weighted_mean_sign data_year_energy latest true h _ Hwin) Hres).
  - rewrite (Hall false _ eq_refl h x Hx).
    apply (proj1 (weighted_mean_sign data_year_energy latest false h _ Hwin) Hres).
  - rewrite (Hall true _ eq_refl h x Hx).
    apply (proj2 (weighted_mean_sign data_year_energy latest true h _ Hwin) Hres).
  - rewrite (Hall false _ eq_refl h x Hx).
    apply (proj2 (weighted_mean_sign data_year_energy latest false h _ Hwin) Hres).
Qed.

(** The lookup of lines 67 and 114 on a full-year table returns the
    mean and the deviation of the hour. *)
Lemma day_hour_in_calendar (stats : Np.table) (t : datetime) :
  year_shape stats -> in_calendar t ->
  Np.day_hour stats (day_of_year t - 1)%Z (hour t)
  = Ok [baseline_mean stats t; baseline_std stats t].
Proof.
  intros [Hdays Hshape] (Hhour & Hday).
  assert (Hd : (Z.to_nat (day_of_year t - 1) < length stats)%nat) by lia.
  destruct (lookup_lt_is_Some_2 stats _ Hd) as [day Hlookup].
  destruct (Forall_lookup_1 _ _ _ _ Hshape Hlookup) as [Hlen Hrows].
  destruct day as [| means [| stds [| ? ?]]]; try discriminate Hlen.
  apply Forall_cons in Hrows as [Hmeans Hrows].
  apply Forall_cons in Hrows as [Hstds _].
  assert (Hm : (Z.to_nat (hour t) < length means)%nat) by lia.
  assert (Hs : (Z.to_nat (hour t) < length stds)%nat) by lia.
  assert (Hh : hour t = Z.of_nat (Z.to_nat (hour t))) by lia.
  assert (Hd' : (day_of_year t - 1)%Z = Z.of_nat (Z.to_nat (day_of_year t - 1)))
    by lia.
  unfold baseline_mean, baseline_std.
  set (k := Z.to_nat (hour t)) in *.
  set (d := Z.to_nat (day_of_year t - 1)) in *.
  rewrite Hlookup. cbn [mbind option_bind default lookup list_lookup].
  rewrite (entry_lookup means k Hm), (entry_lookup stds k Hs). cbn [default].
  unfold Np.day_hour. rewrite Hd', Hh.
  rewrite (NpFacts.get_in_range stats d _ Hlookup).
  cbv beta iota delta [mbind result_bind bind].
  rewrite !NpFacts.mapM_cons.
  rewrite (NpFacts.get_in_range means k _ (entry_lookup means k Hm)).
  rewrite (NpFacts.get_in_range stds k _ (entry_lookup stds k Hs)).
  reflexivity.
Qed.

(** The loop stops at the first sample whose pass raises. *)
Lemma accumulate_fails_at (stats : Np.table) (compare_end : datetime) (e : exn)
    (t : datetime) (x : Q) :
  year_shape stats ->
  (forall acc, hourly acc -> accumulate_sample stats compare_end t x acc = Err e) ->
  forall (totals : list Q) (k : nat) (start : datetime) (acc : accumulators),
    hourly acc ->
    samples_from start totals !! k = Some (t, x) ->
    Forall (fun s => in_window compare_end (fst s)) (take k (samples_from start totals)) ->
    accumulate stats compare_end totals start acc = Err e.
Proof.
  intros Hshape Hfail. induction totals as [| y totals IH]; intros k start acc Hacc Hk Hpre.
  - destruct k; discriminate.
  - destruct k as [| k].
    + cbn in Hk. injection Hk as -> ->.
      cbn [accumulate]. now rewrite (Hfail acc Hacc).
    + cbn [samples_from] in Hk, Hpre. cbn in Hk. cbn [take] in Hpre.
      apply Forall_cons in Hpre as [Hhead Hpre]. cbn [fst] in Hhead.
      destruct (accumulate_sample_spec stats compare_end start y acc Hshape Hhead Hacc)
        as (acc1 & Hstep & Hacc1 & _).
      cbn [accumulate]. rewrite Hstep.
      cbv beta iota delta [mbind result_bind bind].
      exact (IH k _ acc1 Hacc1 Hk Hpre).
Qed.

(** X16.  A sample that lies a full day past the end of the window, after
    samples inside it, makes the weight [1 / ((compare_end - t).days + 1)]
    a division by zero: [_calculate_adjustment] raises
    [ZeroDivisionError] and returns no adjustment. *)
Theorem calculate_adjustment_past_end (self : measurement datetime)
    (data_year_energy : Np.table) (latest : datetime) (k : nat)
    (t : datetime) (x : Q) :
  max_datetime self = Some latest ->
  year_shape data_year_energy ->
  window_samples self latest !! k = Some (t, x) ->
  Forall (fun s => in_window latest (fst s)) (take k (window_samples self latest)) ->
  in_calendar t ->
  diff_days latest t = (-1)%Z ->
  _calculate_adjustment self data_year_energy = Err ZeroDivisionError.
Proof.
  intros Hmax Hshape Hk Hpre Hcal Hdays.
  unfold _calculate_adjustment. rewrite Hmax.
  unfold window_samples in *. fold (window_start self latest).
  rewrite (accumulate_fails_at data_year_energy latest ZeroDivisionError t x Hshape)
    with (k := k); auto.
  - intros acc _. unfold accumulate_sample.
    rewrite (day_hour_in_calendar _ _ Hshape Hcal), Hdays. reflexivity.
  - intros []; split; reflexivity.
Qed.

(** X17.  A table with fewer days than the day of the year of the
    first window sample is indexed out of bounds:
    [_calculate_adjustment] raises [IndexError]. *)
Theorem calculate_adjustment_short_table (self : measurement datetime)
    (data_year_energy : Np.table) (latest : datetime) :
  max_datetime self = Some latest ->
  window_samples self latest <> [] ->
  (Z.of_nat (length data_year_energy) < day_of_year (window_start self latest))%Z ->
  _calculate_adjustment self data_year_energy = Err IndexError.
Proof.
  intros Hmax Hsome Hshort.
  unfold _calculate_adjustment. rewrite Hmax.
  unfold window_samples in Hsome. fold (window_start self latest).
  set (start := window_start self latest) in *.
  destruct (load_total self start latest one_hour) as [| x totals]; [now cbn in Hsome |].
  cbn [accumulate]. unfold accumulate_sample, Np.day_hour, Np.get, Np.index.
  replace ((0 <=? day_of_year start - 1) &&
           (day_of_year start - 1 <? Z.of_nat (length data_year_energy)))%Z with false
    by (symmetry; apply andb_false_iff; right; apply Z.ltb_ge; lia).
  replace ((- Z.of_nat (length data_year_energy) <=? day_of_year start - 1) &&
           (day_of_year start - 1 <? 0))%Z with false
    by (symmetry; apply andb_false_iff; right; apply Z.ltb_ge; lia).
  reflexivity.
Qed.

End WithClock.

End CalibrationMoreProofs.

(** ** The forecast update *)

Module UpdateDataProofs.
Import Py LoadAkkudoktor LoadAkkudoktorUpdate CalibrationSpec ForecastSpec.
Import CalibrationProofs CalibrationMoreProofs.

Lemma get_entry (a : list Q) (i : Z) :
  length a = 24%nat -> (0 <= i < 24)%Z ->
  Np.get a i = Ok (entry a (Z.to_nat i)).
Proof.
  intros Hlen Hi.
  assert (Hk : (Z.to_nat i < length a)%nat) by lia.
  rewrite <- (Z2Nat.id i) at 1 by lia.
  apply NpFacts.get_in_range. now apply entry_lookup.
Qed.

Section WithClock.
Context {datetime : Type} `{DateTime datetime}.

Lemma add_records_app (a b : list (datetime * string * Q)) (self : provider datetime) :
  add_records b (add_records a self) = add_records (a ++ b) self.
Proof. unfold add_records. cbn. now rewrite app_assoc. Qed.

Lemma add_records_nil (self : provider datetime) :
  records (add_records [] self) = records self.
Proof. cbn. apply app_nil_r. Qed.

Lemma covered_in_calendar (stats : Np.table) (t : datetime) :
  year_shape stats -> in_calendar t -> covered stats t.
Proof.
  intros [Hdays Hshape] (Hhour & Hday).
  assert (Hd : (Z.to_nat (day_of_year t - 1) < length stats)%nat) by lia.
  destruct (lookup_lt_is_Some_2 stats _ Hd) as [day Hlookup].
  destruct (Forall_lookup_1 _ _ _ _ Hshape Hlookup) as [Hlen Hrows].
  destruct day as [| means [| stds [| ? ?]]]; try discriminate Hlen.
  apply Forall_cons in Hrows as [Hmeans Hrows].
  apply Forall_cons in Hrows as [Hstds _].
  split; [exact Hhour |]. split; [lia |]. eauto.
Qed.

Lemma day_hour_covered (stats : Np.table) (t : datetime) :
  covered stats t ->
  Np.day_hour stats (day_of_year t - 1)%Z (hour t)
  = Ok [baseline_mean stats t; baseline_std stats t].
Proof.
  intros (Hhour & Hday & means & stds & Hlookup & Hmeans & Hstds).
  assert (Hm : (Z.to_nat (hour t) < length means)%nat) by lia.
  assert (Hs : (Z.to_nat (hour t) < length stds)%nat) by lia.
  assert (Hh : hour t = Z.of_nat (Z.to_nat (hour t))) by lia.
  assert (Hd' : (day_of_year t - 1)%Z = Z.of_nat (Z.to_nat (day_of_year t - 1)))
    by lia.
  unfold baseline_mean, baseline_std.
  set (k := Z.to_nat (hour t)) in *.
  set (d := Z.to_nat (day_of_year t - 1)) in *.
  rewrite Hlookup. cbn [mbind option_bind default lookup list_lookup].
  rewrite (entry_lookup means k Hm), (entry_lookup stds k Hs). cbn [default].
  unfold Np.day_hour. rewrite Hd', Hh.
  rewrite (NpFacts.get_in_range stats d _ Hlookup).
  cbv beta iota delta [mbind result_bind bind].
  rewrite !NpFacts.mapM_cons.
  rewrite (NpFacts.get_in_range means k _ (entry_lookup means k Hm)).
  rewrite (NpFacts.get_in_range stds k _ (entry_lookup stds k Hs)).
  reflexivity.
Qed.

(** One pass of the loop stores the three values of its hour. *)
Lemma update_hour_ok (stats : Np.table) (weekday_adjust weekend_adjust : list Q)
    (t : datetime) (self : provider datetime) :
  covered stats t ->
  length weekday_adjust = 24%nat -> length weekend_adjust = 24%nat ->
  update_hour stats weekday_adjust weekend_adjust t self
  = (Ok tt, add_records (hour_records stats weekday_adjust weekend_adjust t) self).
Proof.
  intros Hcov Hwd Hwe.
  unfold update_hour, hour_records, is_weekday.
  unfold mbind, action_bind, lift, update_value.
  rewrite (day_hour_covered stats t Hcov).
  change (Np.get [baseline_mean stats t; baseline_std stats t] 0)
    with (Ok (A := Q) (baseline_mean stats t)).
  change (Np.get [baseline_mean stats t; baseline_std stats t] 1)
    with (Ok (A := Q) (baseline_std stats t)).
  cbv beta iota.
  destruct Hcov as [Hhour _].
  destruct (day_of_week t <? 5)%Z; cbv beta iota.
  - rewrite (get_entry weekday_adjust (hour t) Hwd Hhour). cbv beta iota.
    now rewrite !add_records_app.
  - rewrite (get_entry weekend_adjust (hour t) Hwe Hhour). cbv beta iota.
    now rewrite !add_records_app.
Qed.

(** A date past the last day of the table stops the pass before it
    stores anything. *)
Lemma update_hour_short (stats : Np.table) (weekday_adjust weekend_adjust : list Q)
    (t : datetime) (self : provider datetime) :
  (Z.of_nat (length stats) < day_of_year t)%Z ->
  update_hour stats weekday_adjust weekend_adjust t self = (Err IndexError, self).
Proof.
  intros Hshort. unfold update_hour. unfold mbind, action_bind, lift.
  unfold Np.day_hour, Np.get, Np.index.
  replace ((0 <=? day_of_year t - 1) &&
           (day_of_year t - 1 <? Z.of_nat (length stats)))%Z with false
    by (symmetry; apply andb_false_iff; right; apply Z.ltb_ge; lia).
  replace ((- Z.of_nat (length stats) <=? day_of_year t - 1) &&
           (day_of_year t - 1 <? 0))%Z with false
    by (symmetry; apply andb_false_iff; right; apply Z.ltb_ge; lia).
  reflexivity.
Qed.

Lemma stores_add_records (new : list (datetime * string * Q))
    (self : provider datetime) :
  stores self (add_records new self) new (update_datetime self).
Proof. repeat split. Qed.

Lemma stores_refl (self : provider datetime) :
  stores self self [] (update_datetime self).
Proof. repeat split. cbn. now rewrite app_nil_r. Qed.

Lemma stores_trans (self self1 self2 : provider datetime)
    (a b : list (datetime * string * Q)) (stamp1 stamp2 : option datetime) :
  stores self self1 a stamp1 -> stores self1 self2 b stamp2 ->
  stores self self2 (a ++ b) stamp2.
Proof.
  intros (Hr & _ & Hm & Hc & Hp & Hs) (Hr' & Hu' & Hm' & Hc' & Hp' & Hs').
  repeat split; try congruence. rewrite Hr', Hr. now rewrite app_assoc.
Qed.

Lemma update_hours_ok (stats : Np.table) (weekday_adjust weekend_adjust : list Q) :
  length weekday_adjust = 24%nat -> length weekend_adjust = 24%nat ->
  forall (n : nat) (t : datetime) (self : provider datetime),
    Forall (covered stats) (horizon n t) ->
    exists self',
      update_hours stats weekday_adjust weekend_adjust n t self = (Ok tt, self') /\
      stores self self' (forecast_records stats weekday_adjust weekend_adjust n t)
        (update_datetime self).
Proof.
  intros Hwd Hwe. induction n as [| n IH]; intros t self Hcal.
  - exists self. split; [reflexivity | apply stores_refl].
  - cbn [horizon] in Hcal. apply Forall_cons in Hcal as [Ht Hrest].
    destruct (IH (dt_add t one_hour)
                (add_records (hour_records stats weekday_adjust weekend_adjust t) self)
                Hrest) as (self' & Hrun & Hself').
    exists self'. split.
    + cbn [update_hours]. unfold mbind, action_bind at 1.
      rewrite (update_hour_ok stats _ _ t self Ht Hwd Hwe). exact Hrun.
    + unfold forecast_records. cbn [horizon map concat].
      eapply stores_trans; [apply stores_add_records | exact Hself'].
Qed.

(** The loop stops at the first hour past the table and keeps what the
    hours before it stored. *)
Lemma update_hours_short (stats : Np.table) (weekday_adjust weekend_adjust : list Q) :
  length weekday_adjust = 24%nat -> length weekend_adjust = 24%nat ->
  forall (k n : nat) (t0 t : datetime) (self : provider datetime),
    (k < n)%nat ->
    Forall (covered stats) (horizon k t0) ->
    horizon (S k) t0 !! k = Some t ->
    (Z.of_nat (length stats) < day_of_year t)%Z ->
    exists self',
      update_hours stats weekday_adjust weekend_adjust n t0 self
      = (Err IndexError, self') /\
      stores self self' (forecast_records stats weekday_adjust weekend_adjust k t0)
        (update_datetime self).
Proof.
  intros Hwd Hwe. induction k as [| k IH]; intros n t0 t self Hkn Hcov Hk Hshort.
  - destruct n as [| n]; [lia |]. cbn in Hk. injection Hk as ->.
    exists self. split; [| apply stores_refl].
    cbn [update_hours]. unfold mbind, action_bind at 1.
    now rewrite update_hour_short.
  - destruct n as [| n]; [lia |].
    cbn [horizon] in Hcov. apply Forall_cons in Hcov as [Ht0 Hrest].
    change (horizon (S (S k)) t0 !! S k)
      with (horizon (S k) (dt_add t0 one_hour) !! k) in Hk.
    assert (Hkn' : (k < n)%nat) by lia.
    destruct (IH n (dt_add t0 one_hour) t
                (add_records (hour_records stats weekday_adjust weekend_adjust t0) self)
                Hkn' Hrest Hk Hshort) as (self' & Hrun & Hself').
    exists self'. split.
    + cbn [update_hours]. unfold mbind, action_bind at 1.
      rewrite (update_hour_ok stats _ _ t0 self Ht0 Hwd Hwe). exact Hrun.
    + unfold forecast_records. cbn [horizon map concat].
      eapply stores_trans; [apply stores_add_records | exact Hself'].
Qed.

(** The two vectors of a computed adjustment have 24 entries. *)
Lemma adjustment_lengths (m : measurement datetime) (stats : Np.table)
    (weekday_adjust weekend_adjust : list Q) :
  _calculate_adjustment m stats = Ok (weekday_adjust, weekend_adjust) ->
  length weekday_adjust = 24%nat /\ length weekend_adjust = 24%nat.
Proof.
  unfold _calculate_adjustment.
  destruct (max_datetime m) as [latest |]; [| now intros [= <- <-]].
  destruct (accumulate _ _ _ _ _) as [acc1 |] eqn:Hloop; [| discriminate].
  cbv beta iota delta [mbind result_bind bind].
  destruct (LoadAkkudoktor.mean_loop _ acc1) as [acc2 |] eqn:Hmean; [| discriminate].
  intros [= <- <-].
  apply accumulate_length in Hloop as [H1 H2]. cbn in H1, H2.
  apply mean_loop_length in Hmean as [H3 H4]. split; congruence.
Qed.

(** Whatever happens in the loop, records are only appended and the
    rest of the provider is left alone. *)
Lemma update_hour_appends (stats : Np.table) (weekday_adjust weekend_adjust : list Q)
    (t : datetime) (self : provider datetime) :
  exists new,
    stores self (snd (update_hour stats weekday_adjust weekend_adjust t self)) new
      (update_datetime self).
Proof.
  unfold update_hour. unfold mbind, action_bind, lift, update_value.
  destruct (Np.day_hour stats _ _) as [hourly_stats |];
    [| exists []; apply stores_refl].
  destruct (Np.get hourly_stats 0) as [mean |]; [| exists []; apply stores_refl].
  cbv beta iota.
  destruct (Np.get hourly_stats 1) as [std |];
    [| eexists; apply stores_add_records].
  cbv beta iota.
  destruct (day_of_week t <? 5)%Z; cbv beta iota.
  - destruct (Np.get weekday_adjust (hour t)) as [a |]; cbv beta iota; cbn [snd];
      rewrite ?add_records_app; eexists; apply stores_add_records.
  - destruct (Np.get weekend_adjust (hour t)) as [a |]; cbv beta iota; cbn [snd];
      rewrite ?add_records_app; eexists; apply stores_add_records.
Qed.

Lemma update_hours_appends (stats : Np.table) (weekday_adjust weekend_adjust : list Q)
    (n : nat) :
  forall (t : datetime) (self : provider datetime),
    exists new,
      stores self (snd (update_hours stats weekday_adjust weekend_adjust n t self)) new
        (update_datetime self).
Proof.
  induction n as [| n IH]; intros t self.
  - exists []. apply stores_refl.
  - cbn [update_hours]. unfold mbind, action_bind at 1.
    destruct (update_hour_appends stats weekday_adjust weekend_adjust t self)
      as [new1 Hnew1].
    destruct (update_hour stats weekday_adjust weekend_adjust t self) as [[[] | e] self1];
      cbn [snd] in Hnew1.
    + destruct (IH (dt_add t one_hour) self1) as [new2 Hnew2].
      exists (new1 ++ new2). eapply stores_trans; [exact Hnew1 |].
      replace (update_datetime self) with (update_datetime self1)
        by (destruct Hnew1 as (_ & Hu & _); exact Hu).
      exact Hnew2.
    + exists new1. exact Hnew1.
Qed.

Lemma filter_key_app (key : string) (a b : list (datetime * string * Q)) :
  values_of key (a ++ b) = values_of key a ++ values_of key b.
Proof. unfold values_of. now rewrite List.filter_app, map_app. Qed.

(** The values that a forecast stores under each of the three keys. *)
Lemma values_of_forecast (stats : Np.table) (weekday_adjust weekend_adjust : list Q)
    (n : nat) :
  forall t : datetime,
    let new := forecast_records stats weekday_adjust weekend_adjust n t in
    values_of "load_mean" new = map (baseline_mean stats) (horizon n t) /\
    values_of "load_std" new = map (baseline_std stats) (horizon n t) /\
    values_of "load_mean_adjusted" new
    = map (fun t => baseline_mean stats t
                    + entry (if is_weekday t then weekday_adjust else weekend_adjust)
                        (Z.to_nat (hour t)))
          (horizon n t).
Proof.
  induction n as [| n IH]; intros t; [repeat split |].
  cbv zeta. unfold forecast_records. cbn [horizon map concat].
  destruct (IH (dt_add t one_hour)) as (Hm & Hs & Ha).
  unfold forecast_records in Hm, Hs, Ha.
  rewrite !filter_key_app, Hm, Hs, Ha. repeat split.
Qed.

(** X18.  When loading the table or computing the adjustment fails,
    [_update_data] raises that error before anything is stored: the
    provider is returned as it was, without a new record and with its
    old update time. *)
Theorem update_data_failure (now : datetime) (fs : filesystem)
    (self : provider datetime) (e : exn) :
  fst (load_data (config_of self) fs) = Err e \/
  (exists data_year_energy,
     fst (load_data (config_of self) fs) = Ok data_year_energy /\
     _calculate_adjustment (measurement_of self) data_year_energy = Err e) ->
  _update_data now fs self = (Err e, self, snd (load_data (config_of self) fs)).
Proof.
  unfold _update_data.
  destruct (load_data (config_of self) fs) as [loaded fs'].
  cbn [fst snd]. intros [-> | (data & -> & Hcal)]; [reflexivity |].
  now rewrite Hcal.
Qed.

(** X19.  With a full-year table, an adjustment and forecast hours
    that are dates of the calendar, [_update_data] succeeds: for each
    of the [prediction_hours] hours from [start_datetime] on, in order,
    it appends the baseline mean as [load_mean], the baseline deviation
    as [load_std] and the mean plus the adjustment of the hour's class
    and hour of day as [load_mean_adjusted], and sets the update time. *)
Theorem update_data_forecast (now : datetime) (fs : filesystem)
    (self : provider datetime) (data_year_energy : Np.table)
    (weekday_adjust weekend_adjust : list Q) :
  fst (load_data (config_of self) fs) = Ok data_year_energy ->
  year_shape data_year_energy ->
  _calculate_adjustment (measurement_of self) data_year_energy
  = Ok (weekday_adjust, weekend_adjust) ->
  Forall in_calendar
    (horizon (Z.to_nat (prediction_hours self)) (start_datetime self)) ->
  exists self',
    _update_data now fs self = (Ok tt, self', snd (load_data (config_of self) fs)) /\
    stores self self'
      (forecast_records data_year_energy weekday_adjust weekend_adjust
         (Z.to_nat (prediction_hours self)) (start_datetime self))
      (Some now).
Proof.
  intros Hload Hshape Hcal Hhours.
  destruct (adjustment_lengths _ _ _ _ Hcal) as [Hwd Hwe].
  assert (Hcov : Forall (covered data_year_energy)
                   (horizon (Z.to_nat (prediction_hours self)) (start_datetime self)))
    by (eapply Forall_impl; [exact Hhours | intros t; now apply covered_in_calendar]).
  destruct (update_hours_ok data_year_energy weekday_adjust weekend_adjust
              Hwd Hwe _ _ self Hcov) as (self1 & Hrun & Hstores).
  unfold _update_data.
  destruct (load_data (config_of self) fs) as [loaded fs'].
  cbn [fst snd] in *. subst loaded. rewrite Hcal, Hrun.
  eexists. split; [reflexivity |].
  destruct Hstores as (Hr & _ & Hrest). repeat split; try apply Hrest. exact Hr.
Qed.

(** X20.  Without any measurement the forecast is not corrected: on a
    full-year table, [_update_data] stores for every forecast hour a
    [load_mean_adjusted] equal to its [load_mean]. *)
Theorem update_data_without_measurement (now : datetime) (fs : filesystem)
    (self : provider datetime) (data_year_energy : Np.table) :
  max_datetime (measurement_of self) = None ->
  fst (load_data (config_of self) fs) = Ok data_year_energy ->
  year_shape data_year_energy ->
  Forall in_calendar
    (horizon (Z.to_nat (prediction_hours self)) (start_datetime self)) ->
  exists self' new,
    _update_data now fs self = (Ok tt, self', snd (load_data (config_of self) fs)) /\
    stores self self' new (Some now) /\
    length (values_of "load_mean" new) = Z.to_nat (prediction_hours self) /\
    Forall2 Qeq (values_of "load_mean_adjusted" new) (values_of "load_mean" new).
Proof.
  intros Hmax Hload Hshape Hhours.
  set (n := Z.to_nat (prediction_hours self)) in *.
  assert (Hcov : Forall (covered data_year_energy) (horizon n (start_datetime self)))
    by (eapply Forall_impl; [exact Hhours | intros t; now apply covered_in_calendar]).
  destruct (update_hours_ok data_year_energy (Np.zeros 24) (Np.zeros 24)
              eq_refl eq_refl n _ self Hcov) as (self1 & Hrun & Hstores).
  exists (set_update_datetime now self1),
    (forecast_records data_year_energy (Np.zeros 24) (Np.zeros 24) n
       (start_datetime self)).
  split; [| split; [| split]].
  - unfold _update_data.
    destruct (load_data (config_of self) fs) as [loaded fs'].
    cbn [fst snd] in *. subst loaded.
    unfold _calculate_adjustment. rewrite Hmax. fold n. now rewrite Hrun.
  - destruct Hstores as (Hr & _ & Hrest). repeat split; try apply Hrest. exact Hr.
  - destruct (values_of_forecast data_year_energy (Np.zeros 24) (Np.zeros 24) n
                (start_datetime self)) as (-> & _ & _).
    rewrite length_map. clear. generalize (start_datetime self).
    induction n as [| n IH]; intros t; cbn; auto.
  - destruct (values_of_forecast data_year_energy (Np.zeros 24) (Np.zeros 24) n
                (start_datetime self)) as (-> & _ & ->).
    clear. generalize (start_datetime self).
    induction n as [| n IH]; intros t; cbn [horizon map]; constructor; auto.
    destruct (is_weekday t); rewrite entry_zeros; lra.
Qed.

(** X21.  In every run, failed or not, [_update_data] only appends to
    the records and leaves the provider's settings alone; the update
    time is set exactly when the run succeeds. *)
Theorem update_data_appends (now : datetime) (fs : filesystem)
    (self : provider datetime) :
  let out := _update_data now fs self in
  snd out = snd (load_data (config_of self) fs) /\
  exists new,
    stores self (snd (fst out)) new
      (match fst (fst out) with
       | Ok _ => Some now
       | Err _ => update_datetime self
       end).
Proof.
  cbv zeta. unfold _update_data.
  destruct (load_data (config_of self) fs) as [[data |] fs'];
    [| split; [reflexivity | exists []; apply stores_refl]].
  destruct (_calculate_adjustment (measurement_of self) data) as [[wd we] |];
    [| split; [reflexivity | exists []; apply stores_refl]].
  destruct (update_hours_appends data wd we (Z.to_nat (prediction_hours self))
              (start_datetime self) self) as [new Hnew].
  destruct (update_hours data wd we _ _ self) as [[[] | e] self1]; cbn [fst snd] in *.
  - split; [reflexivity |]. exists new.
    destruct Hnew as (Hr & _ & Hrest). repeat split; try apply Hrest. exact Hr.
  - split; [reflexivity |]. exists new. exact Hnew.
Qed.

(** X22.  With a horizon of zero hours or less, [_update_data] stores
    nothing, on any table that loads and any adjustment that computes,
    and still sets the update time. *)
Theorem update_data_empty_horizon (now : datetime) (fs : filesystem)
    (self : provider datetime) (data_year_energy : Np.table)
    (adjust : list Q * list Q) :
  (prediction_hours self <= 0)%Z ->
  fst (load_data (config_of self) fs) = Ok data_year_energy ->
  _calculate_adjustment (measurement_of self) data_year_energy = Ok adjust ->
  _update_data now fs self
  = (Ok tt, set_update_datetime now self, snd (load_data (config_of self) fs)).
Proof.
  intros Hn Hload Hcal. unfold _update_data.
  destruct (load_data (config_of self) fs) as [loaded fs'].
  cbn [fst snd] in *. subst loaded. rewrite Hcal. destruct adjust as [wd we].
  replace (Z.to_nat (prediction_hours self)) with 0%nat by lia.
  reflexivity.
Qed.

(** X23.  The update is not all-or-nothing.  When the forecast
    reaches a date whose day of the year lies past the last day of the
    table, [_update_data] raises [IndexError] there: the records of the
    hours before that date stay stored, nothing is stored for it or
    after it, and the update time is not set. *)
Theorem update_data_partial (now : datetime) (fs : filesystem)
    (self : provider datetime) (data_year_energy : Np.table)
    (weekday_adjust weekend_adjust : list Q) (k : nat) (t : datetime) :
  fst (load_data (config_of self) fs) = Ok data_year_energy ->
  _calculate_adjustment (measurement_of self) data_year_energy
  = Ok (weekday_adjust, weekend_adjust) ->
  (Z.of_nat k < prediction_hours self)%Z ->
  Forall (covered data_year_energy) (horizon k (start_datetime self)) ->
  horizon (S k) (start_datetime self) !! k = Some t ->
  (Z.of_nat (length data_year_energy) < day_of_year t)%Z ->
  exists self',
    _update_data now fs self
    = (Err IndexError, self', snd (load_data (config_of self) fs)) /\
    stores self self'
      (forecast_records data_year_energy weekday_adjust weekend_adjust k
         (start_datetime self))
      (update_datetime self).
Proof.
  intros Hload Hcal Hk Hcov Ht Hshort.
  destruct (adjustment_lengths _ _ _ _ Hcal) as [Hwd Hwe].
  assert (Hkn : (k < Z.to_nat (prediction_hours self))%nat) by lia.
  destruct (update_hours_short data_year_energy weekday_adjust weekend_adjust
              Hwd Hwe k _ _ t self Hkn Hcov Ht Hshort) as (self1 & Hrun & Hstores).
  unfold _update_data.
  destruct (load_data (config_of self) fs) as [loaded fs'].
  cbn [fst snd] in *. subst loaded. rewrite Hcal, Hrun.
  exists self1. split; [reflexivity | exact Hstores].
Qed.

End WithClock.

End UpdateDataProofs.

(** ** Loading, calibration and update on concrete data *)

Module MoreScenarios.
Import Py LoadAkkudoktor LoadAkkudoktorUpdate CalibrationSpec ForecastSpec.
Import LoadDataMoreProofs CalibrationMoreProofs UpdateDataProofs.
Import Examples MoreExamples.

Lemma in_calendar_check_sound (dates : list Z) :
  forallb in_calendar_check dates = true -> Forall in_calendar dates.
Proof.
  intros Hall. apply List.Forall_forall. intros t Ht.
  pose proof (proj1 (forallb_forall _ _) Hall t Ht) as Hcheck.
  unfold in_calendar_check in Hcheck.
  repeat (apply andb_true_iff in Hcheck as [Hcheck ?]).
  unfold in_calendar. repeat split;
    first [now apply Z.leb_le | now apply Z.ltb_lt].
Qed.

Lemma flat_table_shape (mean std : Q) :
  year_shape (replicate 366 [replicate 24 mean; replicate 24 std]).
Proof.
  split; [apply length_replicate |].
  apply Forall_replicate. split; [reflexivity |].
  repeat constructor; apply length_replicate.
Qed.

(** The full-year archive loads to 100 Wh of mean and 10 Wh of
    deviation in every hour. *)
Example flat_archive_loads :
  fst (load_data {| loadakkudoktor_year_energy := Some 1 |} (flat_archive 366))
  = Ok (replicate 366 [replicate 24 (1000 # 10); replicate 24 (1000 # 100)]).
Proof. vm_compute. reflexivity. Qed.

Lemma load_data_succeeds_iff_witness :
  fst (load_data {| loadakkudoktor_year_energy := Some 2 |} present)
  = Ok (scaled_table [[1; 2; 3]; [4; 5; 6]]
          [[1 # 2; 1 # 2; 1 # 2]; [1 # 4; 1 # 4; 1 # 4]] 2).
Proof.
  apply (load_data_succeeds_iff {| loadakkudoktor_year_energy := Some 2 |} present 2
           eq_refl).
  exists small_archive, [[1; 2; 3]; [4; 5; 6]],
    [[1 # 2; 1 # 2; 1 # 2]; [1 # 4; 1 # 4; 1 # 4]], 3%nat.
  repeat split; repeat constructor.
Defined.

(** Three days of means and two days of deviations load as two days. *)
Lemma load_data_day_count_witness :
  exists a,
    fst (load_data {| loadakkudoktor_year_energy := Some 2 |} uneven_archive) = Ok a /\
    length a = 2%nat /\ Forall (fun day => length day = 2%nat) a.
Proof.
  eexists. split; [vm_compute; reflexivity |].
  refine (load_data_day_count {| loadakkudoktor_year_energy := Some 2 |}
            uneven_archive 2 uneven_profiles [[1]; [2]; [3]] [[1 # 2]; [1 # 4]] _
            _ _ _ _ _); vm_compute; reflexivity.
Defined.

Lemma load_data_year_shape_witness :
  year_shape (scaled_table (replicate 366 (replicate 24 (1 # 10)))
                (replicate 366 (replicate 24 (1 # 100))) 1).
Proof.
  apply (load_data_year_shape {| loadakkudoktor_year_energy := Some 1 |}
           (flat_archive 366) 1
           (list_to_map
              [("yearly_profiles"%string, replicate 366 (replicate 24 (1 # 10)));
               ("yearly_profiles_std"%string, replicate 366 (replicate 24 (1 # 100)))])
           (replicate 366 (replicate 24 (1 # 10)))
           (replicate 366 (replicate 24 (1 # 100))));
    try reflexivity;
    try (apply Forall_replicate; apply length_replicate);
    apply length_replicate.
Defined.

Lemma load_data_zero_energy_witness :
  exists a,
    fst (load_data {| loadakkudoktor_year_energy := Some 0 |} present) = Ok a /\
    Forall (Forall (Forall (fun x => x == 0))) a.
Proof.
  eexists. split; [vm_compute; reflexivity |].
  apply (load_data_zero_energy {| loadakkudoktor_year_energy := Some 0 |} present 0);
    [reflexivity | q_eval | vm_compute; reflexivity].
Defined.

Lemma calculate_adjustment_lengths_witness :
  exists weekday weekend,
    _calculate_adjustment two_days (flat_year 100 10) = Ok (weekday, weekend) /\
    length weekday = 24%nat /\ length weekend = 24%nat.
Proof.
  eexists _, _. split; [vm_compute; reflexivity |].
  apply (calculate_adjustment_lengths two_days (flat_year 100 10)).
  vm_compute. reflexivity.
Defined.

(** Monday's measurements lie 30 above the baseline and Tuesday's 60:
    no adjustment is negative. *)
Lemma calculate_adjustment_sign_witness :
  exists weekday weekend,
    _calculate_adjustment two_days (flat_year 100 10) = Ok (weekday, weekend) /\
    Forall (fun x => 0 <= x) weekday /\ Forall (fun x => 0 <= x) weekend.
Proof.
  destruct (calculate_adjustment_sign two_days (flat_year 100 10) (monday + 25)%Z)
    as (weekday & weekend & Hok & Hpos & _).
  - reflexivity.
  - apply CalibrationScenarios.flat_year_shape.
  - apply CalibrationScenarios.in_window_check_sound. vm_compute. reflexivity.
  - exists weekday, weekend. split; [exact Hok |]. apply Hpos.
    repeat (constructor; [q_eval |]). constructor.
Defined.

Lemma calculate_adjustment_past_end_witness :
  _calculate_adjustment overlong_series (flat_year 100 10) = Err ZeroDivisionError.
Proof.
  apply (calculate_adjustment_past_end overlong_series (flat_year 100 10)
           (monday + 1)%Z 25 (monday + 25)%Z 130).
  - reflexivity.
  - apply CalibrationScenarios.flat_year_shape.
  - vm_compute. reflexivity.
  - apply CalibrationScenarios.in_window_check_sound. vm_compute. reflexivity.
  - apply (proj1 (List.Forall_forall _ _)
             (in_calendar_check_sound [(monday + 25)%Z] ltac:(vm_compute; reflexivity))).
    now left.
  - vm_compute. reflexivity.
Defined.

(** A table of 365 days and a window that starts on the last day of
    a leap year. *)
Lemma calculate_adjustment_short_table_witness :
  _calculate_adjustment leap_day_series
    (replicate 365 [replicate 24 100; replicate 24 10])
  = Err IndexError.
Proof.
  apply (calculate_adjustment_short_table leap_day_series
           (replicate 365 [replicate 24 100; replicate 24 10])
           (monday + 365 * 24 + 1)%Z).
  - reflexivity.
  - vm_compute. discriminate.
  - vm_compute. reflexivity.
Defined.

Lemma update_data_failure_witness :
  _update_data (monday + 30)%Z absent (forecaster two_days 3)
  = (Err FileNotFoundError, forecaster two_days 3,
     snd (load_data {| loadakkudoktor_year_energy := Some 1 |} absent)).
Proof.
  apply (update_data_failure (monday + 30)%Z absent (forecaster two_days 3)
           FileNotFoundError).
  left. reflexivity.
Defined.

(** Three forecast hours from Monday 23:00 on, corrected by the
    adjustment that [two_days] gives. *)
Lemma update_data_forecast_witness :
  exists weekday_adjust weekend_adjust,
    _calculate_adjustment two_days
      (replicate 366 [replicate 24 (1000 # 10); replicate 24 (1000 # 100)])
    = Ok (weekday_adjust, weekend_adjust) /\
    exists self',
      _update_data (monday + 30)%Z (flat_archive 366) (forecaster two_days 3)
      = (Ok tt, self',
         snd (load_data {| loadakkudoktor_year_energy := Some 1 |} (flat_archive 366))) /\
      stores (forecaster two_days 3) self'
        (forecast_records
           (replicate 366 [replicate 24 (1000 # 10); replicate 24 (1000 # 100)])
           weekday_adjust weekend_adjust 3 (monday + 23)%Z)
        (Some (monday + 30)%Z).
Proof.
  eexists _, _. split; [vm_compute; reflexivity |].
  apply (update_data_forecast (monday + 30)%Z (flat_archive 366)
           (forecaster two_days 3)).
  - exact flat_archive_loads.
  - apply flat_table_shape.
  - vm_compute. reflexivity.
  - apply in_calendar_check_sound. vm_compute. reflexivity.
Defined.

Lemma update_data_without_measurement_witness :
  exists self' new,
    _update_data (monday + 30)%Z (flat_archive 366) (forecaster no_measurement 3)
    = (Ok tt, self',
       snd (load_data {| loadakkudoktor_year_energy := Some 1 |} (flat_archive 366))) /\
    stores (forecaster no_measurement 3) self' new (Some (monday + 30)%Z) /\
    length (values_of "load_mean" new) = 3%nat /\
    Forall2 Qeq (values_of "load_mean_adjusted" new) (values_of "load_mean" new).
Proof.
  apply (update_data_without_measurement (monday + 30)%Z (flat_archive 366)
           (forecaster no_measurement 3)
           (replicate 366 [replicate 24 (1000 # 10); replicate 24 (1000 # 100)])).
  - reflexivity.
  - exact flat_archive_loads.
  - apply flat_table_shape.
  - apply in_calendar_check_sound. vm_compute. reflexivity.
Defined.

Lemma update_data_empty_horizon_witness :
  _update_data (monday + 30)%Z (flat_archive 366) (forecaster no_measurement 0)
  = (Ok tt, set_update_datetime (monday + 30)%Z (forecaster no_measurement 0),
     snd (load_data {| loadakkudoktor_year_energy := Some 1 |} (flat_archive 366))).
Proof.
  apply (update_data_empty_horizon (monday + 30)%Z (flat_archive 366)
           (forecaster no_measurement 0)
           (replicate 366 [replicate 24 (1000 # 10); replicate 24 (1000 # 100)])
           (Np.zeros 24, Np.zeros 24)).
  - vm_compute. discriminate.
  - exact flat_archive_loads.
  - reflexivity.
Defined.

(** A table of one day and a forecast of two hours from Monday 23:00:
    the first hour is stored, the second is Tuesday's and raises. *)
Lemma update_data_partial_witness :
  exists self',
    _update_data (monday + 30)%Z (flat_archive 1) (forecaster no_measurement 2)
    = (Err IndexError, self',
       snd (load_data {| loadakkudoktor_year_energy := Some 1 |} (flat_archive 1))) /\
    stores (forecaster no_measurement 2) self'
      (forecast_records [[replicate 24 (1000 # 10); replicate 24 (1000 # 100)]]
         (Np.zeros 24) (Np.zeros 24) 1 (monday + 23)%Z)
      None.
Proof.
  apply (update_data_partial (monday + 30)%Z (flat_archive 1)
           (forecaster no_measurement 2)
           [[replicate 24 (1000 # 10); replicate 24 (1000 # 100)]]
           (Np.zeros 24) (Np.zeros 24) 1 (monday + 24)%Z).
  - vm_compute. reflexivity.
  - reflexivity.
  - vm_compute. reflexivity.
  - constructor; [| constructor].
    split; [split; [apply Z.leb_le | apply Z.ltb_lt]; vm_compute; reflexivity |].
    split; [apply Z.leb_le; vm_compute; reflexivity |].
    exists (replicate 24 (1000 # 10)), (replicate 24 (1000 # 100)).
    split; [vm_compute; reflexivity | split; reflexivity].
  - vm_compute. reflexivity.
  - apply Z.ltb_lt. vm_compute. reflexivity.
Defined.

End MoreScenarios.
